(** * Benford first-digit analysis (benford_analysis.py): model and properties

    The development follows the source file top to bottom: the Python
    builtins it relies on (str methods, [int], [float], list indexing,
    binary64 arithmetic, the [.12g] format), the ElementTree queries, the
    spreadsheet extractor ([_load_shared_strings], [_column_headers],
    [_cell_value], [_read_amounts]) and the analyzer ([_first_digit],
    [analyze_first_digits]).

    Conventions.
    - A Python [str] is a [string] whose characters are code points below
      256; the character classes ([isalpha], [isdigit], white space) are
      the Unicode ones restricted to that range.
    - A Python [float] is a [spec_float] read as an IEEE binary64 value
      (53-bit significand, round to nearest even).
    - A raised exception is the [Raise] branch of [result].
    - Exact values of floats are rational numbers ([Q]); they serve in
      the statements about scaling by powers of ten. *)

From Stdlib Require Import ZArith Lia Ascii String List SpecFloat.
From Stdlib Require Import QArith Qpower Qfield Lqa Qabs.
From stdpp Require Import base option list gmap strings.

Local Open Scope Z_scope.

(** ** Exceptions and the error monad

    The exceptions the program meets, by class; [OtherError] stands for
    an exception of any other class, which only a library can raise. *)

Inductive exn : Type :=
| FileNotFoundError
| BadZipFile
| KeyError (key : string)
| ParseError
| ValueError (msg : string)
| TypeError
| IndexError
| OverflowError
| ZeroDivisionError
| OtherError (name : string).

Inductive result (A : Type) : Type :=
| Ok (a : A)
| Raise (e : exn).
Arguments Ok {A} a.
Arguments Raise {A} e.

#[global] Instance result_ret : MRet result := @Ok.
#[global] Instance result_bind : MBind result :=
  fun A B f m => match m with Ok a => f a | Raise e => Raise e end.

(** ** Python strings *)

Module PyStr.

Definition code (c : ascii) : Z := Z.of_N (N_of_ascii c).

Definition between (lo hi : Z) (c : ascii) : bool :=
  (lo <=? code c) && (code c <=? hi).

(** [str.isalpha] on one character. *)
Definition isalpha (c : ascii) : bool :=
  between 65 90 c || between 97 122 c
  || (code c =? 170) || (code c =? 181) || (code c =? 186)
  || between 192 214 c || between 216 246 c || between 248 255 c.

(** [str.isdigit] on one character: the decimal digits and the
    superscripts two, three and one. *)
Definition isdigit (c : ascii) : bool :=
  between 48 57 c || (code c =? 178) || (code c =? 179) || (code c =? 185).

(** The characters [int] and [float] skip around a numeral. *)
Definition isspace_num (c : ascii) : bool :=
  between 9 13 c || (code c =? 32) || (code c =? 133) || (code c =? 160).

Definition is_dec (c : ascii) : bool := between 48 57 c.

Definition dec_val (c : ascii) : Z := code c - 48.

(** [s.lstrip(c)] for a one-character argument. *)
Fixpoint lstrip (c : ascii) (s : string) : string :=
  match s with
  | String a s' => if Ascii.eqb a c then lstrip c s' else s
  | EmptyString => EmptyString
  end.

Fixpoint lstrip_by (p : ascii -> bool) (s : string) : string :=
  match s with
  | String a s' => if p a then lstrip_by p s' else s
  | EmptyString => EmptyString
  end.

Fixpoint filter (p : ascii -> bool) (s : string) : string :=
  match s with
  | String a s' => if p a then String a (filter p s') else filter p s'
  | EmptyString => EmptyString
  end.

Fixpoint rev_acc (s acc : string) : string :=
  match s with
  | String a s' => rev_acc s' (String a acc)
  | EmptyString => acc
  end.

Definition rev (s : string) : string := rev_acc s EmptyString.

Definition strip_by (p : ascii -> bool) (s : string) : string :=
  rev (lstrip_by p (rev (lstrip_by p s))).

(** [str.join] with the empty separator. *)
Definition join (l : list string) : string :=
  fold_right String.append EmptyString l.

(** [x or empty] for an optional text: the empty string for [None]. *)
Definition or_empty (t : option string) : string :=
  match t with Some s => s | None => EmptyString end.

End PyStr.

(** ** [int(text)] for a [str] argument, base ten *)

Module PyInt.
Import PyStr.

(** Digits with single underscores allowed between two digits.
    [acc] is the value read so far, [prev] tells whether the previous
    character was a digit. *)
Fixpoint digits (s : string) (acc : Z) (prev : bool) : option Z :=
  match s with
  | EmptyString => if prev then Some acc else None
  | String c s' =>
      if is_dec c then digits s' (10 * acc + dec_val c) true
      else if Ascii.eqb c "_" then
             (if prev then
                match s' with
                | String c' _ => if is_dec c' then digits s' acc false else None
                | EmptyString => None
                end
              else None)
      else None
  end.

Definition signed (s : string) : option Z :=
  match s with
  | String "-" s' => Z.opp <$> digits s' 0 false
  | String "+" s' => digits s' 0 false
  | _ => digits s 0 false
  end.

Definition invalid_literal : exn :=
  ValueError "invalid literal for int() with base 10".

(** [int(t)] where [t] is [None] or a [str]. The limit that recent
    interpreters put on the number of digits is not modelled. *)
Definition int (t : option string) : result Z :=
  match t with
  | None => Raise TypeError
  | Some s =>
      match signed (strip_by isspace_num s) with
      | Some z => Ok z
      | None => Raise invalid_literal
      end
  end.

End PyInt.

(** ** Lists: [l[i]] with Python's negative indices *)

Definition list_index {A} (l : list A) (i : Z) : result A :=
  let n := Z.of_nat (length l) in
  let j := if i <? 0 then i + n else i in
  if (j <? 0) || (n <=? j) then Raise IndexError
  else match l !! Z.to_nat j with
       | Some a => Ok a
       | None => Raise IndexError
       end.

(** ** Dictionaries whose iteration order matters

    A [dict] keeps its keys in insertion order; assigning to a key that is
    already present keeps its position. *)

Section Dict.
Context {K V : Type} `{EqDecision K}.

Definition dict : Type := list (K * V).

Fixpoint dict_get (d : dict) (k : K) : option V :=
  match d with
  | [] => None
  | (k', v) :: d' => if decide (k' = k) then Some v else dict_get d' k
  end.

Fixpoint dict_set (d : dict) (k : K) (v : V) : dict :=
  match d with
  | [] => [(k, v)]
  | (k', v') :: d' =>
      if decide (k' = k) then (k, v) :: d' else (k', v') :: dict_set d' k v
  end.

Definition dict_keys (d : dict) : list K := d.*1.

End Dict.
Arguments dict K V : clear implicits.

(** ** ElementTree *)

#[warnings="-register-all"]
Inductive Element : Type :=
  mkElement {
      tag : string;
      attrib : gmap string string;
      text : option string;
      children : list Element
    }.

Module ET.

Definition NS_a : string :=
  "http://schemas.openxmlformats.org/spreadsheetml/2006/main".

(** The expanded name of [a:name]. *)
Definition qname (name : string) : string :=
  ("{" ++ NS_a ++ "}" ++ name)%string.

Definition has_tag (name : string) (e : Element) : bool :=
  String.eqb (tag e) (qname name).

(** [e.findall("a:name", NS)]: the direct children with that tag. *)
Definition findall (e : Element) (name : string) : list Element :=
  List.filter (has_tag name) (children e).

(** [e.find("a:name", NS)] *)
Definition find (e : Element) (name : string) : option Element :=
  head (findall e name).

(** [e.findall("a:n1/a:n2", NS)] *)
Definition findall2 (e : Element) (n1 n2 : string) : list Element :=
  flat_map (fun c => findall c n2) (findall e n1).

(** [e.iter()]: the element and its descendants in document order. *)
Fixpoint iter (e : Element) : list Element :=
  match e with
  | mkElement _ _ _ cs => e :: flat_map iter cs
  end.

Definition descendants (e : Element) : list Element :=
  flat_map iter (children e).

(** [e.findall(".//a:n1/a:n2", NS)] *)
Definition findall_desc2 (e : Element) (n1 n2 : string) : list Element :=
  flat_map (fun d => findall d n2) (List.filter (has_tag n1) (descendants e)).

(** [e.attrib.get(k)] *)
Definition get (e : Element) (k : string) : option string := attrib e !! k.

End ET.

(** ** Python floats: IEEE binary64 *)

Module PyFloat.
Import PyStr.

Definition prec : Z := 53.
Definition emax : Z := 1024.

Definition float : Type := spec_float.

Definition zero : float := S754_zero false.
Definition mul : float -> float -> float := SFmul prec emax.
Definition add : float -> float -> float := SFadd prec emax.
Definition sub : float -> float -> float := SFsub prec emax.
Definition div : float -> float -> float := SFdiv prec emax.
Definition abs : float -> float := SFabs.
Definition eqb : float -> float -> bool := SFeqb.
Definition ltb : float -> float -> bool := SFltb.

(** The binary64 value nearest to an integer (ties to even);
    an infinity when the integer is out of range. *)
Definition of_Z (z : Z) : float := binary_normalize prec emax z 0 false.

(** The binary64 value nearest to [n/d], with sign [s]. *)
Definition round_ratio (s : bool) (n d : positive) : float :=
  div (S754_finite s n 0) (S754_finite false d 0).

(** [float(i)] for an [int]: the implicit conversion of mixed
    arithmetic. *)
Definition of_int (z : Z) : result float :=
  match of_Z z with
  | S754_infinity _ => Raise OverflowError
  | f => Ok f
  end.

(** *** [float(text)] *)

(** Underscores may only stand between two digits; they are removed. *)
Fixpoint drop_underscores (s : string) (prev : option ascii) : option string :=
  match s with
  | EmptyString =>
      match prev with
      | Some "_"%char => None
      | _ => Some EmptyString
      end
  | String c s' =>
      if Ascii.eqb c "_" then
        match prev with
        | Some p => if is_dec p then drop_underscores s' (Some c) else None
        | None => None
        end
      else
        match prev with
        | Some "_"%char =>
            if is_dec c then String c <$> drop_underscores s' (Some c) else None
        | _ => String c <$> drop_underscores s' (Some c)
        end
  end.

(** Reads a run of decimal digits: the value accumulated on [acc],
    the number of digits read and the rest of the text. *)
Fixpoint read_digits (s : string) (acc cnt : Z) : Z * Z * string :=
  match s with
  | String c s' =>
      if is_dec c then read_digits s' (10 * acc + dec_val c) (cnt + 1)
      else (acc, cnt, s)
  | EmptyString => (acc, cnt, s)
  end.

Definition lower (c : ascii) : ascii :=
  if between 65 90 c then ascii_of_N (N_of_ascii c + 32) else c.

Fixpoint lower_string (s : string) : string :=
  match s with
  | String c s' => String (lower c) (lower_string s')
  | EmptyString => EmptyString
  end.

(** The exponent part [e[+-]ddd]; [None] when the text after the
    mantissa is not a complete exponent. *)
Definition read_exponent (s : string) : option Z :=
  match s with
  | EmptyString => Some 0
  | String c s' =>
      if Ascii.eqb (lower c) "e" then
        let '(neg, s'') :=
          match s' with
          | String "-" t => (true, t)
          | String "+" t => (false, t)
          | _ => (false, s')
          end in
        let '(v, cnt, rest) := read_digits s'' 0 0 in
        if (0 <? cnt) && String.eqb rest EmptyString
        then Some (if neg then - v else v) else None
      else None
  end.

(** The value [m * 10^e] rounded to binary64. *)
Definition of_decimal (s : bool) (m e : Z) : float :=
  match m with
  | Zpos p =>
      if 0 <=? e then binary_normalize prec emax (if s then - (m * 10 ^ e) else m * 10 ^ e) 0 s
      else round_ratio s p (Z.to_pos (10 ^ (- e)))
  | _ => S754_zero s
  end.

Definition read_unsigned (s : bool) (t : string) : option float :=
  let l := lower_string t in
  if String.eqb l "inf" || String.eqb l "infinity" then Some (S754_infinity s)
  else if String.eqb l "nan" then Some S754_nan
  else
    let '(ip, icnt, r1) := read_digits t 0 0 in
    let '(m, fcnt, r2) :=
      match r1 with
      | String "." r => let '(m, fcnt, r2) := read_digits r ip 0 in (m, fcnt, r2)
      | _ => (ip, 0, r1)
      end in
    if icnt + fcnt =? 0 then None
    else match read_exponent r2 with
         | Some e => Some (of_decimal s m (e - fcnt))
         | None => None
         end.

Definition could_not_convert : exn :=
  ValueError "could not convert string to float".

Definition of_string (t : string) : result float :=
  match drop_underscores (strip_by isspace_num t) None with
  | None => Raise could_not_convert
  | Some u =>
      let r := match u with
               | String "-" u' => read_unsigned true u'
               | String "+" u' => read_unsigned false u'
               | _ => read_unsigned false u
               end in
      match r with
      | Some f => Ok f
      | None => Raise could_not_convert
      end
  end.

End PyFloat.

(** ** Spreadsheet extractor *)

Definition _load_shared_strings (shared : Element) : list string :=
  map (fun si =>
         match ET.find si "t" with
         | Some text_node => PyStr.or_empty (text text_node)
         | None =>
             PyStr.join (map (fun run => PyStr.or_empty (text run))
                             (ET.findall2 si "r" "t"))
         end)
      (ET.findall shared "si").

(** The column identifier of a cell: the alphabetic characters of its
    reference. *)
Definition column_of (cell : Element) : string :=
  let cell_ref := default EmptyString (ET.get cell "r") in
  PyStr.filter PyStr.isalpha cell_ref.

(** One turn of the loop of [_column_headers]. *)
Definition header_step (strings : list string) (headers : dict string string)
    (cell : Element) : result (dict string string) :=
  let col := column_of cell in
  match ET.find cell "v" with
  | None => Ok headers
  | Some value_node =>
      if decide (ET.get cell "t" = Some "s"%string) then
        i ← PyInt.int (text value_node);
        s ← list_index strings i;
        Ok (dict_set headers col s)
      else
        Ok (dict_set headers col (PyStr.or_empty (text value_node)))
  end.

Fixpoint header_loop (strings : list string) (headers : dict string string)
    (cells : list Element) : result (dict string string) :=
  match cells with
  | [] => Ok headers
  | cell :: cells' =>
      headers' ← header_step strings headers cell;
      header_loop strings headers' cells'
  end.

Definition _column_headers (sheet_root : Element) (strings : list string)
  : result (dict string string) :=
  match head (ET.findall_desc2 sheet_root "sheetData" "row") with
  | None => Ok []
  | Some row1 => header_loop strings [] (ET.findall row1 "c")
  end.

Definition _cell_value (cell : Element) (strings : list string)
  : result (option string) :=
  match ET.find cell "v" with
  | None => Ok None
  | Some value_node =>
      if decide (ET.get cell "t" = Some "s"%string) then
        i ← PyInt.int (text value_node);
        s ← list_index strings i;
        Ok (Some s)
      else Ok (text value_node)
  end.

(** The spreadsheet file as the extractor sees it, and what the
    libraries do with it. [zipfile.ZipFile(XLSX_PATH)] gives the archive
    or raises ([FileNotFoundError], [BadZipFile], [IsADirectoryError],
    [PermissionError], ...). [zip_file.read(name)] raises [KeyError] for
    a missing member, or whatever reading it raises ([BadZipFile],
    [RuntimeError] for an encrypted member, [NotImplementedError],
    [zlib.error], ...). [ET.fromstring] gives the root element or raises
    ([ParseError] for text that is not well-formed, [ValueError] or
    [LookupError] for an encoding it does not support). The exception a
    library call raises is part of the input: the extractor catches
    none. *)
Inductive Member : Type :=
| Unreadable (e : exn)
| Unparsable (e : exn)
| Document (root : Element).

Inductive Container : Type :=
| Unopened (e : exn)
| Archive (members : gmap string Member).

(** [zipfile.ZipFile(XLSX_PATH)] *)
Definition open_zip (c : Container) : result (gmap string Member) :=
  match c with
  | Unopened e => Raise e
  | Archive members => Ok members
  end.

(** [ET.fromstring(zip_file.read(name))] *)
Definition read_xml (zip_file : gmap string Member) (name : string)
  : result Element :=
  match zip_file !! name with
  | None => Raise (KeyError name)
  | Some (Unreadable e) => Raise e
  | Some (Unparsable e) => Raise e
  | Some (Document root) => Ok root
  end.

(** The scan of [headers.items()] that chooses the two columns. *)
Definition pick_step (st : option string * option string)
    (item : string * string) : option string * option string :=
  let '(column_for_abs, column_for_amount) := st in
  let '(col, header) := item in
  if decide (header = "AbsoluteAmount"%string) then (Some col, column_for_amount)
  else if decide (header = "Amount"%string) then (column_for_abs, Some col)
  else st.

Definition pick_columns (headers : dict string string)
  : option string * option string :=
  foldl pick_step (None, None) headers.

(** The truth value of [column_for_abs] in [if column_for_abs:]. *)
Definition truthy (column : option string) : bool :=
  match column with
  | Some EmptyString => false
  | Some _ => true
  | None => false
  end.

(** The dictionary [cells] of a row: each cell of [row.findall("a:c", NS)]
    under its [r] attribute (the empty string when it has none). *)
Definition row_cells (row : Element) : gmap string Element :=
  foldl (fun m cell => <[default EmptyString (ET.get cell "r") := cell]> m)
        ∅ (ET.findall row "c").

(** [str(row.attrib.get('r'))] as the f-string renders it. *)
Definition row_number (row : Element) : string :=
  default "None"%string (ET.get row "r").

(** [f"{column}{row.attrib.get('r')}"] *)
Definition cell_key (column : string) (row : Element) : string :=
  (column ++ row_number row)%string.

(** The body shared by the two column attempts: look the cell up, resolve
    it, and parse it when it is neither [None] nor empty. [None] stands
    for "amount stays as it was". *)
Definition column_amount (strings : list string) (row : Element)
    (column : string) : result (option PyFloat.float) :=
  match row_cells row !! cell_key column row with
  | None => Ok None
  | Some cell =>
      raw ← _cell_value cell strings;
      match raw with
      | None => Ok None
      | Some EmptyString => Ok None
      | Some s => f ← PyFloat.of_string s; Ok (Some f)
      end
  end.

(** The amount a data row resolves to, before the test against zero. *)
Definition row_amount (strings : list string)
    (column_for_abs column_for_amount : option string) (row : Element)
  : result (option PyFloat.float) :=
  amount ← (if truthy column_for_abs
            then column_amount strings row (default EmptyString column_for_abs)
            else Ok None);
  match amount with
  | Some _ => Ok amount
  | None =>
      if truthy column_for_amount
      then column_amount strings row (default EmptyString column_for_amount)
      else Ok None
  end.

(** One turn of the loop over the data rows. *)
Definition row_step (strings : list string)
    (column_for_abs column_for_amount : option string)
    (values : list PyFloat.float) (row : Element) : result (list PyFloat.float) :=
  amount ← row_amount strings column_for_abs column_for_amount row;
  match amount with
  | None => Ok values
  | Some a => if PyFloat.eqb a PyFloat.zero then Ok values else Ok (values ++ [a])
  end.

Fixpoint row_loop (strings : list string)
    (column_for_abs column_for_amount : option string)
    (values : list PyFloat.float) (rows : list Element)
  : result (list PyFloat.float) :=
  match rows with
  | [] => Ok values
  | row :: rows' =>
      values' ← row_step strings column_for_abs column_for_amount values row;
      row_loop strings column_for_abs column_for_amount values' rows'
  end.

Definition no_amount_column : exn :=
  ValueError "No amount column found in spreadsheet".

(** [_read_amounts]; [file] is what lies at [XLSX_PATH]. *)
Definition _read_amounts (file : Container) : result (list PyFloat.float) :=
  zip_file ← open_zip file;
  shared ← read_xml zip_file "xl/sharedStrings.xml";
  let strings := _load_shared_strings shared in
  sheet_root ← read_xml zip_file "xl/worksheets/sheet1.xml";
  headers ← _column_headers sheet_root strings;
  let '(column_for_abs, column_for_amount) := pick_columns headers in
  match column_for_abs, column_for_amount with
  | None, None => Raise no_amount_column
  | _, _ =>
      row_loop strings column_for_abs column_for_amount []
               (tail (ET.findall_desc2 sheet_root "sheetData" "row"))
  end.

(** ** The format [f"{value:.12g}"]

    The interpreter rounds the exact binary value to twelve significant
    decimal digits (ties to even), drops trailing zeros, and lays the
    digits out in fixed notation when the decimal exponent [X] satisfies
    [-4 <= X < 12], in exponent notation otherwise. *)

Module Fmt.
Import PyStr.

(** The exact value [m * 2^e] as a fraction of positive integers. *)
Definition frac_of (m : positive) (e : Z) : Z * Z :=
  if 0 <=? e then (Zpos m * 2 ^ e, 1) else (Zpos m, 2 ^ (- e)).

Fixpoint ilog10_aux (fuel : nat) (a : Z) : Z :=
  match fuel with
  | O => 0
  | S f => if a <? 10 then 0 else 1 + ilog10_aux f (a / 10)
  end.

(** The number of decimal digits of [a >= 1], less one. *)
Definition ilog10 (a : Z) : Z := ilog10_aux (S (Z.to_nat (Z.log2 a))) a.

(** The decimal exponent of [n/d]: the [X] with
    [10^X <= n/d < 10^(X+1)]. *)
Definition dec_exp (n d : Z) : Z :=
  if d <=? n then ilog10 (n / d)
  else let j := ilog10 (d / n) in
       if d <=? n * 10 ^ j then - j else - (j + 1).

(** [(n/d) * 10^k] as a fraction. *)
Definition scale10 (n d k : Z) : Z * Z :=
  if 0 <=? k then (n * 10 ^ k, d) else (n, d * 10 ^ (- k)).

(** The integer nearest to [a/b], ties to even. *)
Definition round_half_even (a b : Z) : Z :=
  let q := a / b in
  match 2 * (a mod b) ?= b with
  | Lt => q
  | Gt => q + 1
  | Eq => if Z.even q then q else q + 1
  end.

(** Twelve significant digits: the integer [N] with
    [10^11 <= N <= 10^12] nearest to [(n/d) / 10^(X-11)], and [X]. *)
Definition sig12 (n d : Z) : Z * Z :=
  let X := dec_exp n d in
  let '(a, b) := scale10 n d (11 - X) in
  (round_half_even a b, X).

(** The [k] low decimal digits of [N], most significant first. *)
Fixpoint digits_of (k : nat) (N : Z) : list Z :=
  match k with
  | O => []
  | S k' => (N / 10 ^ Z.of_nat k') mod 10 :: digits_of k' N
  end.

Definition strip_trailing_zeros (l : list Z) : list Z :=
  fold_right (fun d acc => match acc with
                           | [] => if d =? 0 then [] else [d]
                           | _ => d :: acc
                           end) [] l.

(** The digit string and the position of the decimal point
    ([value = 0.d1d2... * 10^decpt]). *)
Definition dtoa12 (n d : Z) : list Z * Z :=
  let '(N, X) := sig12 n d in
  if N =? 10 ^ 12 then ([1], X + 2)
  else (strip_trailing_zeros (digits_of 12 N), X + 1).

Definition digit_char (d : Z) : ascii := ascii_of_N (Z.to_N (48 + d)).

Fixpoint chars (l : list Z) : string :=
  match l with
  | [] => EmptyString
  | d :: l' => String (digit_char d) (chars l')
  end.

Fixpoint zeros (n : nat) : string :=
  match n with
  | O => EmptyString
  | S n' => String "0" (zeros n')
  end.

(** The digits with the decimal point at [decpt]; a decimal point that
    would come last is left out. *)
Definition fixed (digits : list Z) (decpt : Z) : string :=
  if decpt <=? 0 then
    ("0." ++ zeros (Z.to_nat (- decpt)) ++ chars digits)%string
  else if decpt <? Z.of_nat (length digits) then
    (chars (take (Z.to_nat decpt) digits) ++ "."
       ++ chars (drop (Z.to_nat decpt) digits))%string
  else
    (chars digits ++ zeros (Z.to_nat (decpt - Z.of_nat (length digits))))%string.

Fixpoint dec_aux (fuel : nat) (z : Z) (acc : string) : string :=
  match fuel with
  | O => acc
  | S f =>
      let acc' := String (digit_char (z mod 10)) acc in
      if z <? 10 then acc' else dec_aux f (z / 10) acc'
  end.

Definition dec_string (z : Z) : string :=
  dec_aux (S (Z.to_nat (Z.log2 z))) z EmptyString.

(** The exponent as ["%+.02d"] prints it. *)
Definition exponent (x : Z) : string :=
  let sign : string := if x <? 0 then "-"%string else "+"%string in
  let pad : string := if Z.abs x <? 10 then "0"%string else EmptyString in
  (sign ++ pad ++ dec_string (Z.abs x))%string.

Definition layout (digits : list Z) (decpt : Z) : string :=
  if (decpt <=? -4) || (12 <? decpt)
  then (fixed digits 1 ++ "e" ++ exponent (decpt - 1))%string
  else fixed digits decpt.

(** [f"{v:.12g}"] *)
Definition format_12g (v : spec_float) : string :=
  match v with
  | S754_nan => "nan"%string
  | S754_infinity s => if s then "-inf"%string else "inf"%string
  | S754_zero s => if s then "-0"%string else "0"%string
  | S754_finite s m e =>
      let '(n, d) := frac_of m e in
      let '(digits, decpt) := dtoa12 n d in
      let sign : string := if s then "-"%string else EmptyString in
      (sign ++ layout digits decpt)%string
  end.

End Fmt.

(** ** Benford analyzer *)

(** The loop of [_first_digit] over the characters of the text. *)
Fixpoint first_nonzero_digit (text : string) : result (option Z) :=
  match text with
  | EmptyString => Ok None
  | String char rest =>
      if PyStr.isdigit char && negb (Ascii.eqb char "0")
      then d ← PyInt.int (Some (String char EmptyString)); Ok (Some d)
      else first_nonzero_digit rest
  end.

Definition _first_digit (value : PyFloat.float) : result (option Z) :=
  if PyFloat.eqb value PyFloat.zero then Ok None
  else
    let value := PyFloat.abs value in
    let text := Fmt.format_12g value in
    let text := PyStr.lstrip "." (PyStr.lstrip "0" text) in
    first_nonzero_digit text.

(** The value of [sum(...)]: the integer [0] for no terms, a float
    otherwise. *)
Inductive number : Type :=
| Int (z : Z)
| Float (f : PyFloat.float).

Record BenfordResult : Type :=
  mkBenfordResult {
      counts : dict Z Z;
      total : Z;
      observed_pct : dict Z PyFloat.float;
      expected_pct : dict Z PyFloat.float;
      mad : PyFloat.float;
      chi_square : number
    }.

(** [range(1, 10)] *)
Definition digits_1_9 : list Z := [1; 2; 3; 4; 5; 6; 7; 8; 9].

(** [a / b] for two [int]s: the quotient rounded once. *)
Definition int_truediv (a b : Z) : result PyFloat.float :=
  match a, b with
  | _, Z0 => Raise ZeroDivisionError
  | Z0, _ => Ok (S754_zero (b <? 0))
  | _, _ =>
      match PyFloat.round_ratio (xorb (a <? 0) (b <? 0))
                                (Z.to_pos (Z.abs a)) (Z.to_pos (Z.abs b)) with
      | S754_infinity _ => Raise OverflowError
      | f => Ok f
      end
  end.

(** [x / y] for two floats. *)
Definition float_truediv (x y : PyFloat.float) : result PyFloat.float :=
  if PyFloat.eqb y PyFloat.zero then Raise ZeroDivisionError
  else Ok (PyFloat.div x y).

(** [d[k]] *)
Definition dict_item {V} (d : dict Z V) (k : Z) : result V :=
  match dict_get d k with
  | Some v => Ok v
  | None => Raise (KeyError "digit"%string)
  end.

(** [[f(x) for x in l]] where [f] may raise. *)
Fixpoint traverse {A B} (f : A -> result B) (l : list A) : result (list B) :=
  match l with
  | [] => Ok []
  | x :: l' => y ← f x; ys ← traverse f l'; Ok (y :: ys)
  end.

(** One turn of the counting loop of [analyze_first_digits]. *)
Definition count_step (st : dict Z Z * Z) (value : PyFloat.float)
  : result (dict Z Z * Z) :=
  let '(counts, total) := st in
  digit ← _first_digit value;
  match digit with
  | None => Ok st
  | Some d =>
      c ← dict_item counts d;
      Ok (dict_set counts d (c + 1), total + 1)
  end.

Fixpoint count_loop (st : dict Z Z * Z) (values : list PyFloat.float)
  : result (dict Z Z * Z) :=
  match values with
  | [] => Ok st
  | value :: values' => st' ← count_step st value; count_loop st' values'
  end.

Definition initial_counts : dict Z Z := map (fun digit => (digit, 0)) digits_1_9.

Section Analyzer.

(** The mathematical library and the interpreter's summation of a
    non-empty sequence of floats are taken as given: [math.log10],
    [x ** y] on floats, and the float that [sum] accumulates (plain
    left-to-right additions in older interpreters, compensated in
    recent ones). *)
Variable log10 : PyFloat.float -> result PyFloat.float.
Variable pow : PyFloat.float -> PyFloat.float -> result PyFloat.float.
Variable fsum : list PyFloat.float -> PyFloat.float.

Definition py_sum (l : list PyFloat.float) : number :=
  match l with
  | [] => Int 0
  | _ => Float (fsum l)
  end.

(** [x / k] for the value of a [sum] and an [int]. *)
Definition number_div_int (x : number) (k : Z) : result PyFloat.float :=
  match x with
  | Int z => int_truediv z k
  | Float f => d ← PyFloat.of_int k; float_truediv f d
  end.

Definition _benford_expected : result (dict Z PyFloat.float) :=
  traverse (fun digit =>
              q ← int_truediv 1 digit;
              one ← PyFloat.of_int 1;
              e ← log10 (PyFloat.add one q);
              Ok (digit, e))
           digits_1_9.

Definition observed (counts : dict Z Z) (total : Z)
  : result (dict Z PyFloat.float) :=
  traverse (fun digit =>
              p ← (if total =? 0 then Ok PyFloat.zero
                   else c ← dict_item counts digit; int_truediv c total);
              Ok (digit, p))
           (dict_keys counts).

Definition mad_of (counts : dict Z Z)
    (observed_pct expected_pct : dict Z PyFloat.float) : result PyFloat.float :=
  terms ← traverse (fun d =>
                      o ← dict_item observed_pct d;
                      e ← dict_item expected_pct d;
                      Ok (PyFloat.abs (PyFloat.sub o e)))
                   (dict_keys counts);
  number_div_int (py_sum terms) 9.

(** The expected count [total * expected_pct[d]]. *)
Definition expected_count (total : Z) (expected_pct : dict Z PyFloat.float)
    (d : Z) : result PyFloat.float :=
  e ← dict_item expected_pct d;
  t ← PyFloat.of_int total;
  Ok (PyFloat.mul t e).

(** The generator of [chi_square]: the terms whose expected count is
    positive, in the order of the keys. *)
Fixpoint chi_terms (counts : dict Z Z) (total : Z)
    (expected_pct : dict Z PyFloat.float) (ds : list Z)
  : result (list PyFloat.float) :=
  match ds with
  | [] => Ok []
  | d :: ds' =>
      guard ← expected_count total expected_pct d;
      if PyFloat.ltb PyFloat.zero guard then
        c ← dict_item counts d;
        x ← expected_count total expected_pct d;
        cf ← PyFloat.of_int c;
        two ← PyFloat.of_int 2;
        sq ← pow (PyFloat.sub cf x) two;
        y ← expected_count total expected_pct d;
        term ← float_truediv sq y;
        terms ← chi_terms counts total expected_pct ds';
        Ok (term :: terms)
      else chi_terms counts total expected_pct ds'
  end.

(** What [analyze_first_digits] computes once the counting loop is
    over. *)
Definition statistics (counts : dict Z Z) (total : Z) : result BenfordResult :=
  expected_pct ← _benford_expected;
  observed_pct ← observed counts total;
  mad ← mad_of counts observed_pct expected_pct;
  terms ← chi_terms counts total expected_pct (dict_keys counts);
  Ok (mkBenfordResult counts total observed_pct expected_pct mad (py_sum terms)).

Definition analyze_first_digits (values : list PyFloat.float)
  : result BenfordResult :=
  st ← count_loop (initial_counts, 0) values;
  statistics st.1 st.2.

End Analyzer.

(** ** Sample documents *)

Module Sample.

(** An element [<a:name attrs>txt children</a:name>]. *)
Definition el (name : string) (attrs : list (string * string))
    (txt : option string) (cs : list Element) : Element :=
  mkElement (ET.qname name) (list_to_map attrs) txt cs.

(** A cell [<c r=ref><v>value</v></c>] holding a literal. *)
Definition literal_cell (ref value : string) : Element :=
  el "c" [("r"%string, ref)] None [el "v" [] (Some value) []].

(** A cell [<c r=ref t="s"><v>index</v></c>] referring to the
    shared-string table. *)
Definition shared_cell (ref index : string) : Element :=
  el "c" [("r"%string, ref); ("t"%string, "s"%string)] None
     [el "v" [] (Some index) []].

(** A cell [<c r=ref/>] without a value node. *)
Definition blank_cell (ref : string) : Element :=
  el "c" [("r"%string, ref)] None [].

Definition row (r : string) (cells : list Element) : Element :=
  el "row" [("r"%string, r)] None cells.

Definition worksheet (rows : list Element) : Element :=
  el "worksheet" [] None [el "sheetData" [] None rows].

(** A shared-string part whose items are flat texts. *)
Definition sst (items : list string) : Element :=
  el "sst" [] None (map (fun s => el "si" [] None [el "t" [] (Some s) []]) items).

Definition members (items : list string) (rows : list Element) : gmap string Member :=
  list_to_map
    [("xl/sharedStrings.xml"%string, Document (sst items));
     ("xl/worksheets/sheet1.xml"%string, Document (worksheet rows))].

Definition workbook (items : list string) (rows : list Element) : Container :=
  Archive (members items rows).

(** The header ["AbsoluteAmount"] in column [col] and the data rows
    [10, -20, 0, 30] below it. *)
Definition amounts_sheet (col : string) : list Element :=
  [ row "1" [shared_cell (col ++ "1") "0"];
    row "2" [literal_cell (col ++ "2") "10"];
    row "3" [literal_cell (col ++ "3") "-20"];
    row "4" [literal_cell (col ++ "4") "0"];
    row "5" [literal_cell (col ++ "5") "30"] ]%string.

Definition amounts_book (col : string) : Container :=
  workbook ["AbsoluteAmount"%string] (amounts_sheet col).

Definition f10 : PyFloat.float := S754_finite false 5629499534213120 (-49).
Definition f20 : PyFloat.float := S754_finite false 5629499534213120 (-48).
Definition f20neg : PyFloat.float := S754_finite true 5629499534213120 (-48).
Definition f30 : PyFloat.float := S754_finite false 8444249301319680 (-48).
Definition f5 : PyFloat.float := S754_finite false 5629499534213120 (-50).
Definition f123 : PyFloat.float := S754_finite false 8655355533852672 (-46).
Definition f123000 : PyFloat.float := S754_finite false 8452495638528000 (-36).
Definition f1e308 : PyFloat.float := S754_finite false 5010420900022432 971.

(** The values 123, 1450, 19, 234, 567, 891. *)
Definition scenario : list PyFloat.float :=
  [ S754_finite false 8655355533852672 (-46);
    S754_finite false 6377167441100800 (-42);
    S754_finite false 5348024557502464 (-48);
    S754_finite false 8233143068786688 (-45);
    S754_finite false 4987384743591936 (-43);
    S754_finite false 7837318882787328 (-43) ].

Definition half : PyFloat.float := S754_finite false 4503599627370496 (-53).

(** The float nearest to 999.9999999995. *)
Definition near_1000 : PyFloat.float := S754_finite false 8796093022203602 (-43).

(** The header "AbsoluteAmount" in a cell whose reference has no letters,
    and one data row. *)
Definition letterless_sheet : list Element :=
  [ row "1" [literal_cell "1" "AbsoluteAmount"];
    row "2" [literal_cell "2" "5"] ].

(** An instance of the mathematical library for the examples: [log10]
    as a table of the nine arguments [1 + 1/d] the analyzer passes,
    [x ** 2] as the rounded product, and the summation by left-to-right
    additions. *)
Definition log10_table : list (PyFloat.float * PyFloat.float) :=
  [ (S754_finite false 4503599627370496 (-51), S754_finite false 5422874305198591 (-54));
    (S754_finite false 6755399441055744 (-52), S754_finite false 6344356229330940 (-55));
    (S754_finite false 6004799503160661 (-52), S754_finite false 9002784762132481 (-56));
    (S754_finite false 5629499534213120 (-52), S754_finite false 6983102375544845 (-56));
    (S754_finite false 5404319552844595 (-52), S754_finite false 5705610083117035 (-56));
    (S754_finite false 5254199565265579 (-52), S754_finite false 4824024589345291 (-56));
    (S754_finite false 5146971002709138 (-52), S754_finite false 8357520345574385 (-57));
    (S754_finite false 5066549580791808 (-52), S754_finite false 7371855393058794 (-57));
    (S754_finite false 5003999585967218 (-52), S754_finite false 6594349358030898 (-57)) ].

Definition log10 (x : PyFloat.float) : result PyFloat.float :=
  match List.find (fun p => PyFloat.eqb p.1 x) log10_table with
  | Some p => Ok p.2
  | None => Raise (ValueError "math domain error")
  end.

Definition pow (x y : PyFloat.float) : result PyFloat.float := Ok (PyFloat.mul x x).

Definition fsum (l : list PyFloat.float) : PyFloat.float :=
  foldl PyFloat.add PyFloat.zero l.

End Sample.

(** ** Vocabulary of the statements *)

(** The exceptions that resolving a shared-string reference can raise. *)
Definition lookup_error (e : exn) : Prop :=
  e = TypeError \/ e = PyInt.invalid_literal \/ e = IndexError.

(** A header other than the two amount headers. *)
Definition other_header (item : string * string) : Prop :=
  item.2 <> "AbsoluteAmount"%string /\ item.2 <> "Amount"%string.

(** A library call of the extraction raises [e]: opening the archive,
    or reading and parsing the shared strings, or, these read, the
    worksheet. *)
Definition library_failure (file : Container) (e : exn) : Prop :=
  open_zip file = Raise e \/
  exists members,
    file = Archive members /\
    (read_xml members "xl/sharedStrings.xml" = Raise e \/
     exists shared,
       read_xml members "xl/sharedStrings.xml" = Ok shared /\
       read_xml members "xl/worksheets/sheet1.xml" = Raise e).



(** The exceptions of resolving and parsing a cell. *)
Definition value_error (e : exn) : Prop :=
  lookup_error e \/ e = PyFloat.could_not_convert.

(** The row's cell in a column is present and non-empty, and its text
    reads as the number [a]. *)
Definition usable (strings : list string) (row : Element) (column : string)
    (a : PyFloat.float) : Prop :=
  exists cell raw,
    row_cells row !! cell_key column row = Some cell /\
    _cell_value cell strings = Ok (Some raw) /\
    raw <> EmptyString /\
    PyFloat.of_string raw = Ok a.

(** The row has no cell in a column, or the cell has no value or an
    empty one. *)
Definition unusable (strings : list string) (row : Element) (column : string) : Prop :=
  row_cells row !! cell_key column row = None \/
  exists cell,
    row_cells row !! cell_key column row = Some cell /\
    (_cell_value cell strings = Ok None \/
     _cell_value cell strings = Ok (Some EmptyString)).

(** No column was chosen for a header, or its identifier is empty. *)
Definition no_column (column : option string) : Prop :=
  column = None \/ column = Some EmptyString.

(** What a resolved amount adds to the output sequence. *)
Definition contribution (amount : option PyFloat.float) : list PyFloat.float :=
  match amount with
  | Some a => if PyFloat.eqb a PyFloat.zero then [] else [a]
  | None => []
  end.

(** A character that [isdigit] accepts only if it is a decimal digit. *)
Definition plain (c : ascii) : bool :=
  negb (PyStr.isdigit c) || PyStr.is_dec c.

Fixpoint all_plain (s : string) : bool :=
  match s with
  | EmptyString => true
  | String c s' => plain c && all_plain s'
  end.

(** A list of decimal digits. *)
Definition decimal (l : list Z) : Prop := Forall (fun d => 0 <= d <= 9) l.

(** The leading digit of a value; [None] when it has none. *)
Definition digit_of (value : PyFloat.float) : option Z :=
  match _first_digit value with
  | Ok o => o
  | Raise _ => None
  end.

(** How many of the values have leading digit [d]. *)
Definition occurrences (d : Z) (values : list PyFloat.float) : Z :=
  Z.of_nat (length (filter (fun v => digit_of v = Some d) values)).

(** How many of the values have a leading digit. *)
Definition defined_count (values : list PyFloat.float) : Z :=
  Z.of_nat (length (filter (fun v => is_Some (digit_of v)) values)).

(** The dictionary of counts that maps each digit [d] to [f d]. *)
Definition tally (f : Z -> Z) : dict Z Z := map (fun d => (d, f d)) digits_1_9.

(** [sum(counts.values())] *)
Definition sum_counts (counts : dict Z Z) : Z := foldr Z.add 0 (counts.*2).

(** The float [9.0]. *)
Definition nine : PyFloat.float := PyFloat.of_Z 9.

(** The leading digit of the twelve-digit rounding of [n/d]. *)
Definition lead (n d : Z) : Z :=
  let '(N, X) := Fmt.sig12 n d in
  if N =? 10 ^ 12 then 1 else N / 10 ^ 11.

(** A character the scan of [_first_digit] passes over. *)
Definition skipped (c : ascii) : bool :=
  negb (PyStr.isdigit c && negb (Ascii.eqb c "0")).

(** The fraction [n/d] as a rational number. *)
Definition val (n d : Z) : Q := (inject_Z n / inject_Z d)%Q.

(** The exact value of a float; none for an infinity or NaN. *)
Definition exact (v : PyFloat.float) : option Q :=
  match v with
  | S754_zero _ => Some 0%Q
  | S754_finite s m e =>
      Some ((if s then - inject_Z (Zpos m) else inject_Z (Zpos m)) * 2 ^ e)%Q
  | _ => None
  end.

(** A string item of the shared-strings part: one flat text, or a
    sequence of formatted runs. *)
Inductive StringItem : Type :=
| Flat (s : string)
| Runs (runs : list string).

(** The element [<si><t>s</t></si>], or [<si><r><t>s1</t></r>...</si>]. *)
Definition si_element (i : StringItem) : Element :=
  match i with
  | Flat s => Sample.el "si" [] None [Sample.el "t" [] (Some s) []]
  | Runs runs =>
      Sample.el "si" [] None
        (map (fun s => Sample.el "r" [] None [Sample.el "t" [] (Some s) []]) runs)
  end.

(** The string an item stands for. *)
Definition item_text (i : StringItem) : string :=
  match i with
  | Flat s => s
  | Runs runs => PyStr.join runs
  end.

Definition sst_of (items : list StringItem) : Element :=
  Sample.el "sst" [] None (map si_element items).

(** All characters of the string are alphabetic. *)
Definition alphabetic (s : string) : Prop := PyStr.filter PyStr.isalpha s = s.

(** A float other than the infinities and NaN. *)
Definition is_finite (v : PyFloat.float) : bool :=
  match v with
  | S754_zero _ | S754_finite _ _ _ => true
  | _ => false
  end.

(** A finite float other than the zeros. *)
Definition has_digit (v : PyFloat.float) : bool :=
  is_finite v && negb (PyFloat.eqb v PyFloat.zero).

(** The last column of the header map that carries the header. *)
Definition last_column (header : string) (headers : dict string string)
  : option string :=
  last (filter (fun item => item.2 = header) (headers : list (string * string))).*1.

(** The outcome is the exception [ZeroDivisionError]. *)
Definition divides_by_zero {A} (r : result A) : bool :=
  match r with
  | Raise ZeroDivisionError => true
  | _ => false
  end.

(** The least number that has the leading digit [d], in the decade of
    [10^X], once it is rounded to twelve significant digits: half a unit
    of the twelfth digit below [d * 10^X]. *)
Definition digit_floor (d X : Z) : Q :=
  if d =? 1 then (10 ^ X - (1 # 2) * 10 ^ (X - 12))%Q
  else (inject_Z d * 10 ^ X - (1 # 2) * 10 ^ (X - 11))%Q.

(** The least number above those. *)
Definition digit_ceiling (d X : Z) : Q :=
  (inject_Z (d + 1) * 10 ^ X - (1 # 2) * 10 ^ (X - 11))%Q.

(** Every number within the relative distance [eps] of [a] has the same
    leading digit once it is rounded to twelve significant digits: [a]
    is not within [eps] of a point where this digit changes. *)
Definition clear_of_ties (eps a : Q) : Prop :=
  exists d X, 1 <= d <= 9 /\
              (digit_floor d X <= a * (1 - eps))%Q /\
              (a * (1 + eps) < digit_ceiling d X)%Q.

(** * Properties *)

(** ** The error monad *)

Lemma bind_Ok {A B} (f : A -> result B) (m : result A) (b : B) :
  m ≫= f = Ok b -> exists a, m = Ok a /\ f a = Ok b.
Proof. destruct m as [a|e]; simpl; [eauto | discriminate]. Qed.

Lemma bind_Raise {A B} (f : A -> result B) (m : result A) (e : exn) :
  m ≫= f = Raise e -> m = Raise e \/ exists a, m = Ok a /\ f a = Raise e.
Proof. destruct m as [a|e']; simpl; [eauto | intros [= ->]; auto]. Qed.

Ltac inv_bind H :=
  let a := fresh "a" in
  let Ha := fresh "Ha" in
  apply bind_Ok in H; destruct H as (a & Ha & H).

Ltac bind_step := change (Ok ?m ≫= ?f) with (f m); cbv beta.

(** ** Dictionaries *)

Section DictFacts.
Context {K V : Type} `{EqDecision K}.
Implicit Types (d : dict K V) (k : K) (v : V).

Lemma dict_get_set_eq d k v : dict_get (dict_set d k v) k = Some v.
Proof.
  induction d as [|[k' v'] d IH]; simpl.
  - by rewrite decide_True.
  - destruct (decide (k' = k)) as [->|Hne]; simpl.
    + by rewrite decide_True.
    + by rewrite decide_False.
Qed.

Lemma dict_get_set_ne d k k' v :
  k <> k' -> dict_get (dict_set d k v) k' = dict_get d k'.
Proof.
  intros Hne. induction d as [|[k0 v0] d IH]; simpl.
  - by rewrite decide_False.
  - destruct (decide (k0 = k)) as [->|Hne0]; simpl.
    + by rewrite !decide_False.
    + destruct (decide (k0 = k')); [done | apply IH].
Qed.

Lemma dict_get_Some_In d k v : dict_get d k = Some v -> In (k, v) d.
Proof.
  induction d as [|[k' v'] d IH]; simpl; [discriminate |].
  destruct (decide (k' = k)) as [->|Hne]; [intros [= ->]; auto | auto].
Qed.

End DictFacts.

(** ** List indexing *)

Lemma list_index_valid {A} (l : list A) (i : Z) :
  0 <= i < Z.of_nat (length l) ->
  exists a, l !! Z.to_nat i = Some a /\ list_index l i = Ok a.
Proof.
  intros Hi. unfold list_index.
  destruct (Z.ltb_spec i 0); [lia |].
  destruct (Z.ltb_spec i 0); [lia |].
  destruct (Z.leb_spec (Z.of_nat (length l)) i); [lia |]. simpl.
  destruct (lookup_lt_is_Some_2 l (Z.to_nat i)) as [a Ha]; [lia |].
  exists a. by rewrite Ha.
Qed.

Lemma list_index_out_of_range {A} (l : list A) (i : Z) :
  Z.of_nat (length l) <= i \/ i < - Z.of_nat (length l) ->
  list_index l i = Raise IndexError.
Proof.
  intros Hi. unfold list_index.
  destruct (Z.ltb_spec i 0).
  - destruct Hi as [Hi|Hi]; [lia |].
    destruct (Z.ltb_spec (i + Z.of_nat (length l)) 0); [done | lia].
  - destruct Hi as [Hi|Hi]; [| lia].
    destruct (Z.ltb_spec i 0); [lia |].
    destruct (Z.leb_spec (Z.of_nat (length l)) i); [done | lia].
Qed.

Lemma list_index_from_end {A} (l : list A) (i : Z) :
  - Z.of_nat (length l) <= i < 0 ->
  exists a, l !! Z.to_nat (i + Z.of_nat (length l)) = Some a /\ list_index l i = Ok a.
Proof.
  intros Hi. unfold list_index.
  destruct (Z.ltb_spec i 0); [| lia].
  destruct (Z.ltb_spec (i + Z.of_nat (length l)) 0); [lia |].
  destruct (Z.leb_spec (Z.of_nat (length l)) (i + Z.of_nat (length l))); [lia |].
  simpl.
  destruct (lookup_lt_is_Some_2 l (Z.to_nat (i + Z.of_nat (length l)))) as [a Ha]; [lia |].
  exists a. by rewrite Ha.
Qed.

Lemma list_index_raises {A} (l : list A) (i : Z) (e : exn) :
  list_index l i = Raise e -> e = IndexError.
Proof.
  unfold list_index. destruct (_ || _); [congruence |].
  destruct (l !! _); congruence.
Qed.

Lemma int_raises (t : option string) (e : exn) :
  PyInt.int t = Raise e -> e = TypeError \/ e = PyInt.invalid_literal.
Proof.
  unfold PyInt.int. destruct t as [s|]; [| intros [= <-]; auto].
  destruct (PyInt.signed _); [discriminate | intros [= <-]; auto].
Qed.

(** ** [_cell_value] *)

Lemma shared_lookup_raises (strings : list string) (t : option string) (e : exn) :
  (i ← PyInt.int t; list_index strings i) = Raise e -> lookup_error e.
Proof.
  intros H. apply bind_Raise in H as [H|(i & _ & H)].
  - apply int_raises in H as [->| ->]; red; auto.
  - apply list_index_raises in H as ->. red; auto.
Qed.

Lemma cell_value_raises (cell : Element) (strings : list string) (e : exn) :
  _cell_value cell strings = Raise e -> lookup_error e.
Proof.
  unfold _cell_value. destruct (ET.find cell "v") as [vn|]; [| discriminate].
  destruct (decide _); [| discriminate].
  intros H. apply (shared_lookup_raises strings (text vn)).
  unfold mbind, result_bind in *.
  destruct (PyInt.int (text vn)) as [i|]; simpl in *; [| congruence].
  destruct (list_index strings i); simpl in *; congruence.
Qed.

(** With an index inside the table, a shared-string cell resolves to the
    entry at that position; with an index at or beyond the length, or
    below minus the length, the resolution raises [IndexError]. *)
Lemma cell_value_shared (cell value_node : Element) (strings : list string) (i : Z) :
  ET.find cell "v" = Some value_node ->
  ET.get cell "t" = Some "s"%string ->
  PyInt.int (text value_node) = Ok i ->
  (0 <= i < Z.of_nat (length strings) ->
   exists s, strings !! Z.to_nat i = Some s /\ _cell_value cell strings = Ok (Some s)) /\
  (Z.of_nat (length strings) <= i \/ i < - Z.of_nat (length strings) ->
   _cell_value cell strings = Raise IndexError).
Proof.
  intros Hv Ht Hi. unfold _cell_value. rewrite Hv, decide_True, Hi by done.
  simpl. split.
  - intros Hr. destruct (list_index_valid strings i Hr) as (s & Hs & ->). eauto.
  - intros Hr. by rewrite list_index_out_of_range.
Qed.

(** C7. A shared-string cell whose index text is [-1] is resolved, without
    any error, to the last entry of a one-entry table: Python's indexing
    counts negative indices from the end. *)
Theorem cell_value_negative_index :
  _cell_value (Sample.shared_cell "A2" "-1") ["Amount"%string]
  = Ok (Some "Amount"%string).
Proof. reflexivity. Qed.

(** ** [_column_headers] *)

Lemma header_step_blank (strings : list string) (headers : dict string string)
    (cell : Element) :
  ET.find cell "v" = None -> header_step strings headers cell = Ok headers.
Proof. intros H. unfold header_step. by rewrite H. Qed.

Lemma header_step_literal (strings : list string) (headers : dict string string)
    (cell value_node : Element) :
  ET.find cell "v" = Some value_node ->
  ET.get cell "t" <> Some "s"%string ->
  header_step strings headers cell
  = Ok (dict_set headers (column_of cell) (PyStr.or_empty (text value_node))).
Proof. intros Hv Ht. unfold header_step. by rewrite Hv, decide_False. Qed.

Lemma header_step_other (strings : list string) (headers headers' : dict string string)
    (cell : Element) (k : string) :
  header_step strings headers cell = Ok headers' ->
  ET.find cell "v" = None \/ column_of cell <> k ->
  dict_get headers' k = dict_get headers k.
Proof.
  unfold header_step. intros H Hk.
  destruct (ET.find cell "v") as [vn|]; [| congruence].
  destruct Hk as [Hk|Hk]; [discriminate |].
  destruct (decide _).
  - inv_bind H. inv_bind H. injection H as <-. by apply dict_get_set_ne.
  - injection H as <-. by apply dict_get_set_ne.
Qed.

Lemma header_step_raises (strings : list string) (headers : dict string string)
    (cell : Element) (e : exn) :
  header_step strings headers cell = Raise e -> lookup_error e.
Proof.
  unfold header_step. destruct (ET.find cell "v") as [vn|]; [| discriminate].
  destruct (decide _); [| discriminate].
  intros H. apply (shared_lookup_raises strings (text vn)).
  unfold mbind, result_bind in *.
  destruct (PyInt.int (text vn)) as [i|]; simpl in *; [| congruence].
  destruct (list_index strings i); simpl in *; congruence.
Qed.

Lemma header_loop_app (strings : list string) (pre post : list Element)
    (headers : dict string string) :
  header_loop strings headers (pre ++ post)
  = (h ← header_loop strings headers pre; header_loop strings h post).
Proof.
  revert headers. induction pre as [|c pre IH]; intros headers; simpl; [done |].
  destruct (header_step strings headers c) as [h|e]; simpl; [apply IH | done].
Qed.

Lemma header_loop_keeps (strings : list string) (cells : list Element)
    (headers h : dict string string) (k : string) :
  header_loop strings headers cells = Ok h ->
  Forall (fun c => ET.find c "v" = None \/ column_of c <> k) cells ->
  dict_get h k = dict_get headers k.
Proof.
  revert headers. induction cells as [|c cells IH]; intros headers H Hall; simpl in H.
  - congruence.
  - inversion Hall as [|? ? Hc Hrest]; subst. inv_bind H.
    rewrite (IH _ H Hrest). eapply header_step_other; eauto.
Qed.

Lemma header_loop_raises (strings : list string) (cells : list Element)
    (headers : dict string string) (e : exn) :
  header_loop strings headers cells = Raise e -> lookup_error e.
Proof.
  revert headers. induction cells as [|c cells IH]; intros headers H; simpl in H.
  - discriminate.
  - apply bind_Raise in H as [H|(h & _ & H)]; [by eapply header_step_raises | eauto].
Qed.

Lemma column_headers_raises (sheet_root : Element) (strings : list string) (e : exn) :
  _column_headers sheet_root strings = Raise e -> lookup_error e.
Proof.
  unfold _column_headers. destruct (head _); [apply header_loop_raises | discriminate].
Qed.

(** C8 (as the code has it). In the first row, a cell that is not a
    shared-string reference and has a value node records that node's text
    under its column identifier, the empty string when the node has no
    text; a cell without a value node is skipped and records nothing. The
    entry is the one found in the header map unless a later cell of the
    row writes the same column. *)
Theorem column_headers_literal_cell (strings : list string) (sheet_root row1 : Element)
    (pre post : list Element) (cell : Element) (headers : dict string string) :
  head (ET.findall_desc2 sheet_root "sheetData" "row") = Some row1 ->
  ET.findall row1 "c" = pre ++ cell :: post ->
  ET.get cell "t" <> Some "s"%string ->
  Forall (fun c => ET.find c "v" = None \/ column_of c <> column_of cell) post ->
  _column_headers sheet_root strings = Ok headers ->
  match ET.find cell "v" with
  | Some value_node =>
      dict_get headers (column_of cell) = Some (PyStr.or_empty (text value_node))
  | None =>
      forall h, header_loop strings [] pre = Ok h ->
                dict_get headers (column_of cell) = dict_get h (column_of cell)
  end.
Proof.
  intros Hrow Hcells Ht Hpost. unfold _column_headers. rewrite Hrow, Hcells.
  rewrite header_loop_app. intros H. inv_bind H. simpl in H. inv_bind H.
  rewrite (header_loop_keeps _ _ _ _ _ H Hpost).
  destruct (ET.find cell "v") as [vn|] eqn:Hv.
  - rewrite (header_step_literal _ _ _ vn) in Ha0 by done.
    injection Ha0 as <-. apply dict_get_set_eq.
  - rewrite header_step_blank in Ha0 by done. injection Ha0 as <-.
    intros h Hh. congruence.
Qed.

Lemma column_headers_literal_cell_witness :
  dict_get [("A"%string, "Amount"%string)] "A"%string = Some "Amount"%string.
Proof.
  apply (column_headers_literal_cell []
           (Sample.worksheet [Sample.row "1" [Sample.literal_cell "A1" "Amount";
                                              Sample.blank_cell "B1"]])
           (Sample.row "1" [Sample.literal_cell "A1" "Amount"; Sample.blank_cell "B1"])
           [] [Sample.blank_cell "B1"] (Sample.literal_cell "A1" "Amount")).
  - reflexivity.
  - reflexivity.
  - vm_compute. discriminate.
  - repeat constructor.
  - reflexivity.
Defined.

(** C8 (as stated) fails: a first row whose only cell [A1] has no value
    node leaves the header map empty; column [A] is not recorded with the
    empty header. *)
Lemma column_headers_blank_cell_not_recorded :
  ET.get (Sample.blank_cell "A1") "t" <> Some "s"%string /\
  ET.find (Sample.blank_cell "A1") "v" = None /\
  column_of (Sample.blank_cell "A1") = "A"%string /\
  ~ (exists headers,
        _column_headers (Sample.worksheet [Sample.row "1" [Sample.blank_cell "A1"]]) []
        = Ok headers /\
        dict_get headers "A"%string = Some EmptyString).
Proof.
  split; [vm_compute; discriminate |]. split; [reflexivity |]. split; [reflexivity |].
  intros (headers & H & Hget). vm_compute in H. injection H as <-. discriminate.
Qed.

(** ** [_read_amounts]: the choice of the columns *)

Lemma pick_fold_none (headers : dict string string) (st : option string * option string) :
  foldl pick_step st headers = (None, None) <->
  st = (None, None) /\ Forall other_header headers.
Proof.
  revert st. induction headers as [|[col header] headers IH]; intros st; simpl.
  - split; [intros ->; split; [done | constructor] | by intros [-> _]].
  - rewrite IH. destruct st as [ca cm]. unfold pick_step.
    destruct (decide (header = "AbsoluteAmount"%string)) as [->|Ha].
    { split; [intros [[=] _] |].
      intros [_ H]. inversion H as [|? ? [Hx _] _]; subst. by destruct Hx. }
    destruct (decide (header = "Amount"%string)) as [->|Hm].
    { split; [intros [[=] _] |].
      intros [_ H]. inversion H as [|? ? [_ Hx] _]; subst. by destruct Hx. }
    split.
    + intros [-> H]. split; [done |]. constructor; [by split | done].
    + intros [-> H]. split; [done |]. by inversion H.
Qed.

Lemma pick_columns_none (headers : dict string string) :
  pick_columns headers = (None, None) <-> Forall other_header headers.
Proof.
  unfold pick_columns. rewrite pick_fold_none.
  split; [intros [_ H]; exact H | intros H; split; [reflexivity | exact H]].
Qed.

(** The column chosen for a header is a column of the header map that
    carries it. *)
Lemma pick_fold_sound (headers : dict string string) (st : option string * option string) :
  (forall c, (foldl pick_step st headers).1 = Some c ->
             st.1 = Some c \/ In (c, "AbsoluteAmount"%string) headers) /\
  (forall c, (foldl pick_step st headers).2 = Some c ->
             st.2 = Some c \/ In (c, "Amount"%string) headers).
Proof.
  revert st. induction headers as [|[col header] headers IH]; intros st; simpl.
  - auto.
  - destruct (IH (pick_step st (col, header))) as [IHa IHm].
    destruct st as [ca cm]. unfold pick_step in *.
    destruct (decide (header = "AbsoluteAmount"%string)) as [->|Ha]; simpl in *.
    { split; intros c Hc.
      - destruct (IHa c Hc) as [[= ->]|?]; auto.
      - destruct (IHm c Hc); auto. }
    destruct (decide (header = "Amount"%string)) as [->|Hm]; simpl in *.
    { split; intros c Hc.
      - destruct (IHa c Hc); auto.
      - destruct (IHm c Hc) as [[= ->]|?]; auto. }
    split; intros c Hc; [destruct (IHa c Hc) | destruct (IHm c Hc)]; auto.
Qed.

Lemma pick_fold_complete (headers : dict string string) (st : option string * option string) :
  ((is_Some st.1 \/ exists c, In (c, "AbsoluteAmount"%string) headers) ->
   is_Some (foldl pick_step st headers).1) /\
  ((is_Some st.2 \/ exists c, In (c, "Amount"%string) headers) ->
   is_Some (foldl pick_step st headers).2).
Proof.
  revert st. induction headers as [|[col header] headers IH]; intros st; simpl.
  - split; (intros [H|[c []]]; exact H).
  - destruct (IH (pick_step st (col, header))) as [IHa IHm].
    destruct st as [ca cm]. unfold pick_step in *.
    destruct (decide (header = "AbsoluteAmount"%string)) as [->|Ha]; simpl in *.
    { split; intros H.
      - apply IHa. left. eauto.
      - apply IHm. destruct H as [H|[c [[= _]|H]]]; eauto. }
    destruct (decide (header = "Amount"%string)) as [->|Hm]; simpl in *.
    { split; intros H.
      - apply IHa. destruct H as [H|[c [[= _]|H]]]; eauto.
      - apply IHm. left. eauto. }
    split; intros H.
    + apply IHa. destruct H as [H|[c [[= _ Hx]|H]]]; eauto. by destruct Ha.
    + apply IHm. destruct H as [H|[c [[= _ Hx]|H]]]; eauto. by destruct Hm.
Qed.

(** ** [_read_amounts]: what can be raised *)

Lemma of_string_raises (t : string) (e : exn) :
  PyFloat.of_string t = Raise e -> e = PyFloat.could_not_convert.
Proof.
  unfold PyFloat.of_string. destruct (PyFloat.drop_underscores _ _); [| congruence].
  match goal with |- match ?x with _ => _ end = _ -> _ => destruct x end; congruence.
Qed.

Lemma column_amount_raises (strings : list string) (row : Element) (column : string)
    (e : exn) :
  column_amount strings row column = Raise e -> value_error e.
Proof.
  unfold column_amount. destruct (row_cells row !! _) as [cell|]; [| discriminate].
  intros H. apply bind_Raise in H as [H|(raw & _ & H)].
  - left. by eapply cell_value_raises.
  - destruct raw as [[|c s]|]; try discriminate.
    apply bind_Raise in H as [H|(f & _ & H)]; [| discriminate].
    right. by eapply of_string_raises.
Qed.

Lemma row_amount_raises (strings : list string) (ca cm : option string) (row : Element)
    (e : exn) :
  row_amount strings ca cm row = Raise e -> value_error e.
Proof.
  unfold row_amount. intros H. apply bind_Raise in H as [H|(amount & _ & H)].
  - destruct (truthy ca); [by eapply column_amount_raises | discriminate].
  - destruct amount; [discriminate |].
    destruct (truthy cm); [by eapply column_amount_raises | discriminate].
Qed.

Lemma row_loop_raises (strings : list string) (ca cm : option string)
    (rows : list Element) (values : list PyFloat.float) (e : exn) :
  row_loop strings ca cm values rows = Raise e -> value_error e.
Proof.
  revert values. induction rows as [|row rows IH]; intros values H; simpl in H.
  - discriminate.
  - apply bind_Raise in H as [H|(values' & _ & H)]; [| eauto].
    unfold row_step in H. apply bind_Raise in H as [H|(amount & _ & H)].
    + by eapply row_amount_raises.
    + destruct amount as [a|]; [destruct (PyFloat.eqb a PyFloat.zero) |]; discriminate.
Qed.


(** What [_read_amounts] does once the two parts are read. *)
Lemma read_amounts_archive (members : gmap string Member) (shared sheet_root : Element) :
  read_xml members "xl/sharedStrings.xml" = Ok shared ->
  read_xml members "xl/worksheets/sheet1.xml" = Ok sheet_root ->
  _read_amounts (Archive members)
  = (headers ← _column_headers sheet_root (_load_shared_strings shared);
     let '(column_for_abs, column_for_amount) := pick_columns headers in
     match column_for_abs, column_for_amount with
     | None, None => Raise no_amount_column
     | _, _ =>
         row_loop (_load_shared_strings shared) column_for_abs column_for_amount []
                  (tail (ET.findall_desc2 sheet_root "sheetData" "row"))
     end).
Proof.
  intros Hs Hw. unfold _read_amounts. cbn [open_zip]. bind_step.
  rewrite Hs. bind_step. rewrite Hw. by bind_step.
Qed.

(** The exceptions of an extraction whose two parts are read: the error
    of a cell, or the one for the missing amount column. *)
Lemma read_amounts_archive_raises (members : gmap string Member)
    (shared sheet_root : Element) (e : exn) :
  read_xml members "xl/sharedStrings.xml" = Ok shared ->
  read_xml members "xl/worksheets/sheet1.xml" = Ok sheet_root ->
  _read_amounts (Archive members) = Raise e ->
  value_error e \/
  (e = no_amount_column /\
   exists headers,
     _column_headers sheet_root (_load_shared_strings shared) = Ok headers /\
     Forall other_header headers).
Proof.
  intros Hs Hw. rewrite (read_amounts_archive _ _ _ Hs Hw). intros H.
  apply bind_Raise in H as [H|(headers & Hheaders & H)].
  { left. left. by eapply column_headers_raises. }
  destruct (pick_columns headers) as [ca cm] eqn:Hpick.
  destruct ca as [ca|], cm as [cm|];
    try (left; by eapply row_loop_raises).
  injection H as <-. right. split; [done |]. exists headers. split; [done |].
  by apply pick_columns_none.
Qed.




Import Sample.

(** ** The sample documents *)

Lemma get_literal_r (ref value : string) : ET.get (literal_cell ref value) "r" = Some ref.
Proof. vm_compute. reflexivity. Qed.

Lemma get_literal_t (ref value : string) : ET.get (literal_cell ref value) "t" = None.
Proof. vm_compute. reflexivity. Qed.

Lemma find_literal_v (ref value : string) :
  ET.find (literal_cell ref value) "v" = Some (el "v" [] (Some value) []).
Proof. vm_compute. reflexivity. Qed.

Lemma get_shared_r (ref index : string) : ET.get (shared_cell ref index) "r" = Some ref.
Proof. vm_compute. reflexivity. Qed.

Lemma get_shared_t (ref index : string) :
  ET.get (shared_cell ref index) "t" = Some "s"%string.
Proof. vm_compute. reflexivity. Qed.

Lemma find_shared_v (ref index : string) :
  ET.find (shared_cell ref index) "v" = Some (el "v" [] (Some index) []).
Proof. vm_compute. reflexivity. Qed.

Lemma findall_row_one (r : string) (cell : Element) :
  tag cell = ET.qname "c" -> ET.findall (row r [cell]) "c" = [cell].
Proof.
  intros Ht. unfold ET.findall, row, el. simpl. unfold ET.has_tag.
  rewrite Ht. by rewrite String.eqb_refl.
Qed.

Lemma get_row_r (r : string) (cells : list Element) : ET.get (row r cells) "r" = Some r.
Proof. vm_compute. reflexivity. Qed.

Lemma load_shared_strings_sst (items : list string) :
  _load_shared_strings (sst items) = items.
Proof.
  unfold _load_shared_strings, sst, el, ET.findall. simpl.
  induction items as [|s items IH]; simpl; [done |].
  unfold ET.has_tag at 1. simpl. f_equal. apply IH.
Qed.

Lemma filter_app (p : ascii -> bool) (a b : string) :
  PyStr.filter p (a ++ b) = (PyStr.filter p a ++ PyStr.filter p b)%string.
Proof.
  induction a as [|x a IH]; simpl; [done |].
  destruct (p x); [| exact IH].
  change (String x (PyStr.filter p (a ++ b)) = String x (PyStr.filter p a ++ PyStr.filter p b)%string).
  by rewrite IH.
Qed.

Lemma append_empty_r (a : string) : (a ++ EmptyString)%string = a.
Proof.
  induction a as [|x a IH]; [done |].
  change (String x (a ++ EmptyString) = String x a). by rewrite IH.
Qed.

Lemma truthy_Some (c : string) : c <> EmptyString -> truthy (Some c) = true.
Proof. by destruct c. Qed.

Lemma row_cells_one (r : string) (cell : Element) (ref : string) :
  tag cell = ET.qname "c" -> ET.get cell "r" = Some ref ->
  row_cells (row r [cell]) = {[ ref := cell ]}.
Proof.
  intros Ht Hr. unfold row_cells. rewrite findall_row_one by done.
  simpl. by rewrite Hr.
Qed.

(** A row made of one literal cell in column [c] resolves to the number
    its text reads as. *)
Lemma row_amount_literal (strings : list string) (c r v : string)
    (cm : option string) (f : PyFloat.float) :
  c <> EmptyString -> v <> EmptyString -> PyFloat.of_string v = Ok f ->
  row_amount strings (Some c) cm (row r [literal_cell (c ++ r) v]) = Ok (Some f).
Proof.
  intros Hc Hv Hf. unfold row_amount. rewrite truthy_Some by done. simpl.
  unfold column_amount, cell_key, row_number. rewrite get_row_r. simpl.
  rewrite (row_cells_one r _ (c ++ r)) by (reflexivity || apply get_literal_r).
  rewrite lookup_singleton_eq.
  unfold _cell_value. rewrite find_literal_v, decide_False
    by (rewrite get_literal_t; discriminate).
  simpl. destruct v; [done |]. by rewrite Hf.
Qed.

Lemma column_headers_amounts_sheet (c : string) :
  PyStr.filter PyStr.isalpha c = c ->
  _column_headers (worksheet (amounts_sheet c)) ["AbsoluteAmount"%string]
  = Ok [(c, "AbsoluteAmount"%string)].
Proof.
  intros Hc. unfold _column_headers.
  change (ET.findall_desc2 (worksheet (amounts_sheet c)) "sheetData" "row")
    with (amounts_sheet c).
  unfold amounts_sheet. cbn [head].
  rewrite findall_row_one by reflexivity. cbn [header_loop].
  unfold header_step. rewrite find_shared_v, decide_True by apply get_shared_t.
  unfold column_of. rewrite get_shared_r. simpl.
  rewrite filter_app, Hc. simpl. by rewrite append_empty_r.
Qed.

(** Reading a sample workbook comes down to its rows and strings. *)
Lemma read_amounts_workbook (items : list string) (rows : list Element) :
  _read_amounts (workbook items rows)
  = (headers ← _column_headers (worksheet rows) items;
     let '(column_for_abs, column_for_amount) := pick_columns headers in
     match column_for_abs, column_for_amount with
     | None, None => Raise no_amount_column
     | _, _ =>
         row_loop items column_for_abs column_for_amount []
                  (tail (ET.findall_desc2 (worksheet rows) "sheetData" "row"))
     end).
Proof.
  unfold _read_amounts, workbook, members, open_zip.
  change (Ok ?m ≫= ?f) with (f m). cbv beta.
  unfold read_xml. rewrite !list_to_map_cons.
  rewrite lookup_insert_eq.
  change (Ok ?m ≫= ?f) with (f m). cbv beta.
  rewrite lookup_insert_ne by discriminate. rewrite lookup_insert_eq.
  change (Ok ?m ≫= ?f) with (f m). cbv beta.
  by rewrite load_shared_strings_sst.
Qed.

(** C9 (as the code has it). With "AbsoluteAmount" heading any column and
    the values [10, -20, 0, 30] below it, the extracted sequence is
    [10, -20, 30]: the zero row is left out and [-20] keeps its sign. *)
Theorem amounts_sheet_extracted (c : string) :
  c <> EmptyString ->
  PyStr.filter PyStr.isalpha c = c ->
  _read_amounts (amounts_book c) = Ok [f10; f20neg; f30].
Proof.
  intros Hne Hc. unfold amounts_book. rewrite read_amounts_workbook.
  rewrite column_headers_amounts_sheet by done.
  change (Ok ?m ≫= ?f) with (f m). cbv beta.
  change (ET.findall_desc2 (worksheet (amounts_sheet c)) "sheetData" "row")
    with (amounts_sheet c).
  unfold pick_columns. simpl foldl. simpl tail.
  unfold row_loop, row_step.
  rewrite (row_amount_literal _ c "2" "10" None f10) by done.
  rewrite (row_amount_literal _ c "3" "-20" None f20neg) by done.
  rewrite (row_amount_literal _ c "4" "0" None PyFloat.zero) by done.
  rewrite (row_amount_literal _ c "5" "30" None f30) by done.
  reflexivity.
Qed.

Lemma amounts_sheet_extracted_witness :
  _read_amounts (amounts_book "C") = Ok [f10; f20neg; f30].
Proof. apply (amounts_sheet_extracted "C"); [discriminate | reflexivity]. Defined.

(** C9 (as stated) fails: with the header in column C the extracted
    sequence is [10, -20, 30]; the value [20] is not in it. *)
Lemma amounts_sheet_no_absolute_value :
  _read_amounts (amounts_book "C") = Ok [f10; f20neg; f30] /\
  ~ In f20 [f10; f20neg; f30].
Proof.
  split; [reflexivity |]. simpl. intros [H|[H|[H|[]]]]; discriminate.
Qed.

(** ** [_read_amounts]: the rows *)

Lemma column_amount_usable (strings : list string) (row : Element) (column : string)
    (a : PyFloat.float) :
  usable strings row column a -> column_amount strings row column = Ok (Some a).
Proof.
  intros (cell & raw & Hcell & Hraw & Hne & Ha). unfold column_amount.
  rewrite Hcell, Hraw. simpl. destruct raw; [done |]. by rewrite Ha.
Qed.

Lemma column_amount_unusable (strings : list string) (row : Element) (column : string) :
  unusable strings row column -> column_amount strings row column = Ok None.
Proof.
  unfold column_amount. intros [H|(cell & H & [Hv|Hv])]; rewrite H; [done | |];
    by rewrite Hv.
Qed.

Lemma truthy_no_column (column : option string) :
  no_column column -> truthy column = false.
Proof. by intros [->| ->]. Qed.

Lemma row_loop_contributions (strings : list string) (ca cm : option string)
    (rows : list Element) (amounts : list (option PyFloat.float))
    (values : list PyFloat.float) :
  Forall2 (fun row amount => row_amount strings ca cm row = Ok amount) rows amounts ->
  row_loop strings ca cm values rows = Ok (values ++ flat_map contribution amounts).
Proof.
  intros H. revert values. induction H as [|row amount rows amounts Hrow _ IH];
    intros values; simpl.
  - by rewrite app_nil_r.
  - unfold row_step. rewrite Hrow. simpl.
    destruct amount as [a|]; simpl; [| apply IH].
    destruct (PyFloat.eqb a PyFloat.zero); simpl; [apply IH |].
    rewrite IH. by rewrite <- app_assoc.
Qed.

(** The rows, as the code treats them. Let the header map resolve and
    let [column_for_abs], [column_for_amount] be the columns the scan of
    the map chooses (the last column headed "AbsoluteAmount", the last
    headed "Amount"). For every row: (1) if the "AbsoluteAmount" column
    has a non-empty identifier and the row's cell in it is present and
    non-empty, its value is the row's amount; (2) otherwise, if the
    "Amount" column has a non-empty identifier and the row's cell in it is
    present and non-empty, its value is the row's amount; (3) if neither
    holds the row has no amount; (4) a row without amount and a row whose
    amount equals zero add nothing to the output, any other amount is
    appended. The output of the extraction is what the rows after the
    first contribute, in order. *)
Lemma row_value_policy (members : gmap string Member) (shared sheet_root : Element)
    (headers : dict string string) (ca cm : option string) :
  read_xml members "xl/sharedStrings.xml" = Ok shared ->
  read_xml members "xl/worksheets/sheet1.xml" = Ok sheet_root ->
  _column_headers sheet_root (_load_shared_strings shared) = Ok headers ->
  pick_columns headers = (ca, cm) ->
  let strings := _load_shared_strings shared in
  (forall c, ca = Some c -> In (c, "AbsoluteAmount"%string) headers) /\
  (forall c, cm = Some c -> In (c, "Amount"%string) headers) /\
  ((exists c, In (c, "AbsoluteAmount"%string) headers) -> is_Some ca) /\
  ((exists c, In (c, "Amount"%string) headers) -> is_Some cm) /\
  (forall row,
      (forall c a, ca = Some c -> c <> EmptyString -> usable strings row c a ->
                   row_amount strings ca cm row = Ok (Some a)) /\
      (forall c a, no_column ca \/ unusable strings row (default EmptyString ca) ->
                   cm = Some c -> c <> EmptyString -> usable strings row c a ->
                   row_amount strings ca cm row = Ok (Some a)) /\
      (no_column ca \/ unusable strings row (default EmptyString ca) ->
       no_column cm \/ unusable strings row (default EmptyString cm) ->
       row_amount strings ca cm row = Ok None) /\
      (forall values,
          row_amount strings ca cm row = Ok None ->
          row_step strings ca cm values row = Ok values) /\
      (forall values a,
          row_amount strings ca cm row = Ok (Some a) ->
          row_step strings ca cm values row
          = Ok (if PyFloat.eqb a PyFloat.zero then values else values ++ [a]))) /\
  (forall amounts,
      (is_Some ca \/ is_Some cm) ->
      Forall2 (fun row amount => row_amount strings ca cm row = Ok amount)
              (tail (ET.findall_desc2 sheet_root "sheetData" "row")) amounts ->
      _read_amounts (Archive members) = Ok (flat_map contribution amounts)).
Proof.
  intros Hs Hw Hh Hpick strings.
  pose proof (pick_fold_sound headers (None, None)) as [Sa Sm].
  pose proof (pick_fold_complete headers (None, None)) as [Ca Cm].
  fold (pick_columns headers) in Sa, Sm, Ca, Cm. rewrite Hpick in Sa, Sm, Ca, Cm.
  simpl in Sa, Sm, Ca, Cm.
  split; [intros c ->; by destruct (Sa c eq_refl) |].
  split; [intros c ->; by destruct (Sm c eq_refl) |].
  split; [intros H; apply Ca; by right |].
  split; [intros H; apply Cm; by right |].
  split.
  - intros row.
    assert (Hfirst : no_column ca \/ unusable strings row (default EmptyString ca) ->
                     (if truthy ca
                      then column_amount strings row (default EmptyString ca)
                      else Ok None) = Ok None).
    { intros [H|H]; [by rewrite truthy_no_column |].
      destruct (truthy ca); [by apply column_amount_unusable | done]. }
    split; [| split; [| split; [| split]]].
    + intros c a -> Hc Hu. unfold row_amount. rewrite truthy_Some by done.
      simpl. by rewrite (column_amount_usable _ _ _ _ Hu).
    + intros c a H1 -> Hc Hu. unfold row_amount.
      rewrite (truthy_Some c), (Hfirst H1) by done. simpl.
      by apply column_amount_usable.
    + intros H1 [H2|H2]; unfold row_amount; rewrite (Hfirst H1); simpl.
      * by rewrite truthy_no_column.
      * destruct (truthy cm); [by apply column_amount_unusable | done].
    + intros values H. unfold row_step. by rewrite H.
    + intros values a H. unfold row_step. rewrite H. simpl.
      by destruct (PyFloat.eqb a PyFloat.zero).
  - intros amounts Hsome Hrows. subst strings. unfold _read_amounts. simpl.
    rewrite Hs. simpl. rewrite Hw. simpl. rewrite Hh. simpl.
    rewrite Hpick.
    rewrite (row_loop_contributions _ ca cm _ amounts []) by done.
    destruct ca, cm; try done. destruct Hsome as [[? [=]]|[? [=]]].
Qed.

Lemma row_value_policy_witness :
  row_amount ["AbsoluteAmount"%string] (Some "C"%string) None
             (row "2" [literal_cell "C2" "10"]) = Ok (Some f10).
Proof.
  pose proof (row_value_policy (members ["AbsoluteAmount"%string] (amounts_sheet "C"))
                (sst ["AbsoluteAmount"%string]) (worksheet (amounts_sheet "C"))
                [("C"%string, "AbsoluteAmount"%string)] (Some "C"%string) None
                eq_refl eq_refl eq_refl eq_refl) as (_ & _ & _ & _ & Hrow & _).
  destruct (Hrow (row "2" [literal_cell "C2" "10"])) as (H1 & _).
  apply (H1 "C"%string f10 eq_refl); [discriminate |].
  exists (literal_cell "C2" "10"), "10"%string.
  split; [reflexivity |]. split; [reflexivity |]. split; [discriminate | reflexivity].
Defined.

(** C1. The code departs from the row policy where the chosen column has
    an empty identifier. In a sheet whose header cell has the reference
    "1" (no column letters) the header map has a column headed
    "AbsoluteAmount", and the scan chooses it; the cell of the second row
    has the reference that the column and the row number make, it is
    non-empty and reads as the number 5, which is not zero; yet nothing is
    extracted: the test before the rows accepts the empty identifier (it
    is not [None]) and the test in the rows drops it (it is not truthy).
    The same sheet with the references "A1" and "A2" gives the
    sequence [5]. *)
Theorem empty_column_identifier_ignored :
  let cell := literal_cell "2" "5" in
  let row2 := row "2" [cell] in
  _column_headers (worksheet letterless_sheet) []
  = Ok [(EmptyString, "AbsoluteAmount"%string)] /\
  pick_columns [(EmptyString, "AbsoluteAmount"%string)] = (Some EmptyString, None) /\
  nth_error letterless_sheet 1 = Some row2 /\
  ET.findall row2 "c" = [cell] /\
  ET.get cell "r" = Some (EmptyString ++ row_number row2)%string /\
  _cell_value cell [] = Ok (Some "5"%string) /\
  PyFloat.of_string "5" = Ok f5 /\
  PyFloat.eqb f5 PyFloat.zero = false /\
  _read_amounts (workbook [] letterless_sheet) = Ok [] /\
  _read_amounts (workbook [] [ row "1" [literal_cell "A1" "AbsoluteAmount"];
                               row "2" [literal_cell "A2" "5"] ])
  = Ok [f5].
Proof. cbv zeta. repeat split; reflexivity. Qed.

(** ** The characters of the format *)

Lemma all_plain_app (a b : string) :
  all_plain (a ++ b) = all_plain a && all_plain b.
Proof.
  induction a as [|c a IH]; [done |].
  change (plain c && all_plain (a ++ b) = plain c && all_plain a && all_plain b).
  rewrite IH. by rewrite andb_assoc.
Qed.

Lemma all_plain_lstrip (c : ascii) (s : string) :
  all_plain s = true -> all_plain (PyStr.lstrip c s) = true.
Proof.
  induction s as [|a s IH]; simpl; [done |].
  intros H. destruct (Ascii.eqb a c); [| exact H].
  apply andb_prop in H as [_ H]. auto.
Qed.

Lemma digit_cases (d : Z) :
  0 <= d <= 9 ->
  d = 0 \/ d = 1 \/ d = 2 \/ d = 3 \/ d = 4 \/ d = 5 \/ d = 6 \/ d = 7 \/ d = 8 \/ d = 9.
Proof. lia. Qed.

Lemma plain_digit_char (d : Z) : 0 <= d <= 9 -> plain (Fmt.digit_char d) = true.
Proof.
  intros H. destruct (digit_cases d H) as [->|[->|[->|[->|[->|[->|[->|[->|[->| ->]]]]]]]]];
    reflexivity.
Qed.

Lemma all_plain_chars (l : list Z) : decimal l -> all_plain (Fmt.chars l) = true.
Proof.
  induction 1 as [|d l Hd _ IH]; simpl; [done |].
  by rewrite plain_digit_char, IH.
Qed.

Lemma all_plain_zeros (n : nat) : all_plain (Fmt.zeros n) = true.
Proof. induction n as [|n IH]; simpl; [done | exact IH]. Qed.

Lemma all_plain_dec_aux (fuel : nat) (z : Z) (acc : string) :
  all_plain acc = true -> all_plain (Fmt.dec_aux fuel z acc) = true.
Proof.
  revert z acc. induction fuel as [|fuel IH]; intros z acc Hacc; simpl; [done |].
  assert (all_plain (String (Fmt.digit_char (z mod 10)) acc) = true) as H.
  { simpl. rewrite plain_digit_char, Hacc; [done |].
    pose proof (Z.mod_pos_bound z 10). lia. }
  destruct (z <? 10); [exact H | by apply IH].
Qed.

Lemma all_plain_exponent (x : Z) : all_plain (Fmt.exponent x) = true.
Proof.
  unfold Fmt.exponent. rewrite !all_plain_app.
  unfold Fmt.dec_string. rewrite all_plain_dec_aux by done.
  by destruct (x <? 0), (Z.abs x <? 10).
Qed.

Lemma decimal_take (n : nat) (l : list Z) : decimal l -> decimal (take n l).
Proof. apply Forall_take. Qed.

Lemma decimal_drop (n : nat) (l : list Z) : decimal l -> decimal (drop n l).
Proof. apply Forall_drop. Qed.

Lemma all_plain_fixed (digits : list Z) (decpt : Z) :
  decimal digits -> all_plain (Fmt.fixed digits decpt) = true.
Proof.
  intros H. unfold Fmt.fixed.
  destruct (decpt <=? 0); [| destruct (decpt <? _)]; rewrite !all_plain_app.
  - by rewrite all_plain_zeros, all_plain_chars.
  - by rewrite !all_plain_chars by (by apply decimal_take || by apply decimal_drop).
  - by rewrite all_plain_zeros, all_plain_chars.
Qed.

Lemma all_plain_layout (digits : list Z) (decpt : Z) :
  decimal digits -> all_plain (Fmt.layout digits decpt) = true.
Proof.
  intros H. unfold Fmt.layout. destruct (_ || _).
  - rewrite !all_plain_app. by rewrite all_plain_fixed, all_plain_exponent.
  - by apply all_plain_fixed.
Qed.

Lemma decimal_digits_of (k : nat) (N : Z) : decimal (Fmt.digits_of k N).
Proof.
  induction k as [|k IH]; simpl; constructor; [| exact IH].
  pose proof (Z.mod_pos_bound (N / 10 ^ Z.of_nat k) 10). lia.
Qed.

Lemma decimal_strip (l : list Z) : decimal l -> decimal (Fmt.strip_trailing_zeros l).
Proof.
  induction 1 as [|d l Hd _ IH]; simpl; [constructor |].
  destruct (Fmt.strip_trailing_zeros l) eqn:E.
  - destruct (d =? 0); [constructor | by constructor].
  - by constructor.
Qed.

Lemma decimal_dtoa12 (n d : Z) : decimal (Fmt.dtoa12 n d).1.
Proof.
  unfold Fmt.dtoa12. destruct (Fmt.sig12 n d) as [N X].
  destruct (N =? 10 ^ 12); cbn [fst].
  - repeat constructor; lia.
  - apply decimal_strip, decimal_digits_of.
Qed.

Lemma all_plain_format (v : spec_float) : all_plain (Fmt.format_12g v) = true.
Proof.
  destruct v as [s|s| |s m e]; unfold Fmt.format_12g;
    [destruct s; reflexivity | destruct s; reflexivity | reflexivity |].
  destruct (Fmt.frac_of m e) as [n d].
  pose proof (decimal_dtoa12 n d) as H. destruct (Fmt.dtoa12 n d) as [digits decpt].
  rewrite all_plain_app, all_plain_layout by done. by destruct s.
Qed.

(** ** [_first_digit] returns, with a digit from 1 to 9 or nothing *)

Lemma int_of_plain_digit (c : ascii) :
  PyStr.isdigit c && negb (Ascii.eqb c "0") = true -> plain c = true ->
  PyInt.int (Some (String c EmptyString)) = Ok (PyStr.dec_val c) /\
  1 <= PyStr.dec_val c <= 9.
Proof.
  destruct c as [[] [] [] [] [] [] [] []]; vm_compute; intros H1 H2;
    try discriminate; split; (reflexivity || (split; discriminate)).
Qed.

Lemma first_nonzero_digit_plain (text : string) :
  all_plain text = true ->
  exists o, first_nonzero_digit text = Ok o /\
            match o with Some d => 1 <= d <= 9 | None => True end.
Proof.
  induction text as [|c text IH]; cbn [first_nonzero_digit all_plain]; intros H.
  - by exists None.
  - apply andb_prop in H as [Hc H].
    destruct (PyStr.isdigit c && negb (Ascii.eqb c "0")) eqn:E; [| auto].
    destruct (int_of_plain_digit c E Hc) as [-> Hr]. simpl. eauto.
Qed.

Lemma first_digit_returns (value : PyFloat.float) :
  exists o, _first_digit value = Ok o /\
            match o with Some d => 1 <= d <= 9 | None => True end.
Proof.
  unfold _first_digit. destruct (PyFloat.eqb value PyFloat.zero).
  - by exists None.
  - apply first_nonzero_digit_plain. do 2 apply all_plain_lstrip.
    apply all_plain_format.
Qed.

(** C10. [_first_digit] returns for every float, with a digit from 1 to 9
    or [None]; it returns [None] for the two zeros, for NaN and for the
    two infinities. *)
Theorem first_digit_total (value : PyFloat.float) :
  (exists o, _first_digit value = Ok o /\
             (o = None \/ exists d, o = Some d /\ 1 <= d <= 9)) /\
  _first_digit S754_nan = Ok None /\
  _first_digit (S754_infinity false) = Ok None /\
  _first_digit (S754_infinity true) = Ok None /\
  _first_digit (S754_zero false) = Ok None /\
  _first_digit (S754_zero true) = Ok None.
Proof.
  split; [| repeat split; reflexivity].
  destruct (first_digit_returns value) as (o & H & Ho). exists o. split; [done |].
  destruct o as [d|]; eauto.
Qed.

(** ** The counting loop *)

Lemma first_digit_digit_of (value : PyFloat.float) :
  _first_digit value = Ok (digit_of value) /\
  match digit_of value with Some d => 1 <= d <= 9 | None => True end.
Proof.
  unfold digit_of. destruct (first_digit_returns value) as (o & -> & Ho). done.
Qed.

Lemma occurrences_cons (d : Z) (v : PyFloat.float) (values : list PyFloat.float) :
  occurrences d (v :: values)
  = (if decide (digit_of v = Some d) then 1 else 0) + occurrences d values.
Proof.
  unfold occurrences. rewrite filter_cons. destruct (decide _); simpl length; lia.
Qed.

Lemma defined_count_cons (v : PyFloat.float) (values : list PyFloat.float) :
  defined_count (v :: values)
  = (if decide (is_Some (digit_of v)) then 1 else 0) + defined_count values.
Proof.
  unfold defined_count. rewrite filter_cons. destruct (decide _); simpl length; lia.
Qed.

Lemma tally_ext (f g : Z -> Z) :
  (forall d, 1 <= d <= 9 -> f d = g d) -> tally f = tally g.
Proof.
  intros H. unfold tally, digits_1_9. simpl.
  rewrite !(H _) by lia. reflexivity.
Qed.

Lemma tally_item (f : Z -> Z) (d : Z) :
  1 <= d <= 9 -> dict_get (tally f) d = Some (f d).
Proof.
  intros H. destruct (digit_cases d) as [->|[->|[->|[->|[->|[->|[->|[->|[->| ->]]]]]]]]];
    (lia || reflexivity).
Qed.

Lemma tally_set (f : Z -> Z) (d x : Z) :
  1 <= d <= 9 ->
  dict_set (tally f) d x = tally (fun k => if decide (k = d) then x else f k).
Proof.
  intros H. destruct (digit_cases d) as [->|[->|[->|[->|[->|[->|[->|[->|[->| ->]]]]]]]]];
    (lia || reflexivity).
Qed.

Lemma count_loop_tally (values : list PyFloat.float) (f : Z -> Z) (t : Z) :
  count_loop (tally f, t) values
  = Ok (tally (fun d => f d + occurrences d values), t + defined_count values).
Proof.
  revert f t. induction values as [|v values IH]; intros f t; cbn [count_loop].
  - f_equal. f_equal; [| unfold defined_count; simpl; lia].
    apply tally_ext. intros d _. unfold occurrences. simpl. lia.
  - unfold count_step. destruct (first_digit_digit_of v) as [-> Hd]. bind_step.
    rewrite defined_count_cons.
    destruct (digit_of v) as [d0|] eqn:E.
    + unfold dict_item. rewrite tally_item by done. bind_step.
      rewrite tally_set by done. bind_step. rewrite IH. f_equal. f_equal.
      * apply tally_ext. intros d _. rewrite occurrences_cons, E.
        destruct (decide (d = d0)) as [->|Hne].
        -- rewrite decide_True by done. lia.
        -- rewrite decide_False by congruence. lia.
      * rewrite decide_True by eauto. lia.
    + bind_step. rewrite IH. f_equal.
      f_equal; try (rewrite ?decide_False by (intros [? [=]]); lia).
      apply tally_ext. intros d _. rewrite occurrences_cons, E.
      rewrite decide_False by discriminate. lia.
Qed.

Lemma occurrences_sum (values : list PyFloat.float) :
  sum_counts (tally (fun d => occurrences d values)) = defined_count values.
Proof.
  unfold sum_counts, tally, digits_1_9. simpl.
  induction values as [|v values IH].
  - reflexivity.
  - rewrite !occurrences_cons, defined_count_cons.
    destruct (first_digit_digit_of v) as [_ Hd].
    destruct (digit_of v) as [d0|].
    + destruct (decide (is_Some (Some d0))) as [_|Hn]; [| by destruct Hn].
      destruct (digit_cases d0) as [->|[->|[->|[->|[->|[->|[->|[->|[->| ->]]]]]]]]];
        [lia | ..];
        repeat (destruct (decide _) as [?|?]; try congruence); lia.
    + destruct (decide (is_Some None)) as [[? [=]]|_].
      repeat (destruct (decide _) as [?|?]; try congruence). lia.
Qed.

Lemma defined_count_le (values : list PyFloat.float) :
  0 <= defined_count values <= Z.of_nat (length values).
Proof.
  unfold defined_count. pose proof (length_filter (fun v => is_Some (digit_of v)) values).
  lia.
Qed.

Lemma occurrences_perm (d : Z) (values values' : list PyFloat.float) :
  values ≡ₚ values' -> occurrences d values = occurrences d values'.
Proof. intros H. unfold occurrences. by rewrite H. Qed.

Lemma defined_count_perm (values values' : list PyFloat.float) :
  values ≡ₚ values' -> defined_count values = defined_count values'.
Proof. intros H. unfold defined_count. by rewrite H. Qed.

Section AnalyzerFacts.

Variable log10 : PyFloat.float -> result PyFloat.float.
Variable pow : PyFloat.float -> PyFloat.float -> result PyFloat.float.
Variable fsum : list PyFloat.float -> PyFloat.float.

Lemma analyze_statistics (values : list PyFloat.float) :
  analyze_first_digits log10 pow fsum values
  = statistics log10 pow fsum (tally (fun d => occurrences d values))
               (defined_count values).
Proof.
  unfold analyze_first_digits. change initial_counts with (tally (fun _ => 0)).
  rewrite count_loop_tally. simpl. reflexivity.
Qed.

Lemma statistics_fields (counts0 : dict Z Z) (total0 : Z) (r : BenfordResult) :
  statistics log10 pow fsum counts0 total0 = Ok r ->
  counts r = counts0 /\ total r = total0.
Proof.
  unfold statistics. intros H. do 4 inv_bind H. by injection H as <-.
Qed.

(** C3. The counting loop of [analyze_first_digits] always completes; the
    counts it reaches add up to the total, the total is at most the
    number of input values, each count is the number of values with that
    leading digit and the total the number of values that have one; the
    result, when the statistics return it, carries these counts and this
    total. *)
Theorem counts_sum_to_total (values : list PyFloat.float) :
  exists counts0 total0,
    count_loop (initial_counts, 0) values = Ok (counts0, total0) /\
    sum_counts counts0 = total0 /\
    0 <= total0 <= Z.of_nat (length values) /\
    (forall d, 1 <= d <= 9 -> dict_get counts0 d = Some (occurrences d values)) /\
    total0 = defined_count values /\
    analyze_first_digits log10 pow fsum values = statistics log10 pow fsum counts0 total0 /\
    (forall r, analyze_first_digits log10 pow fsum values = Ok r ->
               counts r = counts0 /\ total r = total0 /\
               sum_counts (counts r) = total r /\
               total r <= Z.of_nat (length values)).
Proof.
  exists (tally (fun d => occurrences d values)), (defined_count values).
  pose proof (defined_count_le values) as Hle.
  pose proof (occurrences_sum values) as Hsum.
  split.
  { change initial_counts with (tally (fun _ => 0)). by rewrite count_loop_tally. }
  split; [done |]. split; [done |].
  split; [intros d Hd; by apply tally_item |]. split; [done |].
  split; [apply analyze_statistics |].
  intros r Hr. rewrite analyze_statistics in Hr.
  apply statistics_fields in Hr as [-> ->]. repeat split; (done || lia).
Qed.

(** C5. [analyze_first_digits] is a function of its input whose outcome
    does not depend on the order of the values: on a permutation of the
    input it gives the same outcome, hence the same counts, total,
    observed and expected fractions, [mad] and [chi_square]. *)
Theorem analyze_permutation (values values' : list PyFloat.float) :
  values ≡ₚ values' ->
  analyze_first_digits log10 pow fsum values'
  = analyze_first_digits log10 pow fsum values.
Proof.
  intros H. rewrite !analyze_statistics.
  rewrite (defined_count_perm _ _ H).
  rewrite (tally_ext (fun d => occurrences d values') (fun d => occurrences d values));
    [done |].
  intros d _. symmetry. by apply occurrences_perm.
Qed.

End AnalyzerFacts.

Lemma counts_sum_to_total_witness :
  exists counts0 total0,
    count_loop (initial_counts, 0) Sample.scenario = Ok (counts0, total0) /\
    sum_counts counts0 = total0 /\ 0 <= total0 <= 6.
Proof.
  destruct (counts_sum_to_total Sample.log10 Sample.pow Sample.fsum Sample.scenario)
    as (counts0 & total0 & H1 & H2 & H3 & _).
  exists counts0, total0. auto.
Defined.

(** The scenario of the specification: the values 123, 1450, 19, 234,
    567, 891 have the leading digits 1, 1, 1, 2, 5, 8; the total is 6 and
    the observed fraction of the digit 1 is one half. *)
Example scenario_counts :
  exists r,
    analyze_first_digits Sample.log10 Sample.pow Sample.fsum Sample.scenario = Ok r /\
    counts r = [(1, 3); (2, 1); (3, 0); (4, 0); (5, 1); (6, 0); (7, 0); (8, 1); (9, 0)] /\
    total r = 6 /\
    dict_get (observed_pct r) 1 = Some Sample.half.
Proof. eexists. split; [vm_compute; reflexivity |]. repeat split. Qed.

Lemma analyze_permutation_witness :
  analyze_first_digits Sample.log10 Sample.pow Sample.fsum
                       [Sample.f30; PyFloat.zero; Sample.f10; Sample.f20neg]
  = analyze_first_digits Sample.log10 Sample.pow Sample.fsum
                         [Sample.f10; Sample.f20neg; PyFloat.zero; Sample.f30].
Proof.
  apply (analyze_permutation Sample.log10 Sample.pow Sample.fsum).
  apply (Permutation_trans (l' := [Sample.f10; Sample.f20neg; Sample.f30; PyFloat.zero])).
  - apply perm_skip, perm_skip, perm_swap.
  - apply (Permutation_trans (l' := [Sample.f10; Sample.f30; Sample.f20neg; PyFloat.zero])).
    + apply perm_skip, perm_swap.
    + apply (Permutation_trans (l' := [Sample.f30; Sample.f10; Sample.f20neg; PyFloat.zero])).
      * apply perm_swap.
      * apply perm_skip.
        apply (Permutation_trans (l' := [Sample.f10; PyFloat.zero; Sample.f20neg])).
        -- apply perm_skip, perm_swap.
        -- apply perm_swap.
Defined.

(** ** No data *)

Lemma abs_sub_zero (e : PyFloat.float) :
  PyFloat.ltb PyFloat.zero e = true ->
  PyFloat.abs (PyFloat.sub PyFloat.zero e) = e.
Proof. destruct e as [s|s| |s m x]; try discriminate; by destruct s. Qed.

Lemma zero_mul_not_positive (e : PyFloat.float) :
  PyFloat.ltb PyFloat.zero (PyFloat.mul PyFloat.zero e) = false.
Proof. destruct e as [s|s| |s m x]; try reflexivity; by destruct s. Qed.

Lemma traverse_keys {A} (f : Z -> result (Z * A)) (l : list Z) (E : dict Z A) :
  (forall d y, f d = Ok y -> y.1 = d) ->
  traverse f l = Ok E -> E.*1 = l.
Proof.
  intros Hf. revert E. induction l as [|d l IH]; intros E H; simpl in H.
  - by injection H as <-.
  - inv_bind H. inv_bind H. injection H as <-. simpl. f_equal; eauto.
Qed.

Lemma count_loop_no_digit (values : list PyFloat.float) (st : dict Z Z * Z) :
  Forall (fun v => _first_digit v = Ok None) values ->
  count_loop st values = Ok st.
Proof.
  induction 1 as [|v values Hv _ IH]; simpl; [done |].
  unfold count_step. destruct st as [c t]. by rewrite Hv.
Qed.

Section NoData.

Variable log10 : PyFloat.float -> result PyFloat.float.
Variable pow : PyFloat.float -> PyFloat.float -> result PyFloat.float.
Variable fsum : list PyFloat.float -> PyFloat.float.

Lemma benford_expected_keys (E : dict Z PyFloat.float) :
  _benford_expected log10 = Ok E -> E.*1 = digits_1_9.
Proof.
  unfold _benford_expected. apply traverse_keys.
  intros d y H. do 3 inv_bind H. by injection H as <-.
Qed.

Lemma chi_terms_no_data (counts0 : dict Z Z) (E : dict Z PyFloat.float) (ds : list Z) :
  (forall d, In d ds -> is_Some (dict_get E d)) ->
  chi_terms pow counts0 0 E ds = Ok [].
Proof.
  induction ds as [|d ds IH]; intros H; cbn [chi_terms]; [done |].
  destruct (H d (or_introl eq_refl)) as [e He].
  assert (expected_count 0 E d = Ok (PyFloat.mul PyFloat.zero e)) as ->.
  { unfold expected_count, dict_item. by rewrite He. }
  bind_step. rewrite zero_mul_not_positive. apply IH. intros d' Hd'. apply H. by right.
Qed.

Lemma mad_no_data (E : dict Z PyFloat.float) :
  E.*1 = digits_1_9 ->
  Forall (fun item => PyFloat.ltb PyFloat.zero item.2 = true) E ->
  mad_of fsum initial_counts (map (fun d => (d, PyFloat.zero)) digits_1_9) E
  = Ok (PyFloat.div (fsum (E.*2)) nine).
Proof.
  intros Hkeys Hpos.
  destruct E as [|[k1 e1] [|[k2 e2] [|[k3 e3] [|[k4 e4] [|[k5 e5] [|[k6 e6]
    [|[k7 e7] [|[k8 e8] [|[k9 e9] [|? ?]]]]]]]]]]; try discriminate.
  injection Hkeys as -> -> -> -> -> -> -> -> ->.
  repeat match goal with
         | H : Forall _ (_ :: _) |- _ =>
             let H1 := fresh "P" in
             apply Forall_cons_1 in H as [H1 H]; cbn [snd] in H1
         end.
  unfold mad_of.
  cbn -[PyFloat.abs PyFloat.sub PyFloat.zero PyFloat.div PyFloat.of_int
        PyFloat.eqb float_truediv nine dict_item].
  repeat match goal with
         | |- context [dict_item ?l ?k] =>
             let r := eval vm_compute in (dict_item l k) in
             change (dict_item l k) with r
         end.
  cbn -[PyFloat.abs PyFloat.sub PyFloat.zero PyFloat.div PyFloat.of_int
        PyFloat.eqb float_truediv nine].
  rewrite !abs_sub_zero by done. reflexivity.
Qed.

(** C4. When no input value has a leading digit (the empty input among
    them) and the expected fractions are computed and positive, the
    analysis returns: the total is 0, every observed fraction is 0.0,
    [chi_square] is the integer 0 of the empty sum, and [mad] is the
    average of the expected fractions (their sum divided by 9). No
    exception, so no division by zero, occurs. *)
Theorem no_data_result (values : list PyFloat.float) (E : dict Z PyFloat.float) :
  Forall (fun v => _first_digit v = Ok None) values ->
  _benford_expected log10 = Ok E ->
  Forall (fun item => PyFloat.ltb PyFloat.zero item.2 = true) E ->
  exists r,
    analyze_first_digits log10 pow fsum values = Ok r /\
    total r = 0 /\
    counts r = initial_counts /\
    observed_pct r = map (fun d => (d, PyFloat.zero)) digits_1_9 /\
    (forall d, 1 <= d <= 9 -> dict_get (observed_pct r) d = Some PyFloat.zero) /\
    expected_pct r = E /\
    chi_square r = Int 0 /\
    Ok (mad r) = number_div_int (py_sum fsum (E.*2)) 9 /\
    mad r = PyFloat.div (fsum (E.*2)) nine.
Proof.
  intros Hvalues HE Hpos. pose proof (benford_expected_keys E HE) as Hkeys.
  unfold analyze_first_digits. rewrite count_loop_no_digit by done. bind_step.
  unfold statistics. rewrite HE. bind_step. cbn [fst snd].
  change (observed initial_counts 0)
    with (Ok (map (fun d => (d, PyFloat.zero)) digits_1_9)).
  bind_step. rewrite mad_no_data by done. bind_step.
  rewrite chi_terms_no_data.
  2:{ intros d Hd. change (dict_keys initial_counts) with digits_1_9 in Hd.
      rewrite <- Hkeys in Hd. clear -Hd.
      induction E as [|[k e] E IH]; simpl in *; [done |].
      destruct (decide (k = d)); [eauto |]. destruct Hd; [done | auto]. }
  bind_step. eexists. split; [reflexivity |]. cbn [total counts observed_pct
    expected_pct chi_square mad py_sum].
  repeat split.
  - intros d Hd.
    destruct (digit_cases d) as [->|[->|[->|[->|[->|[->|[->|[->|[->| ->]]]]]]]]];
      (lia || reflexivity).
  - destruct E as [|? ?]; [discriminate |]. reflexivity.
Qed.

End NoData.

Lemma no_data_result_witness :
  exists r,
    analyze_first_digits Sample.log10 Sample.pow Sample.fsum
                         [PyFloat.zero; S754_nan; S754_infinity true] = Ok r /\
    total r = 0 /\ chi_square r = Int 0.
Proof.
  destruct (no_data_result Sample.log10 Sample.pow Sample.fsum
              [PyFloat.zero; S754_nan; S754_infinity true]
              (map (fun d => (d, List.nth (Z.to_nat d - 1) (Sample.log10_table.*2) PyFloat.zero))
                   digits_1_9))
    as (r & H & Ht & _ & _ & _ & _ & Hc & _).
  - repeat constructor.
  - reflexivity.
  - repeat constructor.
  - exists r. auto.
Defined.

(** ** Decimal exponent and rounding *)

Lemma ilog10_aux_spec (fuel : nat) (a : Z) :
  1 <= a < 2 ^ Z.of_nat fuel ->
  0 <= Fmt.ilog10_aux fuel a /\
  10 ^ Fmt.ilog10_aux fuel a <= a < 10 ^ (Fmt.ilog10_aux fuel a + 1).
Proof.
  revert a. induction fuel as [|fuel IH]; intros a Ha.
  - simpl in Ha. lia.
  - cbn [Fmt.ilog10_aux]. destruct (Z.ltb_spec a 10) as [Hlt|Hge].
    + simpl. lia.
    + assert (1 <= a / 10 < 2 ^ Z.of_nat fuel) as Hq.
      { rewrite Nat2Z.inj_succ, Z.pow_succ_r in Ha by lia.
        split; [apply Z.div_le_lower_bound; lia |].
        apply Z.div_lt_upper_bound; lia. }
      destruct (IH _ Hq) as (H0 & Hlo & Hhi).
      set (r := Fmt.ilog10_aux fuel (a / 10)) in *.
      pose proof (Z.mul_div_le a 10 ltac:(lia)).
      pose proof (Z.mul_succ_div_gt a 10 ltac:(lia)).
      assert (10 ^ (r + 1) = 10 * 10 ^ r) as E1
        by (rewrite Z.pow_add_r, Z.pow_1_r by lia; lia).
      assert (10 ^ (1 + r) = 10 * 10 ^ r) as E2
        by (rewrite Z.pow_add_r, Z.pow_1_r by lia; lia).
      assert (10 ^ (1 + r + 1) = 100 * 10 ^ r) as E3
        by (rewrite !Z.pow_add_r, Z.pow_1_r by lia; lia).
      rewrite E2, E3. rewrite E1 in Hhi. lia.
Qed.

Lemma ilog10_spec (a : Z) :
  1 <= a ->
  0 <= Fmt.ilog10 a /\ 10 ^ Fmt.ilog10 a <= a < 10 ^ (Fmt.ilog10 a + 1).
Proof.
  intros Ha. unfold Fmt.ilog10. apply ilog10_aux_spec.
  pose proof (Z.log2_nonneg a). pose proof (Z.log2_spec a ltac:(lia)) as [_ H2].
  rewrite Nat2Z.inj_succ, Z2Nat.id by lia. lia.
Qed.

(** The decimal exponent brings the fraction between 1 and 10. *)
Lemma dec_exp_spec (n d : Z) :
  0 < n -> 0 < d ->
  let '(a, b) := Fmt.scale10 n d (- Fmt.dec_exp n d) in
  0 < b /\ b <= a < 10 * b.
Proof.
  intros Hn Hd. unfold Fmt.dec_exp.
  destruct (Z.leb_spec d n) as [Hle|Hlt].
  - assert (1 <= n / d) as Hq by (apply Z.div_le_lower_bound; lia).
    destruct (ilog10_spec _ Hq) as (H0 & Hlo & Hhi).
    set (r := Fmt.ilog10 (n / d)) in *.
    pose proof (Z.mul_div_le n d Hd). pose proof (Z.mul_succ_div_gt n d Hd).
    assert (10 ^ (r + 1) = 10 * 10 ^ r) as E1
      by (rewrite Z.pow_add_r, Z.pow_1_r by lia; lia).
    rewrite E1 in Hhi.
    assert (0 < 10 ^ r) by (apply Z.pow_pos_nonneg; lia).
    unfold Fmt.scale10. destruct (Z.leb_spec 0 (- r)).
    + assert (r = 0) as Hr by lia. rewrite Hr in *. simpl in *. nia.
    + rewrite Z.opp_involutive. nia.
  - assert (1 <= d / n) as Hq by (apply Z.div_le_lower_bound; lia).
    destruct (ilog10_spec _ Hq) as (H0 & Hlo & Hhi).
    set (j := Fmt.ilog10 (d / n)) in *.
    pose proof (Z.mul_div_le d n Hn). pose proof (Z.mul_succ_div_gt d n Hn).
    assert (0 < 10 ^ j) by (apply Z.pow_pos_nonneg; lia).
    destruct (Z.leb_spec d (n * 10 ^ j)) as [Hge|Hless].
    + rewrite Z.opp_involutive. unfold Fmt.scale10.
      destruct (Z.leb_spec 0 j); [| lia]. nia.
    + rewrite Z.opp_involutive. unfold Fmt.scale10.
      destruct (Z.leb_spec 0 (j + 1)); [| lia].
      assert (10 ^ (j + 1) = 10 * 10 ^ j) as E1
        by (rewrite Z.pow_add_r, Z.pow_1_r by lia; lia).
      rewrite E1 in *. nia.
Qed.

Lemma round_half_even_bounds (a b : Z) :
  a / b <= Fmt.round_half_even a b <= a / b + 1.
Proof.
  unfold Fmt.round_half_even. destruct (_ ?= _); [destruct (Z.even _) | |]; lia.
Qed.

Lemma round_half_even_range (a b lo hi : Z) :
  0 < b -> lo * b <= a < hi * b -> lo <= Fmt.round_half_even a b <= hi.
Proof.
  intros Hb [Hlo Hhi]. pose proof (round_half_even_bounds a b).
  assert (lo <= a / b) by (apply Z.div_le_lower_bound; lia).
  assert (a / b < hi) by (apply Z.div_lt_upper_bound; lia).
  lia.
Qed.

(** Rounding depends on the value of the fraction only. *)
Lemma round_half_even_frac (a b a' b' : Z) :
  0 < b -> 0 < b' -> a * b' = a' * b ->
  Fmt.round_half_even a b = Fmt.round_half_even a' b'.
Proof.
  intros Hb Hb' He.
  assert (a / b = a' / b') as Hq.
  { pose proof (Z.mul_div_le a b Hb). pose proof (Z.mul_succ_div_gt a b Hb).
    apply Z.div_unique with (r := a' - b' * (a / b)); [| lia].
    left. nia. }
  unfold Fmt.round_half_even. rewrite <- Hq.
  assert ((a mod b) * b' = (a' mod b') * b) as Hr.
  { rewrite !Z.mod_eq, <- Hq by lia. nia. }
  assert ((2 * (a mod b) ?= b) = (2 * (a' mod b') ?= b')) as ->; [| done].
  destruct (Z.compare_spec (2 * (a' mod b')) b') as [H|H|H].
  - apply Z.compare_eq_iff. nia.
  - apply Z.compare_lt_iff. nia.
  - apply Z.compare_gt_iff. nia.
Qed.

Lemma scale10_pos (n d k : Z) :
  0 < n -> 0 < d ->
  0 < (Fmt.scale10 n d k).1 /\ 0 < (Fmt.scale10 n d k).2.
Proof.
  intros Hn Hd. unfold Fmt.scale10. destruct (Z.leb_spec 0 k); simpl.
  - assert (0 < 10 ^ k) by (apply Z.pow_pos_nonneg; lia). nia.
  - assert (0 < 10 ^ (- k)) by (apply Z.pow_pos_nonneg; lia). nia.
Qed.

(** Moving the decimal point further by [j >= 0] places multiplies the
    scaled fraction by [10^j]. *)
Lemma scale10_shift (n d k j : Z) :
  0 <= j ->
  (Fmt.scale10 n d (k + j)).1 * (Fmt.scale10 n d k).2
  = (Fmt.scale10 n d k).1 * (Fmt.scale10 n d (k + j)).2 * 10 ^ j.
Proof.
  intros Hj. unfold Fmt.scale10.
  destruct (Z.leb_spec 0 k), (Z.leb_spec 0 (k + j)); simpl; try lia.
  - rewrite Z.pow_add_r by lia. ring.
  - replace (10 ^ j) with (10 ^ ((k + j) + - k)) by (f_equal; lia).
    rewrite (Z.pow_add_r 10 (k + j) (- k)) by lia. ring.
  - replace (10 ^ (- k)) with (10 ^ (- (k + j) + j)) by (f_equal; lia).
    rewrite (Z.pow_add_r 10 (- (k + j)) j) by lia. ring.
Qed.

(** The twelve-digit rounding lies between [10^11] and [10^12]. *)
Lemma sig12_range (n d : Z) :
  0 < n -> 0 < d -> 10 ^ 11 <= (Fmt.sig12 n d).1 <= 10 ^ 12.
Proof.
  intros Hn Hd. unfold Fmt.sig12.
  pose proof (dec_exp_spec n d Hn Hd) as Hs.
  set (X := Fmt.dec_exp n d) in *.
  pose proof (scale10_shift n d (- X) 11 ltac:(lia)) as Hsh.
  pose proof (scale10_pos n d (- X + 11) Hn Hd) as [Hpa Hpb].
  replace (11 - X) with (- X + 11) by lia.
  destruct (Fmt.scale10 n d (- X)) as [a b].
  destruct (Fmt.scale10 n d (- X + 11)) as [A B]. simpl in *.
  destruct Hs as (Hb & Hlo & Hhi).
  apply round_half_even_range; [done |].
  change (10 ^ 12) with (10 * 10 ^ 11). set (P := 10 ^ 11) in *.
  assert (0 < P) by (subst P; lia). nia.
Qed.

Lemma lead_range (n d : Z) : 0 < n -> 0 < d -> 1 <= lead n d <= 9.
Proof.
  intros Hn Hd. unfold lead. pose proof (sig12_range n d Hn Hd) as H.
  destruct (Fmt.sig12 n d) as [N X]. simpl in H.
  destruct (Z.eqb_spec N (10 ^ 12)); [lia |].
  split; [apply Z.div_le_lower_bound; lia |].
  assert (N / 10 ^ 11 < 10); [apply Z.div_lt_upper_bound; lia | lia].
Qed.

(** ** The scan for the first non-zero digit *)

Lemma scan_skip (c : ascii) (s : string) :
  skipped c = true ->
  first_nonzero_digit (String c s) = first_nonzero_digit s.
Proof.
  unfold skipped. intros H. cbn [first_nonzero_digit].
  by destruct (PyStr.isdigit c && negb (Ascii.eqb c "0")).
Qed.

Lemma scan_lstrip (c : ascii) (s : string) :
  skipped c = true ->
  first_nonzero_digit (PyStr.lstrip c s) = first_nonzero_digit s.
Proof.
  intros Hc. induction s as [|a s IH]; [done |].
  cbn [PyStr.lstrip]. destruct (Ascii.eqb_spec a c) as [->|Hne]; [| done].
  by rewrite IH, scan_skip.
Qed.

Lemma scan_zeros (n : nat) (s : string) :
  first_nonzero_digit (Fmt.zeros n ++ s) = first_nonzero_digit s.
Proof.
  induction n as [|n IH]; [done |].
  change (Fmt.zeros (S n) ++ s)%string with (String "0" (Fmt.zeros n ++ s)).
  by rewrite scan_skip.
Qed.

Lemma scan_digit (d : Z) (s : string) :
  1 <= d <= 9 ->
  first_nonzero_digit (String (Fmt.digit_char d) s) = Ok (Some d).
Proof.
  intros H.
  destruct (digit_cases d) as [->|[->|[->|[->|[->|[->|[->|[->|[->| ->]]]]]]]]];
    (lia || reflexivity).
Qed.

Lemma scan_chars (d : Z) (l : list Z) (s : string) :
  1 <= d <= 9 ->
  first_nonzero_digit (Fmt.chars (d :: l) ++ s) = Ok (Some d).
Proof.
  intros H.
  change (Fmt.chars (d :: l) ++ s)%string
    with (String (Fmt.digit_char d) (Fmt.chars l ++ s)).
  by apply scan_digit.
Qed.

Lemma string_app_assoc (a b c : string) : ((a ++ b) ++ c = a ++ (b ++ c))%string.
Proof.
  induction a as [|x a IH]; [done |].
  change (String x ((a ++ b) ++ c) = String x (a ++ (b ++ c)))%string.
  by rewrite IH.
Qed.

Lemma scan_fixed (d : Z) (l : list Z) (decpt : Z) (s : string) :
  1 <= d <= 9 ->
  first_nonzero_digit (Fmt.fixed (d :: l) decpt ++ s) = Ok (Some d).
Proof.
  intros H. unfold Fmt.fixed. destruct (Z.leb_spec decpt 0) as [H0|H0].
  - rewrite !string_app_assoc.
    change ("0." ++ ?t)%string with (String "0" (String "." t)).
    rewrite !scan_skip by reflexivity. rewrite scan_zeros. by apply scan_chars.
  - destruct (Z.ltb_spec decpt (Z.of_nat (length (d :: l)))) as [H1|H1].
    + destruct (Z.to_nat decpt) as [|k] eqn:E; [lia |].
      rewrite !string_app_assoc. cbn [take]. by apply scan_chars.
    + rewrite string_app_assoc. by apply scan_chars.
Qed.

Lemma scan_layout (d : Z) (l : list Z) (decpt : Z) :
  1 <= d <= 9 ->
  first_nonzero_digit (Fmt.layout (d :: l) decpt) = Ok (Some d).
Proof.
  intros H. unfold Fmt.layout. destruct (_ || _).
  - by apply scan_fixed.
  - rewrite <- (append_empty_r (Fmt.fixed _ _)). by apply scan_fixed.
Qed.

(** ** The digits of the rounding *)

Lemma strip_head (d : Z) (l : list Z) :
  d <> 0 -> exists l', Fmt.strip_trailing_zeros (d :: l) = d :: l'.
Proof.
  intros Hd. unfold Fmt.strip_trailing_zeros. cbn [foldr fold_right].
  match goal with |- context [match ?x with _ => _ end] => destruct x end.
  - destruct (Z.eqb_spec d 0); [done | eauto].
  - eauto.
Qed.

Lemma dtoa12_head (n d : Z) :
  0 < n -> 0 < d -> exists l, (Fmt.dtoa12 n d).1 = lead n d :: l.
Proof.
  intros Hn Hd. unfold Fmt.dtoa12, lead.
  pose proof (sig12_range n d Hn Hd) as H.
  destruct (Fmt.sig12 n d) as [N X]. simpl in H.
  destruct (Z.eqb_spec N (10 ^ 12)) as [->|Hne]; cbn [fst]; [eauto |].
  assert (1 <= N / 10 ^ 11 < 10) as Hq.
  { split; [apply Z.div_le_lower_bound; lia | apply Z.div_lt_upper_bound; lia]. }
  change (Fmt.digits_of 12 N)
    with ((N / 10 ^ 11) mod 10 :: Fmt.digits_of 11 N).
  rewrite Z.mod_small by lia. apply strip_head. lia.
Qed.

Lemma frac_of_pos (m : positive) (e : Z) :
  0 < (Fmt.frac_of m e).1 /\ 0 < (Fmt.frac_of m e).2.
Proof.
  unfold Fmt.frac_of. destruct (Z.leb_spec 0 e); simpl.
  - assert (0 < 2 ^ e) by (apply Z.pow_pos_nonneg; lia). nia.
  - assert (0 < 2 ^ (- e)) by (apply Z.pow_pos_nonneg; lia). lia.
Qed.

(** The leading digit of a finite non-zero float is the first of the
    twelve significant digits of its exact value. *)
Lemma first_digit_finite (s : bool) (m : positive) (e : Z) :
  _first_digit (S754_finite s m e)
  = Ok (Some (lead (Fmt.frac_of m e).1 (Fmt.frac_of m e).2)) /\
  1 <= lead (Fmt.frac_of m e).1 (Fmt.frac_of m e).2 <= 9.
Proof.
  pose proof (frac_of_pos m e) as [Hn Hd].
  pose proof (lead_range _ _ Hn Hd) as Hr. split; [| done].
  unfold _first_digit.
  assert (PyFloat.eqb (S754_finite s m e) PyFloat.zero = false) as ->
    by (by destruct s).
  rewrite !scan_lstrip by reflexivity.
  cbn [PyFloat.abs SFabs]. unfold Fmt.format_12g.
  destruct (dtoa12_head _ _ Hn Hd) as [l Hl].
  destruct (Fmt.frac_of m e) as [n d]. cbn [fst snd] in *.
  destruct (Fmt.dtoa12 n d) as [digits decpt]. cbn [fst] in Hl. subst digits.
  change (EmptyString ++ ?t)%string with t. by apply scan_layout.
Qed.

(** ** Scale invariance on exact values *)

Lemma ten_power_pos (k : Z) : (0 < 10 ^ k)%Q.
Proof. apply Qpower_0_lt. reflexivity. Qed.

Lemma inject_Z_pos (z : Z) : 0 < z -> (0 < inject_Z z)%Q.
Proof. intros H. change 0%Q with (inject_Z 0). by rewrite <- Zlt_Qlt. Qed.

Lemma val_pos (n d : Z) : 0 < n -> 0 < d -> (0 < val n d)%Q.
Proof.
  intros Hn Hd. unfold val. apply Qlt_shift_div_l; [by apply inject_Z_pos |].
  rewrite Qmult_0_l. by apply inject_Z_pos.
Qed.

Lemma val_scale10 (n d k : Z) :
  0 < d ->
  (val (Fmt.scale10 n d k).1 (Fmt.scale10 n d k).2 == val n d * 10 ^ k)%Q.
Proof.
  intros Hd. pose proof (inject_Z_pos d Hd) as Hdq.
  unfold Fmt.scale10, val. destruct (Z.leb_spec 0 k) as [Hk|Hk]; cbn [fst snd].
  - rewrite inject_Z_mult, Zpower_Qpower by done. change (inject_Z 10) with 10%Q.
    remember (10 ^ k)%Q as p eqn:Ep; clear Ep. field. lra.
  - rewrite inject_Z_mult, Zpower_Qpower by lia. change (inject_Z 10) with 10%Q.
    assert (10 ^ k == / 10 ^ (- k))%Q as ->
      by (rewrite <- Qpower_opp; by rewrite Z.opp_involutive).
    pose proof (ten_power_pos (- k)). remember (10 ^ (- k))%Q as p eqn:Ep; clear Ep.
    field. split; lra.
Qed.

Lemma val_bounds (a b : Z) :
  0 < b -> b <= a < 10 * b -> (1 <= val a b < 10)%Q.
Proof.
  intros Hb [Hlo Hhi]. pose proof (inject_Z_pos b Hb) as Hbq. unfold val. split.
  - apply Qle_shift_div_l; [done |]. rewrite Qmult_1_l. by rewrite <- Zle_Qle.
  - apply Qlt_shift_div_r; [done |]. change 10%Q with (inject_Z 10).
    rewrite <- inject_Z_mult. by rewrite <- Zlt_Qlt.
Qed.

Lemma val_eq_cross (a b a' b' : Z) :
  0 < b -> 0 < b' -> (val a b == val a' b')%Q -> a * b' = a' * b.
Proof.
  intros Hb Hb' H. pose proof (inject_Z_pos b Hb). pose proof (inject_Z_pos b' Hb').
  apply inject_Z_injective. rewrite !inject_Z_mult. unfold val in H.
  assert (inject_Z a == inject_Z a' / inject_Z b' * inject_Z b)%Q as ->.
  { rewrite <- H. field. lra. }
  field. lra.
Qed.

(** The decimal exponent of [n/d] in rational terms. *)
Lemma dec_exp_decade (n d : Z) :
  0 < n -> 0 < d -> (1 <= val n d * 10 ^ (- Fmt.dec_exp n d) < 10)%Q.
Proof.
  intros Hn Hd. pose proof (dec_exp_spec n d Hn Hd) as H.
  rewrite <- val_scale10 by done.
  destruct (Fmt.scale10 n d (- Fmt.dec_exp n d)) as [a b]. cbn [fst snd].
  destruct H as (Hb & Hr). by apply val_bounds.
Qed.

Lemma decade_step (q : Q) (X Y : Z) :
  X < Y -> (1 <= q * 10 ^ (- Y))%Q -> (10 <= q * 10 ^ (- X))%Q.
Proof.
  intros HXY H.
  assert (q * 10 ^ (- X) == q * 10 ^ (- Y) * 10 ^ (Y - X))%Q as ->.
  { replace (- X) with (- Y + (Y - X)) by lia.
    rewrite Qpower_plus by discriminate.
    remember (10 ^ (- Y))%Q as p eqn:Ep; clear Ep. remember (10 ^ (Y - X))%Q as r eqn:Er; clear Er. ring. }
  assert (10 ^ 1 <= 10 ^ (Y - X))%Q as H10.
  { apply Qpower_le_compat_l; [lia | discriminate]. }
  change (10 ^ 1)%Q with 10%Q in H10.
  pose proof (ten_power_pos (Y - X)).
  remember (10 ^ (- Y))%Q as p eqn:Ep; clear Ep. remember (10 ^ (Y - X))%Q as r eqn:Er; clear Er. nra.
Qed.

Lemma decade_unique (q : Q) (X Y : Z) :
  (1 <= q * 10 ^ (- X) < 10)%Q -> (1 <= q * 10 ^ (- Y) < 10)%Q -> X = Y.
Proof.
  intros [HX1 HX2] [HY1 HY2].
  destruct (Z.lt_trichotomy X Y) as [H|[H|H]]; [| done |].
  - pose proof (decade_step q X Y H HY1). lra.
  - pose proof (decade_step q Y X H HX1). lra.
Qed.

(** Two fractions that differ by a power of ten have the same twelve
    significant digits. *)
Lemma sig12_scale (n1 d1 n2 d2 k : Z) :
  0 < n1 -> 0 < d1 -> 0 < n2 -> 0 < d2 ->
  (val n2 d2 == val n1 d1 * 10 ^ k)%Q ->
  (Fmt.sig12 n2 d2).1 = (Fmt.sig12 n1 d1).1.
Proof.
  intros Hn1 Hd1 Hn2 Hd2 Hv.
  pose proof (dec_exp_decade n1 d1 Hn1 Hd1) as H1.
  pose proof (dec_exp_decade n2 d2 Hn2 Hd2) as H2.
  set (X1 := Fmt.dec_exp n1 d1) in *. set (X2 := Fmt.dec_exp n2 d2) in *.
  assert (X2 = X1 + k) as HX.
  { apply (decade_unique (val n2 d2)); [done |].
    assert (val n2 d2 * 10 ^ (- (X1 + k)) == val n1 d1 * 10 ^ (- X1))%Q as ->; [| done].
    rewrite Hv. replace (- (X1 + k)) with (- X1 + - k) by lia.
    rewrite Qpower_plus by discriminate. rewrite (Qpower_opp 10 k).
    pose proof (ten_power_pos k).
    remember (10 ^ k)%Q as p eqn:Ep; clear Ep. remember (10 ^ (- X1))%Q as r eqn:Er; clear Er. field. lra. }
  unfold Fmt.sig12. fold X1 X2.
  pose proof (val_scale10 n1 d1 (11 - X1) Hd1) as V1.
  pose proof (val_scale10 n2 d2 (11 - X2) Hd2) as V2.
  pose proof (scale10_pos n1 d1 (11 - X1) Hn1 Hd1) as [_ P1].
  pose proof (scale10_pos n2 d2 (11 - X2) Hn2 Hd2) as [_ P2].
  destruct (Fmt.scale10 n1 d1 (11 - X1)) as [A1 B1].
  destruct (Fmt.scale10 n2 d2 (11 - X2)) as [A2 B2]. cbn [fst snd] in *.
  apply round_half_even_frac; [done | done |].
  apply val_eq_cross; [done | done |].
  rewrite V1, V2, Hv, HX. replace (11 - (X1 + k)) with (11 - X1 + - k) by lia.
  rewrite Qpower_plus by discriminate. rewrite (Qpower_opp 10 k).
  pose proof (ten_power_pos k).
  remember (10 ^ k)%Q as p eqn:Ep; clear Ep. remember (10 ^ (11 - X1))%Q as r eqn:Er; clear Er. field. lra.
Qed.

Lemma lead_scale (n1 d1 n2 d2 k : Z) :
  0 < n1 -> 0 < d1 -> 0 < n2 -> 0 < d2 ->
  (val n2 d2 == val n1 d1 * 10 ^ k)%Q ->
  lead n2 d2 = lead n1 d1.
Proof.
  intros Hn1 Hd1 Hn2 Hd2 Hv. unfold lead.
  pose proof (sig12_scale _ _ _ _ _ Hn1 Hd1 Hn2 Hd2 Hv) as H.
  destruct (Fmt.sig12 n1 d1), (Fmt.sig12 n2 d2). cbn [fst] in H. by subst.
Qed.

Lemma val_frac_of (m : positive) (e : Z) :
  (val (Fmt.frac_of m e).1 (Fmt.frac_of m e).2 == inject_Z (Zpos m) * 2 ^ e)%Q.
Proof.
  unfold Fmt.frac_of, val. destruct (Z.leb_spec 0 e) as [He|He]; cbn [fst snd].
  - rewrite inject_Z_mult, Zpower_Qpower by done. change (inject_Z 2) with 2%Q.
    change (inject_Z 1) with 1%Q. remember (2 ^ e)%Q as p eqn:Ep; clear Ep. field.
  - rewrite Zpower_Qpower by lia. change (inject_Z 2) with 2%Q.
    assert (2 ^ e == / 2 ^ (- e))%Q as ->
      by (rewrite <- Qpower_opp; by rewrite Z.opp_involutive).
    assert (0 < 2 ^ (- e))%Q by (apply Qpower_0_lt; reflexivity).
    remember (2 ^ (- e))%Q as p eqn:Ep; clear Ep. field. lra.
Qed.

(** The magnitude of a finite float is the value of its fraction. *)
Lemma exact_finite (s : bool) (m : positive) (e : Z) (q : Q) :
  exact (S754_finite s m e) = Some q ->
  (0 < val (Fmt.frac_of m e).1 (Fmt.frac_of m e).2)%Q /\
  (q == (if s then -1 else 1) * val (Fmt.frac_of m e).1 (Fmt.frac_of m e).2)%Q.
Proof.
  intros [= <-]. pose proof (frac_of_pos m e) as [Hn Hd]. split; [by apply val_pos |].
  rewrite val_frac_of. remember (2 ^ e)%Q as p eqn:Ep; clear Ep.
  destruct s; ring.
Qed.

(** * Further properties *)

(** ** [_load_shared_strings] *)

Lemma findall_runs_t (runs : list string) :
  List.filter (ET.has_tag "t")
    (map (fun s => Sample.el "r" [] None [Sample.el "t" [] (Some s) []]) runs) = [].
Proof. induction runs as [|s runs IH]; [done | exact IH]. Qed.

Lemma findall2_runs (runs : list string) :
  flat_map (fun c => ET.findall c "t")
    (List.filter (ET.has_tag "r")
       (map (fun s => Sample.el "r" [] None [Sample.el "t" [] (Some s) []]) runs))
  = map (fun s => Sample.el "t" [] (Some s) []) runs.
Proof.
  induction runs as [|s runs IH]; [done |].
  change (Sample.el "t" [] (Some s) [] ::
          flat_map (fun c => ET.findall c "t")
            (List.filter (ET.has_tag "r")
               (map (fun s => Sample.el "r" [] None [Sample.el "t" [] (Some s) []]) runs))
          = Sample.el "t" [] (Some s) [] :: map (fun s => Sample.el "t" [] (Some s) []) runs).
  by rewrite IH.
Qed.

Lemma si_element_text (i : StringItem) :
  match ET.find (si_element i) "t" with
  | Some text_node => PyStr.or_empty (text text_node)
  | None =>
      PyStr.join (map (fun run => PyStr.or_empty (text run))
                      (ET.findall2 (si_element i) "r" "t"))
  end = item_text i.
Proof.
  destruct i as [s|runs]; [reflexivity |].
  unfold ET.find, ET.findall, ET.findall2, ET.findall, si_element, Sample.el.
  cbn [children]. rewrite findall_runs_t. cbn [head].
  rewrite findall2_runs. rewrite map_map. cbn [text PyStr.or_empty Sample.el].
  by rewrite map_id.
Qed.

(** X1. A shared-strings part round-trips: whether an item is stored as
    one flat text or as a sequence of formatted runs, the table holds
    the item's string (the concatenation of the runs), item by item and
    in order. *)
Theorem load_shared_strings_round_trip (items : list StringItem) :
  _load_shared_strings (sst_of items) = map item_text items.
Proof.
  unfold _load_shared_strings, sst_of, ET.findall, Sample.el. cbn [children].
  induction items as [|i items IH]; [done |].
  cbn [map]. 
  assert (ET.has_tag "si" (si_element i) = true) as Hsi by (by destruct i).
  cbn [List.filter]. rewrite Hsi. cbn [map]. rewrite si_element_text. by rewrite IH.
Qed.

(** ** The header map *)

Lemma filter_idempotent (p : ascii -> bool) (s : string) :
  PyStr.filter p (PyStr.filter p s) = PyStr.filter p s.
Proof.
  induction s as [|c s IH]; [done |]. cbn [PyStr.filter].
  destruct (p c) eqn:E; [| exact IH]. cbn [PyStr.filter]. rewrite E. by rewrite IH.
Qed.

Lemma column_of_alphabetic (cell : Element) : alphabetic (column_of cell).
Proof. apply filter_idempotent. Qed.

Section DictKeys.
Context {K V : Type} `{EqDecision K}.
Implicit Types (d : dict K V) (k : K) (v : V).

Lemma dict_keys_set_in d k v :
  k ∈ dict_keys d -> dict_keys (dict_set d k v) = dict_keys d.
Proof.
  unfold dict_keys. induction d as [|[k' v'] d IH]; cbn [dict_set fmap list_fmap fst].
  - intros H. by apply elem_of_nil in H.
  - intros H. destruct (decide (k' = k)) as [->|Hne]; [done |].
    cbn [fmap list_fmap fst]. f_equal. apply IH.
    apply elem_of_cons in H as [H|H]; [congruence | done].
Qed.

Lemma dict_keys_set_new d k v :
  k ∉ dict_keys d -> dict_keys (dict_set d k v) = dict_keys d ++ [k].
Proof.
  unfold dict_keys. induction d as [|[k' v'] d IH]; cbn [dict_set fmap list_fmap fst].
  - done.
  - intros H. apply not_elem_of_cons in H as [Hne H].
    destruct (decide (k' = k)); [congruence |].
    cbn [fmap list_fmap fst app]. f_equal. by apply IH.
Qed.

Lemma dict_set_keys_NoDup d k v :
  NoDup (dict_keys d) -> NoDup (dict_keys (dict_set d k v)).
Proof.
  intros H. destruct (decide (k ∈ dict_keys d)) as [Hin|Hout].
  - by rewrite dict_keys_set_in.
  - rewrite dict_keys_set_new by done. apply NoDup_app. split; [done |].
    split; [| apply NoDup_singleton].
    intros x Hx Hx'. apply list_elem_of_singleton in Hx'. by subst.
Qed.

Lemma dict_set_keys_Forall (P : K -> Prop) d k v :
  P k -> Forall P (dict_keys d) -> Forall P (dict_keys (dict_set d k v)).
Proof.
  intros Hk H. destruct (decide (k ∈ dict_keys d)) as [Hin|Hout].
  - by rewrite dict_keys_set_in.
  - rewrite dict_keys_set_new by done. apply Forall_app. split; [done |].
    by constructor.
Qed.

Lemma dict_set_length d k v :
  (length (dict_set d k v) <= S (length d))%nat.
Proof.
  induction d as [|[k' v'] d IH]; cbn [dict_set length]; [lia |].
  destruct (decide (k' = k)); cbn [length]; lia.
Qed.

End DictKeys.

Lemma header_step_keys (strings : list string) (headers headers' : dict string string)
    (cell : Element) :
  header_step strings headers cell = Ok headers' ->
  NoDup (dict_keys headers) /\ Forall alphabetic (dict_keys headers) ->
  (NoDup (dict_keys headers') /\ Forall alphabetic (dict_keys headers')) /\
  (length headers' <= S (length headers))%nat.
Proof.
  unfold header_step. intros H [Hn Ha].
  assert (forall s,
             (NoDup (dict_keys (dict_set headers (column_of cell) s)) /\
              Forall alphabetic (dict_keys (dict_set headers (column_of cell) s))) /\
             (length (dict_set headers (column_of cell) s) <= S (length headers))%nat)
    as Hset.
  { intros s. split; [split |].
    - by apply dict_set_keys_NoDup.
    - apply dict_set_keys_Forall; [apply column_of_alphabetic | done].
    - apply dict_set_length. }
  destruct (ET.find cell "v") as [vn|].
  - destruct (decide _).
    + inv_bind H. inv_bind H. injection H as <-. apply Hset.
    + injection H as <-. apply Hset.
  - injection H as <-. split; [done | lia].
Qed.

Lemma header_loop_keys (strings : list string) (cells : list Element)
    (headers headers' : dict string string) :
  header_loop strings headers cells = Ok headers' ->
  NoDup (dict_keys headers) /\ Forall alphabetic (dict_keys headers) ->
  (NoDup (dict_keys headers') /\ Forall alphabetic (dict_keys headers')) /\
  (length headers' <= length headers + length cells)%nat.
Proof.
  revert headers. induction cells as [|c cells IH]; intros headers H Hinv;
    cbn [header_loop] in H.
  - injection H as <-. split; [done | lia].
  - inv_bind H. destruct (header_step_keys _ _ _ _ Ha Hinv) as [Hinv' Hlen].
    destruct (IH _ H Hinv') as [Hfinal Hlen']. split; [done |].
    cbn [length]. lia.
Qed.

(** X2. The header map has one entry per column at most: its keys are
    pairwise distinct, each is made of alphabetic characters only, and
    there are no more of them than cells in the first row. *)
Theorem column_headers_keys (sheet_root : Element) (strings : list string)
    (headers : dict string string) :
  _column_headers sheet_root strings = Ok headers ->
  NoDup (dict_keys headers) /\
  Forall alphabetic (dict_keys headers) /\
  match head (ET.findall_desc2 sheet_root "sheetData" "row") with
  | Some row1 => (length headers <= length (ET.findall row1 "c"))%nat
  | None => headers = []
  end.
Proof.
  unfold _column_headers. destruct (head _) as [row1|].
  - intros H.
    destruct (header_loop_keys _ _ _ _ H) as [[Hn Ha] Hlen].
    { split; [apply NoDup_nil_2 | constructor]. }
    cbn [length] in Hlen. auto.
  - intros [= <-]. repeat split; [apply NoDup_nil_2 | constructor].
Qed.

Lemma column_headers_keys_witness :
  NoDup ["C"%string; "D"%string] /\ Forall alphabetic ["C"%string; "D"%string].
Proof.
  destruct (column_headers_keys
              (Sample.worksheet
                 [Sample.row "1" [Sample.shared_cell "C1" "0";
                                  Sample.literal_cell "D1" "Memo";
                                  Sample.literal_cell "C1" "Amount"]])
              ["AbsoluteAmount"%string]
              [("C"%string, "Amount"%string); ("D"%string, "Memo"%string)] eq_refl)
    as (H1 & H2 & _).
  split; [exact H1 | exact H2].
Defined.

(** X3. Header resolution stops at the first cell that fails: when the
    cells before it resolve and a shared-string header cell carries an
    index at or beyond the length of the table (or below minus the
    length), [_column_headers] raises [IndexError], whatever cells
    follow. *)
Theorem column_headers_bad_index (sheet_root row1 : Element) (strings : list string)
    (pre post : list Element) (cell value_node : Element)
    (h : dict string string) (i : Z) :
  head (ET.findall_desc2 sheet_root "sheetData" "row") = Some row1 ->
  ET.findall row1 "c" = pre ++ cell :: post ->
  header_loop strings [] pre = Ok h ->
  ET.find cell "v" = Some value_node ->
  ET.get cell "t" = Some "s"%string ->
  PyInt.int (text value_node) = Ok i ->
  Z.of_nat (length strings) <= i \/ i < - Z.of_nat (length strings) ->
  _column_headers sheet_root strings = Raise IndexError.
Proof.
  intros Hrow Hcells Hpre Hv Ht Hi Hr. unfold _column_headers.
  rewrite Hrow, Hcells, header_loop_app, Hpre. bind_step.
  cbn [header_loop]. unfold header_step. rewrite Hv, decide_True, Hi by done.
  bind_step. by rewrite list_index_out_of_range.
Qed.

Lemma column_headers_bad_index_witness :
  _column_headers
    (Sample.worksheet [Sample.row "1" [Sample.literal_cell "A1" "Date";
                                      Sample.shared_cell "B1" "1";
                                      Sample.literal_cell "C1" "Amount"]])
    ["Amount"%string]
  = Raise IndexError.
Proof.
  apply (column_headers_bad_index _
           (Sample.row "1" [Sample.literal_cell "A1" "Date";
                            Sample.shared_cell "B1" "1";
                            Sample.literal_cell "C1" "Amount"])
           _ [Sample.literal_cell "A1" "Date"] [Sample.literal_cell "C1" "Amount"]
           (Sample.shared_cell "B1" "1") (Sample.el "v" [] (Some "1"%string) [])
           [("A"%string, "Date"%string)] 1);
    try reflexivity.
  left. simpl. lia.
Defined.

(** ** [_read_amounts]: what it returns and what it raises *)

Lemma row_loop_inv (strings : list string) (ca cm : option string)
    (rows : list Element) (values out : list PyFloat.float) :
  row_loop strings ca cm values rows = Ok out ->
  exists amounts,
    Forall2 (fun row amount => row_amount strings ca cm row = Ok amount) rows amounts /\
    out = values ++ flat_map contribution amounts.
Proof.
  revert values. induction rows as [|row rows IH]; intros values H; cbn [row_loop] in H.
  - injection H as <-. exists []. split; [constructor |].
    cbn [flat_map]. by rewrite app_nil_r.
  - apply bind_Ok in H as (values' & Hstep & H).
    unfold row_step in Hstep. apply bind_Ok in Hstep as (amount & Hrow & Hstep).
    destruct (IH _ H) as (amounts & Hall & ->).
    exists (amount :: amounts). split; [by constructor |].
    cbn [flat_map]. destruct amount as [x|]; cbn [contribution].
    + destruct (PyFloat.eqb x PyFloat.zero); injection Hstep as <-; [reflexivity |].
      by rewrite <- app_assoc.
    + injection Hstep as <-. reflexivity.
Qed.

Lemma contribution_nonzero (amount : option PyFloat.float) :
  Forall (fun a => PyFloat.eqb a PyFloat.zero = false) (contribution amount) /\
  (length (contribution amount) <= 1)%nat.
Proof.
  destruct amount as [a|]; cbn [contribution]; [| split; [constructor | simpl; lia]].
  destruct (PyFloat.eqb a PyFloat.zero) eqn:E; split;
    (simpl; lia) || (by repeat constructor).
Qed.

Lemma contributions_nonzero (amounts : list (option PyFloat.float)) :
  Forall (fun a => PyFloat.eqb a PyFloat.zero = false) (flat_map contribution amounts) /\
  (length (flat_map contribution amounts) <= length amounts)%nat.
Proof.
  induction amounts as [|amount amounts [IH1 IH2]]; cbn [flat_map length].
  - split; [constructor | lia].
  - destruct (contribution_nonzero amount) as [H1 H2]. split.
    + apply Forall_app. by split.
    + rewrite length_app. lia.
Qed.

Lemma read_amounts_Ok (file : Container) (values : list PyFloat.float) :
  _read_amounts file = Ok values ->
  exists members shared sheet_root headers ca cm,
    file = Archive members /\
    read_xml members "xl/sharedStrings.xml" = Ok shared /\
    read_xml members "xl/worksheets/sheet1.xml" = Ok sheet_root /\
    _column_headers sheet_root (_load_shared_strings shared) = Ok headers /\
    pick_columns headers = (ca, cm) /\
    row_loop (_load_shared_strings shared) ca cm []
             (tail (ET.findall_desc2 sheet_root "sheetData" "row")) = Ok values.
Proof.
  unfold _read_amounts. intros H.
  apply bind_Ok in H as (members & Hopen & H).
  apply bind_Ok in H as (shared & Hs & H).
  apply bind_Ok in H as (sheet_root & Hw & H).
  apply bind_Ok in H as (headers & Hh & H).
  destruct file as [e'|members']; try discriminate. injection Hopen as ->.
  destruct (pick_columns headers) as [ca cm] eqn:Hp.
  exists members, shared, sheet_root, headers, ca, cm.
  repeat (split; [done |]). by destruct ca, cm.
Qed.

(** X4. The extracted sequence never holds a zero (of either sign), and
    it has at most one value per data row. *)
Theorem read_amounts_nonzero (members : gmap string Member) (sheet_root : Element)
    (values : list PyFloat.float) :
  read_xml members "xl/worksheets/sheet1.xml" = Ok sheet_root ->
  _read_amounts (Archive members) = Ok values ->
  Forall (fun a => PyFloat.eqb a PyFloat.zero = false) values /\
  (length values
   <= length (tail (ET.findall_desc2 sheet_root "sheetData" "row")))%nat.
Proof.
  intros Hw H.
  destruct (read_amounts_Ok _ _ H)
    as (members' & shared & sheet' & headers & ca & cm & [= <-] & _ & Hw' & _ & _ & Hloop).
  rewrite Hw in Hw'. injection Hw' as <-.
  destruct (row_loop_inv _ _ _ _ _ _ Hloop) as (amounts & Hall & ->).
  cbn [app]. destruct (contributions_nonzero amounts) as [H1 H2].
  split; [done |]. apply Forall2_length in Hall. lia.
Qed.

Lemma read_amounts_nonzero_witness :
  Forall (fun a => PyFloat.eqb a PyFloat.zero = false)
         [Sample.f10; Sample.f20neg; Sample.f30] /\
  (length [Sample.f10; Sample.f20neg; Sample.f30] <= 4)%nat.
Proof.
  apply (read_amounts_nonzero
           (Sample.members ["AbsoluteAmount"%string] (Sample.amounts_sheet "C"))
           (Sample.worksheet (Sample.amounts_sheet "C")));
    reflexivity.
Defined.

(** X5. [_read_amounts] catches nothing and raises one exception of
    its own. A failure of a library call (opening the archive, reading
    and parsing the shared strings, then the worksheet) comes out of
    [_read_amounts] unchanged; and an exception out of [_read_amounts]
    is such a failure, or the error of resolving and parsing a cell
    ([TypeError], [IndexError], the [ValueError] of [int] or of
    [float]), or the [ValueError] for the missing amount column. *)
Theorem read_amounts_raises (file : Container) (e : exn) :
  (library_failure file e -> _read_amounts file = Raise e) /\
  (_read_amounts file = Raise e ->
   library_failure file e \/ value_error e \/ e = no_amount_column).
Proof.
  unfold library_failure. split.
  - unfold _read_amounts.
    intros [H|(members & -> & [H|(shared & Hs & H)])].
    + by rewrite H.
    + cbn [open_zip]. bind_step. by rewrite H.
    + cbn [open_zip]. bind_step. rewrite Hs. bind_step. by rewrite H.
  - intros H. destruct file as [e'|members].
    { left. left. change (Raise e' = Raise e :> result (list PyFloat.float)) in H.
      by injection H as ->. }
    destruct (read_xml members "xl/sharedStrings.xml") as [shared|e'] eqn:Hs.
    2:{ unfold _read_amounts in H. cbn [open_zip] in H.
        change (Ok members ≫= ?f) with (f members) in H. cbv beta in H.
        rewrite Hs in H. injection H as ->. left. right. eauto. }
    destruct (read_xml members "xl/worksheets/sheet1.xml") as [sheet_root|e'] eqn:Hw.
    2:{ unfold _read_amounts in H. cbn [open_zip] in H.
        change (Ok members ≫= ?f) with (f members) in H. cbv beta in H.
        rewrite Hs in H. change (Ok shared ≫= ?f) with (f shared) in H. cbv beta in H.
        rewrite Hw in H. injection H as ->. left. right. eauto 6. }
    right. destruct (read_amounts_archive_raises _ _ _ _ Hs Hw H) as [Hv|[-> _]]; auto.
Qed.

Lemma read_amounts_raises_witness :
  _read_amounts (Unopened (OtherError "IsADirectoryError"))
  = Raise (OtherError "IsADirectoryError").
Proof.
  apply (proj1 (read_amounts_raises (Unopened (OtherError "IsADirectoryError"))
                  (OtherError "IsADirectoryError"))).
  by left.
Defined.

Lemma row_loop_app (strings : list string) (ca cm : option string)
    (pre post : list Element) (values : list PyFloat.float) :
  row_loop strings ca cm values (pre ++ post)
  = (values' ← row_loop strings ca cm values pre;
     row_loop strings ca cm values' post).
Proof.
  revert values. induction pre as [|row pre IH]; intros values; cbn [row_loop app].
  - done.
  - destruct (row_step strings ca cm values row) as [v|e]; [| done].
    bind_step. apply IH.
Qed.

(** X6. A data row that fails makes the whole extraction fail: when the
    header map holds an amount column, the rows before resolve and one
    row raises (its cell does not parse as a number, or its shared-string
    reference is bad), [_read_amounts] raises that exception and returns
    no values at all. *)
Theorem read_amounts_first_failure (members : gmap string Member)
    (shared sheet_root : Element) (headers : dict string string)
    (ca cm : option string) (pre post : list Element) (row : Element)
    (amounts : list (option PyFloat.float)) (e : exn) :
  read_xml members "xl/sharedStrings.xml" = Ok shared ->
  read_xml members "xl/worksheets/sheet1.xml" = Ok sheet_root ->
  _column_headers sheet_root (_load_shared_strings shared) = Ok headers ->
  pick_columns headers = (ca, cm) ->
  is_Some ca \/ is_Some cm ->
  tail (ET.findall_desc2 sheet_root "sheetData" "row") = pre ++ row :: post ->
  Forall2 (fun r amount => row_amount (_load_shared_strings shared) ca cm r = Ok amount)
          pre amounts ->
  row_amount (_load_shared_strings shared) ca cm row = Raise e ->
  _read_amounts (Archive members) = Raise e.
Proof.
  intros Hs Hw Hh Hp Hsome Hrows Hpre Hrow.
  rewrite (read_amounts_archive _ _ _ Hs Hw), Hh. bind_step. rewrite Hp.
  assert (row_loop (_load_shared_strings shared) ca cm []
                   (tail (ET.findall_desc2 sheet_root "sheetData" "row")) = Raise e) as ->.
  { rewrite Hrows, row_loop_app.
    rewrite (row_loop_contributions _ _ _ _ _ _ Hpre). bind_step.
    cbn [row_loop]. unfold row_step. by rewrite Hrow. }
  destruct ca, cm; done.
Qed.

Lemma read_amounts_first_failure_witness :
  _read_amounts
    (Sample.workbook [] [Sample.row "1" [Sample.literal_cell "A1" "Amount"];
                         Sample.row "2" [Sample.literal_cell "A2" "5"];
                         Sample.row "3" [Sample.literal_cell "A3" "n/a"];
                         Sample.row "4" [Sample.literal_cell "A4" "7"]])
  = Raise PyFloat.could_not_convert.
Proof.
  apply (read_amounts_first_failure _ (Sample.sst [])
           (Sample.worksheet [Sample.row "1" [Sample.literal_cell "A1" "Amount"];
                              Sample.row "2" [Sample.literal_cell "A2" "5"];
                              Sample.row "3" [Sample.literal_cell "A3" "n/a"];
                              Sample.row "4" [Sample.literal_cell "A4" "7"]])
           [("A"%string, "Amount"%string)] None (Some "A"%string)
           [Sample.row "2" [Sample.literal_cell "A2" "5"]]
           [Sample.row "4" [Sample.literal_cell "A4" "7"]]
           (Sample.row "3" [Sample.literal_cell "A3" "n/a"])
           [Some Sample.f5]);
    try reflexivity.
  - right. by eexists.
  - repeat constructor.
Defined.

(** X7. A zero under "AbsoluteAmount" is final: when the row's cell in a
    non-empty "AbsoluteAmount" column reads as zero, the row adds nothing,
    whatever its "Amount" cell holds; the "Amount" column is not
    consulted. *)
Theorem zero_absolute_amount_no_fallback (strings : list string)
    (c : string) (cm : option string) (row : Element)
    (a : PyFloat.float) (values : list PyFloat.float) :
  c <> EmptyString ->
  usable strings row c a ->
  PyFloat.eqb a PyFloat.zero = true ->
  row_step strings (Some c) cm values row = Ok values.
Proof.
  intros Hc Hu Hz. unfold row_step, row_amount.
  rewrite truthy_Some by done. change (default EmptyString (Some c)) with c.
  rewrite (column_amount_usable _ _ _ _ Hu).
  unfold mbind, result_bind. cbv beta iota. by rewrite Hz.
Qed.

Lemma zero_absolute_amount_no_fallback_witness :
  row_step [] (Some "C"%string) (Some "D"%string) [Sample.f10]
           (Sample.row "2" [Sample.literal_cell "C2" "0"; Sample.literal_cell "D2" "5"])
  = Ok [Sample.f10].
Proof.
  apply (zero_absolute_amount_no_fallback [] "C" (Some "D"%string) _ PyFloat.zero);
    [discriminate | | reflexivity].
  exists (Sample.literal_cell "C2" "0"), "0"%string.
  split; [reflexivity |]. split; [reflexivity |]. split; [discriminate | reflexivity].
Defined.

(** ** [_first_digit]: sign, definedness, and the digit it returns *)

(** X8. The leading digit does not depend on the sign of the value. *)
Theorem first_digit_opp (value : PyFloat.float) :
  _first_digit (SFopp value) = _first_digit value.
Proof. destruct value as [s|s| |s m e]; try reflexivity; by destruct s. Qed.

Lemma has_digit_finite (v : PyFloat.float) :
  has_digit v = true <-> exists s m e, v = S754_finite s m e.
Proof.
  split.
  - destruct v as [s|s| |s m e]; try discriminate; eauto.
  - intros (s & m & e & ->). by destruct s.
Qed.

Lemma first_digit_cases (value : PyFloat.float) :
  (has_digit value = true /\
   exists d, _first_digit value = Ok (Some d) /\ 1 <= d <= 9) \/
  (has_digit value = false /\ _first_digit value = Ok None).
Proof.
  destruct value as [s|s| |s m e].
  - right. by destruct s.
  - right. by destruct s.
  - right. done.
  - left. destruct (first_digit_finite s m e) as [H Hr].
    split; [by destruct s | eauto].
Qed.

(** X9. A float has a leading digit exactly when it is finite and not
    zero: [_first_digit] returns [None] for the zeros, the infinities and
    NaN, and a digit for every other float. *)
Theorem first_digit_defined (value : PyFloat.float) :
  (has_digit value = true <->
   exists d, _first_digit value = Ok (Some d) /\ 1 <= d <= 9) /\
  (has_digit value = false <-> _first_digit value = Ok None).
Proof.
  destruct (first_digit_cases value) as [[Hh (d & Hd & Hr)]|[Hh Hn]].
  - rewrite Hh, Hd. split; split; try done; eauto.
  - rewrite Hh, Hn. split; split; try done. by intros (d & [=] & _).
Qed.

Lemma digit_of_has_digit (v : PyFloat.float) :
  is_Some (digit_of v) <-> has_digit v = true.
Proof.
  unfold digit_of.
  destruct (first_digit_cases v) as [[Hh (d & Hd & Hr)]|[Hh Hn]]; rewrite Hh.
  - rewrite Hd. split; eauto.
  - rewrite Hn. split; [by intros [? [=]] | done].
Qed.

Lemma digit_of_opp (v : PyFloat.float) : digit_of (SFopp v) = digit_of v.
Proof.
  unfold digit_of. destruct v as [s|s| |s m e]; try reflexivity; by destruct s.
Qed.

(** The leading digit read off the exact value: a value between
    [d * 10^X] and the last twelve-digit number below [(d+1) * 10^X]. *)
Lemma round_half_even_below (a b lo hi : Z) :
  0 < b -> lo * b <= a -> 2 * a < (2 * hi - 1) * b ->
  lo <= Fmt.round_half_even a b <= hi - 1.
Proof.
  intros Hb Hlo Hhi.
  pose proof (Z.mul_div_le a b Hb). pose proof (Z.mul_succ_div_gt a b Hb).
  pose proof (Z.mod_pos_bound a b Hb). pose proof (Z.div_mod a b ltac:(lia)) as Hdm.
  assert (lo <= a / b) by (apply Z.div_le_lower_bound; lia).
  assert (a / b <= hi - 1) by nia.
  unfold Fmt.round_half_even.
  destruct (Z.compare_spec (2 * (a mod b)) b) as [He|Hl|Hg].
  - destruct (Z.even (a / b)); [lia |]. nia.
  - lia.
  - nia.
Qed.

Lemma lead_of_decade (n d0 D X : Z) :
  0 < n -> 0 < d0 -> 1 <= D <= 9 ->
  (inject_Z D * 10 ^ X <= val n d0)%Q ->
  (val n d0 < inject_Z (D + 1) * 10 ^ X - (1 # 2) * 10 ^ (X - 11))%Q ->
  lead n d0 = D.
Proof.
  intros Hn Hd HD Hlo Hhi.
  pose proof (ten_power_pos X) as PX. pose proof (ten_power_pos (- X)) as PnX.
  pose proof (ten_power_pos (X - 11)) as PX11.
  assert (10 ^ X * 10 ^ (- X) == 1)%Q as Hinv.
  { rewrite <- Qpower_plus by discriminate. by replace (X + - X) with 0 by lia. }
  assert (inject_Z 1 <= inject_Z D /\ inject_Z D <= inject_Z 9)%Q as [HD1 HD9]
    by (rewrite <- !Zle_Qle; lia).
  change (inject_Z 1) with 1%Q in HD1. change (inject_Z 9) with 9%Q in HD9.
  assert (inject_Z (D + 1) == inject_Z D + 1)%Q as HD' by (by rewrite inject_Z_plus).
  (* the decimal exponent is X *)
  assert (Fmt.dec_exp n d0 = X) as HX.
  { apply (decade_unique (val n d0)); [by apply dec_exp_decade |].
    remember (val n d0) as q eqn:Eq; clear Eq.
    remember (10 ^ X)%Q as t eqn:Et; clear Et.
    remember (10 ^ (- X))%Q as u eqn:Eu; clear Eu.
    remember (10 ^ (X - 11))%Q as w eqn:Ew; clear Ew.
    rewrite HD' in Hhi. split; nra. }
  unfold lead, Fmt.sig12. rewrite HX.
  pose proof (val_scale10 n d0 (11 - X) Hd) as V.
  pose proof (scale10_pos n d0 (11 - X) Hn Hd) as [PA PB].
  destruct (Fmt.scale10 n d0 (11 - X)) as [A B]. cbn [fst snd] in *.
  assert (10 ^ (11 - X) == 10 ^ 11 * 10 ^ (- X))%Q as E11.
  { replace (11 - X) with (11 + - X) by lia. by rewrite Qpower_plus by discriminate. }
  assert (10 ^ (X - 11) * 10 ^ (11 - X) == 1)%Q as Einv2.
  { rewrite <- Qpower_plus by discriminate. by replace (X - 11 + (11 - X)) with 0 by lia. }
  assert (D * 10 ^ 11 <= Fmt.round_half_even A B <= (D + 1) * 10 ^ 11 - 1) as HN.
  { pose proof (inject_Z_pos B PB) as PBq.
    assert (val A B * inject_Z B == inject_Z A)%Q as HAB by (unfold val; field; lra).
    apply round_half_even_below; [done | |].
    - rewrite Zle_Qle, !inject_Z_mult. rewrite <- HAB, V.
      change (inject_Z (10 ^ 11)) with (10 ^ 11)%Q.
      rewrite E11.
      remember (val n d0) as q eqn:Eq; clear Eq.
      remember (10 ^ X)%Q as t eqn:Et; clear Et.
      remember (10 ^ (- X))%Q as u eqn:Eu; clear Eu.
      remember (inject_Z B) as b eqn:Eb; clear Eb.
      remember (inject_Z D) as dq eqn:Edq; clear Edq.
      assert (dq <= q * u)%Q by nra.
      assert (0 < 10 ^ 11)%Q by reflexivity.
      remember (10 ^ 11)%Q as P eqn:EP; clear EP.
      assert (dq * P <= q * u * P)%Q by nra.
      nra.
    - assert (2 * A + B < 2 * ((D + 1) * 10 ^ 11) * B) as G; [| lia].
      rewrite Zlt_Qlt, inject_Z_plus, !inject_Z_mult.
      rewrite <- HAB, V. rewrite HD'.
      change (inject_Z (10 ^ 11)) with (10 ^ 11)%Q.
      change (inject_Z 2) with 2%Q. change (inject_Z 1) with 1%Q.
      rewrite HD' in Hhi.
      remember (val n d0) as q eqn:Eq; clear Eq.
      remember (10 ^ X)%Q as t eqn:Et; clear Et.
      remember (10 ^ (X - 11))%Q as w eqn:Ew; clear Ew.
      remember (10 ^ (11 - X))%Q as z eqn:Ez; clear Ez.
      remember (10 ^ (- X))%Q as u eqn:Eu; clear Eu.
      remember (inject_Z B) as b eqn:Eb; clear Eb.
      remember (inject_Z D) as dq eqn:Edq; clear Edq.
      assert (0 < 10 ^ 11)%Q by reflexivity.
      remember (10 ^ 11)%Q as P eqn:EP; clear EP.
      assert (q * z < (dq + 1) * P - (1 # 2))%Q as Hs.
      { assert (q * z < ((dq + 1) * t - (1 # 2) * w) * z)%Q by nra.
        assert (((dq + 1) * t - (1 # 2) * w) * z == (dq + 1) * P * (t * u) - (1 # 2) * (w * z))%Q
          as E by (rewrite E11; ring).
        rewrite E, Hinv, Einv2 in H0. lra. }
      nra. }
  assert (0 < 10 ^ 11) by lia.
  destruct (Z.eqb_spec (Fmt.round_half_even A B) (10 ^ 12)) as [He|Hne].
  - exfalso. change (10 ^ 12) with (10 * 10 ^ 11) in He. nia.
  - symmetry. apply Z.div_unique with (r := Fmt.round_half_even A B - 10 ^ 11 * D); lia.
Qed.

Lemma exact_finite_abs (s : bool) (m : positive) (e : Z) (q : Q) :
  exact (S754_finite s m e) = Some q ->
  (Qabs q == val (Fmt.frac_of m e).1 (Fmt.frac_of m e).2)%Q.
Proof.
  intros H. destruct (exact_finite _ _ _ _ H) as [Hp Hq]. rewrite Hq.
  destruct s.
  - rewrite Qabs_neg; [ring | lra].
  - rewrite Qabs_pos; [ring | lra].
Qed.

(** X10. [_first_digit] returns the first significant digit of the exact
    value: if the magnitude of a float lies between [d * 10^X] and
    [(d+1) * 10^X] for a digit [d] of 1..9, and stays below the upper end
    by more than half a unit of the twelfth significant digit, the result
    is [d]. *)
Theorem first_digit_of_magnitude (value : PyFloat.float) (q : Q) (d X : Z) :
  exact value = Some q ->
  1 <= d <= 9 ->
  (inject_Z d * 10 ^ X <= Qabs q)%Q ->
  (Qabs q < inject_Z (d + 1) * 10 ^ X - (1 # 2) * 10 ^ (X - 11))%Q ->
  _first_digit value = Ok (Some d).
Proof.
  intros Hv Hd Hlo Hhi. destruct value as [s|s| |s m e]; try discriminate.
  - injection Hv as <-. exfalso. pose proof (ten_power_pos X).
    assert (inject_Z 1 <= inject_Z d)%Q by (rewrite <- Zle_Qle; lia).
    change (inject_Z 1) with 1%Q in *. change (Qabs 0) with 0%Q in Hlo.
    remember (10 ^ X)%Q as t eqn:Et; clear Et. nra.
  - rewrite (exact_finite_abs _ _ _ _ Hv) in Hlo, Hhi.
    destruct (first_digit_finite s m e) as [-> _].
    pose proof (frac_of_pos m e) as [Hn Hd0].
    f_equal. f_equal. by apply (lead_of_decade _ _ d X).
Qed.

Lemma first_digit_of_magnitude_witness : _first_digit Sample.f20neg = Ok (Some 2).
Proof.
  apply (first_digit_of_magnitude Sample.f20neg _ 2 1 eq_refl); [lia | |];
    vm_compute; (discriminate || reflexivity).
Defined.

(** ** [analyze_first_digits]: how the counts behave *)

Lemma occurrences_opp (d : Z) (values : list PyFloat.float) :
  occurrences d (map SFopp values) = occurrences d values.
Proof.
  induction values as [|v values IH]; [done |].
  cbn [map]. rewrite !occurrences_cons, digit_of_opp, IH. done.
Qed.

Lemma defined_count_opp (values : list PyFloat.float) :
  defined_count (map SFopp values) = defined_count values.
Proof.
  induction values as [|v values IH]; [done |].
  cbn [map]. rewrite !defined_count_cons, digit_of_opp, IH. done.
Qed.

Lemma occurrences_app (d : Z) (a b : list PyFloat.float) :
  occurrences d (a ++ b) = occurrences d a + occurrences d b.
Proof. unfold occurrences. rewrite list.filter_app, length_app. lia. Qed.

Lemma defined_count_app (a b : list PyFloat.float) :
  defined_count (a ++ b) = defined_count a + defined_count b.
Proof. unfold defined_count. rewrite list.filter_app, length_app. lia. Qed.

Lemma occurrences_has_digit (d : Z) (values : list PyFloat.float) :
  occurrences d (List.filter has_digit values) = occurrences d values.
Proof.
  induction values as [|v values IH]; [done |]. cbn [List.filter].
  destruct (has_digit v) eqn:E.
  - by rewrite !occurrences_cons, IH.
  - rewrite occurrences_cons, IH.
    destruct (decide (digit_of v = Some d)) as [H|H]; [| lia].
    assert (is_Some (digit_of v)) as Hs by eauto.
    apply digit_of_has_digit in Hs. congruence.
Qed.

Lemma defined_count_has_digit (values : list PyFloat.float) :
  defined_count values = Z.of_nat (length (List.filter has_digit values)).
Proof.
  induction values as [|v values IH]; [done |].
  rewrite defined_count_cons, IH. cbn [List.filter].
  destruct (decide (is_Some (digit_of v))) as [H|H].
  - apply digit_of_has_digit in H. rewrite H. cbn [length]. lia.
  - destruct (has_digit v) eqn:E; [| lia].
    destruct H. by apply digit_of_has_digit.
Qed.

Lemma defined_count_filter (values : list PyFloat.float) :
  defined_count (List.filter has_digit values) = defined_count values.
Proof.
  rewrite !defined_count_has_digit. f_equal. f_equal.
  induction values as [|v values IH]; [done |]. cbn [List.filter].
  destruct (has_digit v) eqn:E; cbn [List.filter]; rewrite ?E, IH; done.
Qed.

Section AnalyzerMore.

Variable log10 : PyFloat.float -> result PyFloat.float.
Variable pow : PyFloat.float -> PyFloat.float -> result PyFloat.float.
Variable fsum : list PyFloat.float -> PyFloat.float.

(** X11. Values without a leading digit (zeros, infinities, NaN) do not
    influence the analysis: removing them from the input gives the same
    outcome. *)
Theorem analyze_ignores_undefined (values : list PyFloat.float) :
  analyze_first_digits log10 pow fsum (List.filter has_digit values)
  = analyze_first_digits log10 pow fsum values.
Proof.
  rewrite !analyze_statistics, defined_count_filter.
  rewrite (tally_ext (fun d => occurrences d (List.filter has_digit values))
                     (fun d => occurrences d values)); [done |].
  intros d _. apply occurrences_has_digit.
Qed.

(** X12. The analysis does not depend on the signs of the values:
    negating every value gives the same outcome. *)
Theorem analyze_opp (values : list PyFloat.float) :
  analyze_first_digits log10 pow fsum (map SFopp values)
  = analyze_first_digits log10 pow fsum values.
Proof.
  rewrite !analyze_statistics, defined_count_opp.
  rewrite (tally_ext (fun d => occurrences d (map SFopp values))
                     (fun d => occurrences d values)); [done |].
  intros d _. apply occurrences_opp.
Qed.

(** X13. Counts add up over concatenation: the counts and the total of
    the analysis of [a ++ b] are the sums of those of [a] and of [b]. *)
Theorem analyze_app (a b : list PyFloat.float) (ra rb r : BenfordResult) :
  analyze_first_digits log10 pow fsum a = Ok ra ->
  analyze_first_digits log10 pow fsum b = Ok rb ->
  analyze_first_digits log10 pow fsum (a ++ b) = Ok r ->
  total r = total ra + total rb /\
  forall d, 1 <= d <= 9 ->
    exists ca cb, dict_get (counts ra) d = Some ca /\
                  dict_get (counts rb) d = Some cb /\
                  dict_get (counts r) d = Some (ca + cb).
Proof.
  rewrite !analyze_statistics. intros Ha Hb Hr.
  apply statistics_fields in Ha as [-> ->]. apply statistics_fields in Hb as [-> ->].
  apply statistics_fields in Hr as [-> ->].
  split; [apply defined_count_app |].
  intros d Hd. exists (occurrences d a), (occurrences d b).
  rewrite !tally_item by done. by rewrite occurrences_app.
Qed.

Lemma occurrences_le (d : Z) (values : list PyFloat.float) :
  1 <= d <= 9 -> 0 <= occurrences d values <= defined_count values.
Proof.
  intros Hd. induction values as [|v values IH].
  - unfold occurrences, defined_count. simpl. lia.
  - rewrite occurrences_cons, defined_count_cons.
    destruct (decide (digit_of v = Some d)) as [H|H].
    + rewrite decide_True by (rewrite H; eauto). lia.
    + destruct (decide (is_Some (digit_of v))); lia.
Qed.

(** X14. In every result the dictionaries of counts, observed and
    expected fractions have exactly the keys 1..9, in this order, and
    every count lies between 0 and the total. *)
Theorem analyze_keys (values : list PyFloat.float) (r : BenfordResult) :
  analyze_first_digits log10 pow fsum values = Ok r ->
  dict_keys (counts r) = digits_1_9 /\
  dict_keys (observed_pct r) = digits_1_9 /\
  dict_keys (expected_pct r) = digits_1_9 /\
  forall d c, dict_get (counts r) d = Some c -> 0 <= c <= total r.
Proof.
  rewrite analyze_statistics. intros H.
  pose proof (statistics_fields _ _ _ _ _ _ H) as [Hc Ht].
  unfold statistics in H.
  apply bind_Ok in H as (E & HE & H). apply bind_Ok in H as (O & HO & H).
  apply bind_Ok in H as (m & Hm & H). apply bind_Ok in H as (terms & Hterms & H).
  injection H as <-. cbn [counts observed_pct expected_pct total] in *.
  split; [reflexivity |]. split; [| split].
  - unfold observed in HO. apply traverse_keys in HO; [exact HO |].
    intros d y Hy. apply bind_Ok in Hy as (p & _ & Hy). by injection Hy as <-.
  - by apply (benford_expected_keys log10).
  - intros d c Hget. apply dict_get_Some_In in Hget.
    unfold tally in Hget. apply in_map_iff in Hget as (d' & [= <- <-] & Hin).
    apply occurrences_le. unfold digits_1_9 in Hin. simpl in Hin. lia.
Qed.

(** X15. From extraction to analysis: every extracted value that is
    finite has a leading digit, so the total of the analysis is the
    number of finite extracted values. *)
Theorem pipeline_total (file : Container) (values : list PyFloat.float)
    (r : BenfordResult) :
  _read_amounts file = Ok values ->
  analyze_first_digits log10 pow fsum values = Ok r ->
  total r = Z.of_nat (length (List.filter is_finite values)) /\
  (Forall (fun v => is_finite v = true) values ->
   total r = Z.of_nat (length values)).
Proof.
  intros Hread Hr.
  destruct (read_amounts_Ok _ _ Hread)
    as (members & shared & sheet_root & headers & ca & cm & -> & _ & Hw & _ & _ & Hloop).
  destruct (row_loop_inv _ _ _ _ _ _ Hloop) as (amounts & _ & Hvalues).
  cbn [app] in Hvalues.
  assert (Forall (fun a => PyFloat.eqb a PyFloat.zero = false) values) as Hnz
    by (rewrite Hvalues; apply contributions_nonzero).
  rewrite analyze_statistics in Hr. apply statistics_fields in Hr as [_ ->].
  rewrite defined_count_has_digit.
  assert (List.filter has_digit values = List.filter is_finite values) as ->.
  { clear -Hnz. induction Hnz as [|v values Hv _ IH]; [done |].
    cbn [List.filter]. unfold has_digit at 1. rewrite Hv, andb_true_r.
    by rewrite IH. }
  split; [done |]. intros Hfin. f_equal. f_equal.
  clear -Hfin. induction Hfin as [|v values Hv _ IH]; [done |].
  cbn [List.filter]. rewrite Hv. cbn [length]. by rewrite IH.
Qed.

End AnalyzerMore.

Ltac analyzed H :=
  match goal with
  | |- context [analyze_first_digits ?l ?p ?f ?v] =>
      destruct (analyze_first_digits l p f v) eqn:H;
      [| vm_compute in H; discriminate]
  end.

Lemma analyze_app_witness :
  exists ra rb r,
    analyze_first_digits Sample.log10 Sample.pow Sample.fsum
                         [Sample.f10; Sample.f20neg] = Ok ra /\
    analyze_first_digits Sample.log10 Sample.pow Sample.fsum [Sample.f30] = Ok rb /\
    analyze_first_digits Sample.log10 Sample.pow Sample.fsum
                         ([Sample.f10; Sample.f20neg] ++ [Sample.f30]) = Ok r /\
    total r = total ra + total rb.
Proof.
  analyzed Ha. analyzed Hb. analyzed Hr.
  eexists _, _, _. repeat (split; [reflexivity |]).
  exact (proj1 (analyze_app _ _ _ _ _ _ _ _ Ha Hb Hr)).
Defined.

Lemma analyze_keys_witness :
  exists r,
    analyze_first_digits Sample.log10 Sample.pow Sample.fsum Sample.scenario = Ok r /\
    dict_keys (observed_pct r) = digits_1_9.
Proof.
  analyzed Hr. eexists. split; [reflexivity |].
  exact (proj1 (proj2 (analyze_keys _ _ _ _ _ Hr))).
Defined.

Lemma pipeline_total_witness :
  exists r,
    analyze_first_digits Sample.log10 Sample.pow Sample.fsum
                         [Sample.f10; Sample.f20neg; Sample.f30] = Ok r /\
    total r = Z.of_nat (length (List.filter is_finite [Sample.f10; Sample.f20neg; Sample.f30])).
Proof.
  analyzed Hr. eexists. split; [reflexivity |].
  exact (proj1 (pipeline_total _ _ _ (Sample.amounts_book "C") _ _ eq_refl Hr)).
Defined.

(** ** Shared strings, from the part to the cell *)

Lemma load_shared_strings_lookup (items : list StringItem) (n : nat) (item : StringItem) :
  items !! n = Some item ->
  _load_shared_strings (sst_of items) !! n = Some (item_text item).
Proof.
  unfold _load_shared_strings, sst_of, ET.findall, Sample.el. cbn [children].
  revert n. induction items as [|i items IH]; intros n H; [done |].
  assert (ET.has_tag "si" (si_element i) = true) as Hsi by (by destruct i).
  cbn [map List.filter]. rewrite Hsi. cbn [map]. rewrite si_element_text.
  destruct n as [|n]; [by injection H as -> | by apply IH].
Qed.

(** X16. From the shared-strings part to the cell: a cell of type [s]
    whose value reads as the index [i] of an item of the part resolves
    to the string of that item, whether the item is stored flat or as
    formatted runs. *)
Theorem cell_value_resolves_item (cell value_node : Element)
    (items : list StringItem) (i : Z) (item : StringItem) :
  ET.find cell "v" = Some value_node ->
  ET.get cell "t" = Some "s"%string ->
  PyInt.int (text value_node) = Ok i ->
  0 <= i ->
  items !! Z.to_nat i = Some item ->
  _cell_value cell (_load_shared_strings (sst_of items)) = Ok (Some (item_text item)).
Proof.
  intros Hv Ht Hi Hpos Hitem.
  pose proof (load_shared_strings_lookup _ _ _ Hitem) as Hs.
  destruct (cell_value_shared cell value_node (_load_shared_strings (sst_of items)) i
              Hv Ht Hi) as [Hin _].
  destruct Hin as (s & Hs' & ->).
  - split; [done |]. apply lookup_lt_Some in Hs. lia.
  - congruence.
Qed.

Lemma cell_value_resolves_item_witness :
  _cell_value (Sample.shared_cell "B2" "1")
    (_load_shared_strings (sst_of [Flat "Date"; Runs ["Abs"%string; "olute"%string]]))
  = Ok (Some "Absolute"%string).
Proof.
  apply (cell_value_resolves_item (Sample.shared_cell "B2" "1")
           (Sample.el "v" [] (Some "1"%string) [])
           [Flat "Date"; Runs ["Abs"%string; "olute"%string]] 1
           (Runs ["Abs"%string; "olute"%string]));
    (reflexivity || lia).
Defined.

(** ** The choice of the amount columns *)

Lemma pick_columns_snoc (headers : dict string string) (item : string * string) :
  pick_columns (headers ++ [item]) = pick_step (pick_columns headers) item.
Proof. unfold pick_columns. by rewrite foldl_app. Qed.

Lemma last_column_snoc (header : string) (headers : dict string string)
    (item : string * string) :
  last_column header (headers ++ [item])
  = if decide (item.2 = header) then Some item.1 else last_column header headers.
Proof.
  unfold last_column. rewrite list.filter_app, fmap_app.
  rewrite filter_cons, filter_nil. destruct (decide _).
  - cbn [fmap list_fmap]. by rewrite last_snoc.
  - cbn [fmap list_fmap]. by rewrite app_nil_r.
Qed.

(** X17. When several columns carry the header "AbsoluteAmount" (or
    "Amount"), the scan of the header map keeps the last of them, in the
    order of the map; a header that does not occur leaves the column
    unset. *)
Theorem pick_columns_last (headers : dict string string) :
  pick_columns headers
  = (last_column "AbsoluteAmount" headers, last_column "Amount" headers).
Proof.
  induction headers as [|[col header] headers IH] using rev_ind; [done |].
  rewrite pick_columns_snoc, IH, !last_column_snoc. unfold pick_step. cbn [fst snd].
  destruct (decide (header = "AbsoluteAmount"%string)) as [->|Hne].
  - rewrite decide_False by done. done.
  - by destruct (decide (header = "Amount"%string)).
Qed.

(** ** No division by zero in the analysis *)

Lemma int_truediv_raises (a b : Z) (e : exn) :
  b <> 0 -> int_truediv a b = Raise e -> e = OverflowError.
Proof.
  unfold int_truediv. intros Hb H.
  destruct b; [done | |]; destruct a; try discriminate;
    destruct (PyFloat.round_ratio _ _ _); congruence.
Qed.

Lemma of_int_raises (z : Z) (e : exn) :
  PyFloat.of_int z = Raise e -> e = OverflowError.
Proof. unfold PyFloat.of_int. destruct (PyFloat.of_Z z); congruence. Qed.

Lemma dict_item_raises {V} (d : dict Z V) (k : Z) (e : exn) :
  dict_item d k = Raise e -> e <> ZeroDivisionError.
Proof. unfold dict_item. destruct (dict_get d k); [done |]. by intros [= <-]. Qed.

Lemma positive_nonzero (y : PyFloat.float) :
  PyFloat.ltb PyFloat.zero y = true -> PyFloat.eqb y PyFloat.zero = false.
Proof. destruct y as [s|s| |s m e]; try done; by destruct s. Qed.

Lemma traverse_raises {A B} (f : A -> result B) (l : list A) (e : exn) :
  traverse f l = Raise e -> exists x, In x l /\ f x = Raise e.
Proof.
  induction l as [|x l IH]; cbn [traverse]; [discriminate |]. intros H.
  apply bind_Raise in H as [H|(y & _ & H)]; [exists x; split; [by left | done] |].
  apply bind_Raise in H as [H|(ys & _ & H)]; [| discriminate].
  destruct (IH H) as (x' & Hin & Hx). exists x'. split; [by right | done].
Qed.

Lemma divides_by_zero_false {A} (r : result A) :
  divides_by_zero r = false <-> r <> Raise ZeroDivisionError.
Proof. destruct r as [a|[]]; cbn [divides_by_zero]; split; congruence. Qed.

Section NoZeroDivision.

Variable log10 : PyFloat.float -> result PyFloat.float.
Variable pow : PyFloat.float -> PyFloat.float -> result PyFloat.float.
Variable fsum : list PyFloat.float -> PyFloat.float.

Hypothesis log10_total : forall x, divides_by_zero (log10 x) = false.
Hypothesis pow_total : forall x y, divides_by_zero (pow x y) = false.

Lemma log10_raises (x : PyFloat.float) : log10 x <> Raise ZeroDivisionError.
Proof. apply divides_by_zero_false, log10_total. Qed.

Lemma pow_raises (x y : PyFloat.float) : pow x y <> Raise ZeroDivisionError.
Proof. apply divides_by_zero_false, pow_total. Qed.

Lemma benford_expected_raises : _benford_expected log10 <> Raise ZeroDivisionError.
Proof.
  unfold _benford_expected. intros H.
  apply traverse_raises in H as (d & Hd & H).
  apply bind_Raise in H as [H|(q & _ & H)].
  { apply int_truediv_raises in H; [done |]. unfold digits_1_9 in Hd. simpl in Hd. lia. }
  apply bind_Raise in H as [H|(one & _ & H)].
  { by apply of_int_raises in H. }
  apply bind_Raise in H as [H|(x & _ & H)]; [by apply log10_raises in H | done].
Qed.

Lemma observed_raises (counts0 : dict Z Z) (total0 : Z) :
  observed counts0 total0 <> Raise ZeroDivisionError.
Proof.
  unfold observed. intros H. apply traverse_raises in H as (d & _ & H).
  apply bind_Raise in H as [H|(p & _ & H)]; [| done].
  destruct (Z.eqb_spec total0 0) as [|Hne]; [done |].
  apply bind_Raise in H as [H|(c & _ & H)].
  - by apply dict_item_raises in H.
  - by apply int_truediv_raises in H.
Qed.

Lemma mad_of_raises (counts0 : dict Z Z) (O E : dict Z PyFloat.float) :
  mad_of fsum counts0 O E <> Raise ZeroDivisionError.
Proof.
  unfold mad_of. intros H. apply bind_Raise in H as [H|(terms & _ & H)].
  - apply traverse_raises in H as (d & _ & H).
    apply bind_Raise in H as [H|(o & _ & H)]; [by apply dict_item_raises in H |].
    apply bind_Raise in H as [H|(x & _ & H)]; [by apply dict_item_raises in H | done].
  - unfold number_div_int, py_sum in H. destruct terms; [done |].
    change (PyFloat.of_int 9) with (Ok nine) in H.
    change (float_truediv (fsum (f :: terms)) nine = Raise ZeroDivisionError) in H.
    unfold float_truediv in H. change (PyFloat.eqb nine PyFloat.zero) with false in H.
    done.
Qed.

Lemma chi_terms_raises (counts0 : dict Z Z) (total0 : Z) (E : dict Z PyFloat.float)
    (ds : list Z) :
  chi_terms pow counts0 total0 E ds <> Raise ZeroDivisionError.
Proof.
  induction ds as [|d ds IH]; cbn [chi_terms]; [done |]. intros H.
  destruct (expected_count total0 E d) as [guard|e] eqn:Hg.
  2:{ injection H as ->. unfold expected_count in Hg.
      apply bind_Raise in Hg as [Hg|(x & _ & Hg)]; [by apply dict_item_raises in Hg |].
      apply bind_Raise in Hg as [Hg|(t & _ & Hg)]; [by apply of_int_raises in Hg | done]. }
  change (Ok guard ≫= ?f) with (f guard) in H. cbv beta in H.
  destruct (PyFloat.ltb PyFloat.zero guard) eqn:Hpos; [| done].
  apply bind_Raise in H as [H|(c & _ & H)]; [by apply dict_item_raises in H |].
  change (Ok guard ≫= ?f) with (f guard) in H. cbv beta in H.
  apply bind_Raise in H as [H|(cf & _ & H)]; [by apply of_int_raises in H |].
  apply bind_Raise in H as [H|(two & _ & H)]; [by apply of_int_raises in H |].
  apply bind_Raise in H as [H|(sq & _ & H)]; [by apply pow_raises in H |].
  change (Ok guard ≫= ?f) with (f guard) in H. cbv beta in H.
  apply bind_Raise in H as [H|(term & _ & H)].
  - unfold float_truediv in H. by rewrite (positive_nonzero _ Hpos) in H.
  - apply bind_Raise in H as [H|(terms & _ & H)]; done.
Qed.

(** X18. The analysis never divides by zero: the observed fractions are
    only computed for a total other than zero, and a chi-square term only
    for an expected count above zero. Provided [math.log10] and [**] do
    not raise [ZeroDivisionError] themselves, [analyze_first_digits] does
    not raise it on any input. *)
Theorem analyze_no_zero_division (values : list PyFloat.float) :
  divides_by_zero (analyze_first_digits log10 pow fsum values) = false.
Proof.
  apply divides_by_zero_false.
  rewrite analyze_statistics. unfold statistics. intros H.
  apply bind_Raise in H as [H|(E & _ & H)]; [by apply benford_expected_raises in H |].
  apply bind_Raise in H as [H|(O & _ & H)]; [by apply observed_raises in H |].
  apply bind_Raise in H as [H|(m & _ & H)]; [by apply mad_of_raises in H |].
  apply bind_Raise in H as [H|(terms & _ & H)]; [by apply chi_terms_raises in H | done].
Qed.

End NoZeroDivision.

Lemma analyze_no_zero_division_witness :
  divides_by_zero
    (analyze_first_digits Sample.log10 Sample.pow Sample.fsum Sample.scenario) = false.
Proof.
  apply (analyze_no_zero_division Sample.log10 Sample.pow Sample.fsum).
  - intros x. unfold Sample.log10. by destruct (List.find _ _).
  - intros x y. reflexivity.
Defined.

(** * Scale invariance *)

Lemma round_half_even_up (a b N : Z) :
  0 < b -> (2 * N - 1) * b <= 2 * a -> a < N * b -> Z.even N = true ->
  Fmt.round_half_even a b = N.
Proof.
  intros Hb Hlo Hhi Heven.
  pose proof (Z.mul_div_le a b Hb). pose proof (Z.mul_succ_div_gt a b Hb).
  pose proof (Z.mod_pos_bound a b Hb). pose proof (Z.div_mod a b ltac:(lia)) as Hdm.
  assert (a / b = N - 1) as Hq.
  { assert (N - 1 <= a / b) by (apply Z.div_le_lower_bound; lia).
    assert (a / b < N) by (apply Z.div_lt_upper_bound; lia). lia. }
  unfold Fmt.round_half_even. rewrite Hq.
  destruct (Z.compare_spec (2 * (a mod b)) b) as [He|Hl|Hg].
  - replace (N - 1) with (Z.pred N) by lia. rewrite Z.even_pred.
    rewrite <- Z.negb_even, Heven. cbn [negb]. lia.
  - nia.
  - lia.
Qed.

Lemma power_split (a b : Z) : (10 ^ (a + b) == 10 ^ a * 10 ^ b)%Q.
Proof. by rewrite Qpower_plus by discriminate. Qed.

Lemma lead_below_digit (n d0 D X : Z) :
  0 < n -> 0 < d0 -> 2 <= D <= 9 ->
  (inject_Z D * 10 ^ X - (1 # 2) * 10 ^ (X - 11) <= val n d0)%Q ->
  (val n d0 < inject_Z D * 10 ^ X)%Q ->
  lead n d0 = D.
Proof.
  intros Hn Hd HD Hlo Hhi.
  pose proof (ten_power_pos X) as PX. pose proof (ten_power_pos (- X)) as PnX.
  assert (10 ^ X * 10 ^ (- X) == 1)%Q as Hinv.
  { rewrite <- power_split. by replace (X + - X) with 0 by lia. }
  assert (10 ^ (X - 11) == 10 ^ X * (1 # 100000000000))%Q as E1.
  { replace (X - 11) with (X + -11) by lia. rewrite power_split. reflexivity. }
  assert (10 ^ (11 - X) == 100000000000 * 10 ^ (- X))%Q as E11.
  { replace (11 - X) with (11 + - X) by lia. rewrite power_split. reflexivity. }
  assert (inject_Z 2 <= inject_Z D /\ inject_Z D <= inject_Z 9)%Q as [HD1 HD9]
    by (rewrite <- !Zle_Qle; lia).
  change (inject_Z 2) with 2%Q in HD1. change (inject_Z 9) with 9%Q in HD9.
  rewrite E1 in Hlo.
  assert (Fmt.dec_exp n d0 = X) as HX.
  { apply (decade_unique (val n d0)); [by apply dec_exp_decade |].
    remember (val n d0) as q eqn:Eq; clear Eq.
    remember (10 ^ X)%Q as t eqn:Et; clear Et.
    remember (10 ^ (- X))%Q as u eqn:Eu; clear Eu.
    remember (inject_Z D) as dq eqn:Edq; clear Edq.
    split; nra. }
  unfold lead, Fmt.sig12. rewrite HX.
  pose proof (val_scale10 n d0 (11 - X) Hd) as V.
  pose proof (scale10_pos n d0 (11 - X) Hn Hd) as [PA PB].
  destruct (Fmt.scale10 n d0 (11 - X)) as [A B]. cbn [fst snd] in *.
  pose proof (inject_Z_pos B PB) as PBq.
  assert (val A B * inject_Z B == inject_Z A)%Q as HAB by (unfold val; field; lra).
  assert (Fmt.round_half_even A B = D * 10 ^ 11) as ->.
  { apply round_half_even_up; [done | | |].
    - rewrite Zle_Qle, !inject_Z_mult. rewrite <- HAB, V, E11.
      change (inject_Z 2) with 2%Q.
      replace (inject_Z (2 * (D * 10 ^ 11) - 1))
        with (inject_Z (2 * (D * 10 ^ 11)) + inject_Z (-1))%Q
        by (rewrite <- inject_Z_plus; f_equal; lia).
      rewrite !inject_Z_mult. change (inject_Z (10 ^ 11)) with 100000000000%Q.
      change (inject_Z 2) with 2%Q. change (inject_Z (-1)) with (-1)%Q.
      remember (val n d0) as q eqn:Eq; clear Eq.
      remember (10 ^ X)%Q as t eqn:Et; clear Et.
      remember (10 ^ (- X))%Q as u eqn:Eu; clear Eu.
      remember (inject_Z B) as b eqn:Eb; clear Eb.
      remember (inject_Z D) as dq eqn:Edq; clear Edq.
      assert (dq * 100000000000 - (1 # 2) <= q * (100000000000 * u))%Q.
      { assert ((dq * t - (1 # 2) * (t * (1 # 100000000000))) * (100000000000 * u)
                <= q * (100000000000 * u))%Q by nra.
        assert ((dq * t - (1 # 2) * (t * (1 # 100000000000))) * (100000000000 * u)
                == (t * u) * (dq * 100000000000 - (1 # 2)))%Q as E by field.
        rewrite E, Hinv in H. lra. }
      nra.
    - rewrite Zlt_Qlt, !inject_Z_mult. rewrite <- HAB, V, E11.
      change (inject_Z (10 ^ 11)) with 100000000000%Q.
      remember (val n d0) as q eqn:Eq; clear Eq.
      remember (10 ^ X)%Q as t eqn:Et; clear Et.
      remember (10 ^ (- X))%Q as u eqn:Eu; clear Eu.
      remember (inject_Z B) as b eqn:Eb; clear Eb.
      remember (inject_Z D) as dq eqn:Edq; clear Edq.
      assert (q * (100000000000 * u) < dq * 100000000000)%Q.
      { assert (q * (100000000000 * u) < (dq * t) * (100000000000 * u))%Q by nra.
        assert ((dq * t) * (100000000000 * u) == (t * u) * (dq * 100000000000))%Q as E
            by ring.
        rewrite E, Hinv in H. lra. }
      nra.
    - rewrite Z.even_mul. change (Z.even (10 ^ 11)) with true. apply orb_true_r. }
  destruct (Z.eqb_spec (D * 10 ^ 11) (10 ^ 12)) as [He|Hne]; [lia |].
  apply Z.div_mul. lia.
Qed.

Lemma lead_below_one (n d0 X : Z) :
  0 < n -> 0 < d0 ->
  (10 ^ X - (1 # 2) * 10 ^ (X - 12) <= val n d0)%Q ->
  (val n d0 < 10 ^ X)%Q ->
  lead n d0 = 1.
Proof.
  intros Hn Hd Hlo Hhi.
  pose proof (ten_power_pos X) as PX. pose proof (ten_power_pos (- X)) as PnX.
  assert (10 ^ X * 10 ^ (- X) == 1)%Q as Hinv.
  { rewrite <- power_split. by replace (X + - X) with 0 by lia. }
  assert (10 ^ (X - 12) == 10 ^ X * (1 # 1000000000000))%Q as E1.
  { replace (X - 12) with (X + -12) by lia. rewrite power_split. reflexivity. }
  assert (10 ^ (- (X - 1)) == 10 * 10 ^ (- X))%Q as E10.
  { replace (- (X - 1)) with (1 + - X) by lia. rewrite power_split. reflexivity. }
  assert (10 ^ (11 - (X - 1)) == 1000000000000 * 10 ^ (- X))%Q as E12.
  { replace (11 - (X - 1)) with (12 + - X) by lia. rewrite power_split. reflexivity. }
  rewrite E1 in Hlo.
  assert (Fmt.dec_exp n d0 = X - 1) as HX.
  { apply (decade_unique (val n d0)); [by apply dec_exp_decade |].
    rewrite E10.
    remember (val n d0) as q eqn:Eq; clear Eq.
    remember (10 ^ X)%Q as t eqn:Et; clear Et.
    remember (10 ^ (- X))%Q as u eqn:Eu; clear Eu.
    assert (q * u < 1)%Q by nra.
    assert ((1 - (1 # 2) * (1 # 1000000000000)) <= q * u)%Q.
    { assert ((t - (1 # 2) * (t * (1 # 1000000000000))) * u <= q * u)%Q by nra.
      assert ((t - (1 # 2) * (t * (1 # 1000000000000))) * u
              == (t * u) * (1 - (1 # 2) * (1 # 1000000000000)))%Q as E by ring.
      rewrite E, Hinv in H0. lra. }
    split; lra. }
  unfold lead, Fmt.sig12. rewrite HX.
  pose proof (val_scale10 n d0 (11 - (X - 1)) Hd) as V.
  pose proof (scale10_pos n d0 (11 - (X - 1)) Hn Hd) as [PA PB].
  destruct (Fmt.scale10 n d0 (11 - (X - 1))) as [A B]. cbn [fst snd] in *.
  pose proof (inject_Z_pos B PB) as PBq.
  assert (val A B * inject_Z B == inject_Z A)%Q as HAB by (unfold val; field; lra).
  assert (Fmt.round_half_even A B = 10 ^ 12) as ->; [| reflexivity].
  apply round_half_even_up; [done | | | reflexivity].
  - rewrite Zle_Qle, !inject_Z_mult. rewrite <- HAB, V, E12.
    change (inject_Z (2 * 10 ^ 12 - 1)) with 1999999999999%Q.
    change (inject_Z 2) with 2%Q.
    remember (val n d0) as q eqn:Eq; clear Eq.
    remember (10 ^ X)%Q as t eqn:Et; clear Et.
    remember (10 ^ (- X))%Q as u eqn:Eu; clear Eu.
    remember (inject_Z B) as b eqn:Eb; clear Eb.
    assert (1000000000000 - (1 # 2) <= q * (1000000000000 * u))%Q.
    { assert ((t - (1 # 2) * (t * (1 # 1000000000000))) * (1000000000000 * u)
              <= q * (1000000000000 * u))%Q by nra.
      assert ((t - (1 # 2) * (t * (1 # 1000000000000))) * (1000000000000 * u)
              == (t * u) * (1000000000000 - (1 # 2)))%Q as E by field.
      rewrite E, Hinv in H. lra. }
    nra.
  - rewrite Zlt_Qlt, !inject_Z_mult. rewrite <- HAB, V, E12.
    change (inject_Z (10 ^ 12)) with 1000000000000%Q.
    remember (val n d0) as q eqn:Eq; clear Eq.
    remember (10 ^ X)%Q as t eqn:Et; clear Et.
    remember (10 ^ (- X))%Q as u eqn:Eu; clear Eu.
    remember (inject_Z B) as b eqn:Eb; clear Eb.
    assert (q * (1000000000000 * u) < 1000000000000)%Q.
    { assert (q * (1000000000000 * u) < t * (1000000000000 * u))%Q by nra.
      assert (t * (1000000000000 * u) == (t * u) * 1000000000000)%Q as E by ring.
      rewrite E, Hinv in H. lra. }
    nra.
Qed.

(** The leading digit of a number between the floor and the ceiling of
    a digit. *)
Lemma lead_of_region (n d0 D X : Z) :
  0 < n -> 0 < d0 -> 1 <= D <= 9 ->
  (digit_floor D X <= val n d0)%Q -> (val n d0 < digit_ceiling D X)%Q ->
  lead n d0 = D.
Proof.
  intros Hn Hd HD Hlo Hhi. unfold digit_ceiling in Hhi.
  destruct (Qlt_le_dec (val n d0) (inject_Z D * 10 ^ X)) as [Hbelow|Habove].
  - unfold digit_floor in Hlo. destruct (Z.eqb_spec D 1) as [->|Hne].
    + apply (lead_below_one n d0 X); try done.
      change (inject_Z 1) with 1%Q in Hbelow. by rewrite Qmult_1_l in Hbelow.
    + apply (lead_below_digit n d0 D X); try done. lia.
  - by apply (lead_of_decade n d0 D X).
Qed.

Lemma digit_floor_succ (d X : Z) : 1 <= d -> digit_floor (d + 1) X = digit_ceiling d X.
Proof.
  intros Hd. unfold digit_floor, digit_ceiling.
  destruct (Z.eqb_spec (d + 1) 1); [lia | done].
Qed.

Lemma digit_floor_pos (d X : Z) : 1 <= d -> (0 < digit_floor d X)%Q.
Proof.
  intros Hd. unfold digit_floor. pose proof (ten_power_pos X).
  destruct (Z.eqb_spec d 1) as [->|Hne].
  - assert (10 ^ (X - 12) == 10 ^ X * (1 # 1000000000000))%Q as ->.
    { replace (X - 12) with (X + -12) by lia. rewrite power_split. reflexivity. }
    remember (10 ^ X)%Q as t eqn:Et; clear Et. lra.
  - assert (10 ^ (X - 11) == 10 ^ X * (1 # 100000000000))%Q as ->.
    { replace (X - 11) with (X + -11) by lia. rewrite power_split. reflexivity. }
    assert (inject_Z 2 <= inject_Z d)%Q as H2 by (rewrite <- Zle_Qle; lia).
    change (inject_Z 2) with 2%Q in H2.
    remember (10 ^ X)%Q as t eqn:Et; clear Et.
    remember (inject_Z d) as dq eqn:Edq; clear Edq. nra.
Qed.

Lemma digit_floor_scale (d X k : Z) :
  (digit_floor d (X + k) == digit_floor d X * 10 ^ k)%Q.
Proof.
  unfold digit_floor.
  replace (X + k - 12) with (X - 12 + k) by lia.
  replace (X + k - 11) with (X - 11 + k) by lia.
  destruct (d =? 1); rewrite !power_split; ring.
Qed.

Lemma digit_ceiling_scale (d X k : Z) :
  (digit_ceiling d (X + k) == digit_ceiling d X * 10 ^ k)%Q.
Proof.
  unfold digit_ceiling. replace (X + k - 11) with (X - 11 + k) by lia.
  rewrite !power_split. ring.
Qed.

(** Every positive number has a leading digit when rounded. *)
Lemma region_total (n d0 : Z) :
  0 < n -> 0 < d0 ->
  exists D X, 1 <= D <= 9 /\
              (digit_floor D X <= val n d0)%Q /\ (val n d0 < digit_ceiling D X)%Q.
Proof.
  intros Hn Hd. pose proof (dec_exp_decade n d0 Hn Hd) as [Hlo Hhi].
  set (X := Fmt.dec_exp n d0) in *.
  pose proof (ten_power_pos X) as PX. pose proof (ten_power_pos (- X)) as PnX.
  assert (10 ^ X * 10 ^ (- X) == 1)%Q as Hinv.
  { rewrite <- power_split. by replace (X + - X) with 0 by lia. }
  assert (10 ^ X <= val n d0)%Q as Hlo'.
  { remember (val n d0) as q eqn:Eq; clear Eq.
    remember (10 ^ X)%Q as t eqn:Et; clear Et.
    remember (10 ^ (- X))%Q as u eqn:Eu; clear Eu.
    assert (t * 1 <= t * (q * u))%Q by nra.
    assert (t * (q * u) == (t * u) * q)%Q as E by ring.
    rewrite E, Hinv in H. lra. }
  assert (val n d0 < 10 * 10 ^ X)%Q as Hhi'.
  { remember (val n d0) as q eqn:Eq; clear Eq.
    remember (10 ^ X)%Q as t eqn:Et; clear Et.
    remember (10 ^ (- X))%Q as u eqn:Eu; clear Eu.
    assert (t * (q * u) < t * 10)%Q by nra.
    assert (t * (q * u) == (t * u) * q)%Q as E by ring.
    rewrite E, Hinv in H. lra. }
  assert (digit_floor 1 X <= val n d0)%Q as H1.
  { unfold digit_floor. cbn [Z.eqb Pos.eqb]. pose proof (ten_power_pos (X - 12)).
    remember (10 ^ (X - 12))%Q as w eqn:Ew; clear Ew. lra. }
  assert (forall D, 1 <= D <= 8 ->
             (digit_floor D X <= val n d0)%Q ->
             (exists D' X', 1 <= D' <= 9 /\
                 (digit_floor D' X' <= val n d0)%Q /\ (val n d0 < digit_ceiling D' X')%Q) \/
             (digit_floor (D + 1) X <= val n d0)%Q) as Hstep.
  { intros D HD Hf. destruct (Qlt_le_dec (val n d0) (digit_ceiling D X)) as [Hc|Hc].
    - left. exists D, X. split; [lia | done].
    - right. by rewrite digit_floor_succ by lia. }
  destruct (Hstep 1 ltac:(lia) H1) as [?|H2]; [done |].
  destruct (Hstep 2 ltac:(lia) H2) as [?|H3]; [done |].
  destruct (Hstep 3 ltac:(lia) H3) as [?|H4]; [done |].
  destruct (Hstep 4 ltac:(lia) H4) as [?|H5]; [done |].
  destruct (Hstep 5 ltac:(lia) H5) as [?|H6]; [done |].
  destruct (Hstep 6 ltac:(lia) H6) as [?|H7]; [done |].
  destruct (Hstep 7 ltac:(lia) H7) as [?|H8]; [done |].
  destruct (Hstep 8 ltac:(lia) H8) as [?|H9]; [done |].
  destruct (Qlt_le_dec (val n d0) (digit_ceiling 9 X)) as [Hc|Hc].
  - exists 9, X. split; [lia | done].
  - exists 1, (X + 1). split; [lia |]. split.
    + eapply Qle_trans; [| exact Hc]. unfold digit_floor, digit_ceiling. cbn [Z.eqb Pos.eqb].
      replace (X + 1 - 12) with (X - 11) by lia. rewrite power_split.
      change (inject_Z (9 + 1)) with 10%Q. change (10 ^ 1)%Q with 10%Q.
      remember (10 ^ X)%Q as t eqn:Et; clear Et.
      remember (10 ^ (X - 11))%Q as w eqn:Ew; clear Ew. lra.
    + unfold digit_ceiling.
      assert (10 ^ (X + 1 - 11) == 10 ^ X * (1 # 10000000000))%Q as ->.
      { replace (X + 1 - 11) with (X + -10) by lia. rewrite power_split. reflexivity. }
      rewrite power_split. change (inject_Z (1 + 1)) with 2%Q. change (10 ^ 1)%Q with 10%Q.
      remember (val n d0) as q eqn:Eq; clear Eq.
      remember (10 ^ X)%Q as t eqn:Et; clear Et. lra.
Qed.

Lemma first_digit_of_region (s : bool) (m : positive) (e : Z) (D X : Z) :
  1 <= D <= 9 ->
  (digit_floor D X <= val (Fmt.frac_of m e).1 (Fmt.frac_of m e).2)%Q ->
  (val (Fmt.frac_of m e).1 (Fmt.frac_of m e).2 < digit_ceiling D X)%Q ->
  _first_digit (S754_finite s m e) = Ok (Some D).
Proof.
  intros HD Hlo Hhi. destruct (first_digit_finite s m e) as [-> _].
  pose proof (frac_of_pos m e) as [Hn Hd0].
  f_equal. f_equal. by apply (lead_of_region _ _ D X).
Qed.

(** C2 (as the code has it). Let the finite float [w] lie within the
    relative distance [eps] of the non-zero float [v] times [10^k]: with
    [eps = 0] it holds the value exactly, with [eps] about [2^-52] it is
    the product as floating point computes it. Then [v] and [w] have the
    same leading digit, a digit from 1 to 9, provided that, when [eps]
    is not zero, [v] is not within [eps] of a point where the rounding to
    twelve significant digits changes the leading digit. The texts
    0.000123 and 123000 read as floats whose leading digit is 1. *)
Theorem first_digit_scale (v w : PyFloat.float) (q q' eps : Q) (k : Z) :
  exact v = Some q -> exact w = Some q' ->
  ~ (q == 0)%Q -> (0 <= eps)%Q ->
  (Qabs (q' - q * 10 ^ k) <= eps * Qabs q * 10 ^ k)%Q ->
  ((0 < eps)%Q -> clear_of_ties eps (Qabs q)) ->
  _first_digit w = _first_digit v /\
  (exists d, _first_digit v = Ok (Some d) /\ 1 <= d <= 9) /\
  (f ← PyFloat.of_string "0.000123"; _first_digit f) = Ok (Some 1) /\
  (f ← PyFloat.of_string "123000"; _first_digit f) = Ok (Some 1).
Proof.
  intros Hv Hw Hq Heps Hclose Hclear. pose proof (ten_power_pos k) as Ht.
  destruct v as [sv|sv| |sv mv ev]; try discriminate.
  { injection Hv as <-. by destruct Hq. }
  pose proof (exact_finite_abs _ _ _ _ Hv) as Ea.
  pose proof (frac_of_pos mv ev) as [Hnv Hdv].
  pose proof (val_pos _ _ Hnv Hdv) as Pa.
  set (a := val (Fmt.frac_of mv ev).1 (Fmt.frac_of mv ev).2) in *.
  assert (exists d X, 1 <= d <= 9 /\
            (digit_floor d X <= a * (1 - eps))%Q /\ (a * (1 + eps) < digit_ceiling d X)%Q)
    as (d & X & Hd & Hlo & Hhi).
  { destruct (Qlt_le_dec 0 eps) as [Hpos|Hzero].
    - destruct (Hclear Hpos) as (d & X & Hd & Hlo & Hhi).
      exists d, X. rewrite <- Ea. done.
    - assert (eps == 0)%Q as E0 by lra.
      destruct (region_total _ _ Hnv Hdv) as (d & X & Hd & Hlo & Hhi). fold a in Hlo, Hhi.
      exists d, X. split; [done |]. rewrite E0. split; [| lra].
      eapply Qle_trans; [exact Hlo |]. lra. }
  assert (_first_digit (S754_finite sv mv ev) = Ok (Some d)) as Hdv'.
  { apply (first_digit_of_region _ _ _ d X); [done | |]; fold a.
    - eapply Qle_trans; [exact Hlo |]. nra.
    - eapply Qle_lt_trans; [| exact Hhi]. nra. }
  assert (a * 10 ^ k * (1 - eps) <= Qabs q' /\ Qabs q' <= a * 10 ^ k * (1 + eps))%Q
    as [Hwlo Hwhi].
  { assert (Qabs (q * 10 ^ k) == a * 10 ^ k)%Q as Eqt.
    { rewrite Qabs_Qmult, Ea. rewrite (Qabs_pos (10 ^ k)) by lra. done. }
    rewrite Ea in Hclose. split.
    - pose proof (Qabs_triangle_reverse (q * 10 ^ k) (q * 10 ^ k - q')) as Hr.
      assert (q * 10 ^ k - (q * 10 ^ k - q') == q')%Q as E1 by ring.
      rewrite E1, Eqt in Hr.
      assert (Qabs (q * 10 ^ k - q') == Qabs (q' - q * 10 ^ k))%Q as E2.
      { rewrite <- (Qabs_opp (q * 10 ^ k - q')).
        assert (- (q * 10 ^ k - q') == q' - q * 10 ^ k)%Q as -> by ring. done. }
      rewrite E2 in Hr.
      remember (Qabs q') as b eqn:Eb; clear Eb.
      remember (Qabs (q' - q * 10 ^ k)) as c eqn:Ec; clear Ec.
      remember (10 ^ k)%Q as t eqn:Et; clear Et. nra.
    - pose proof (Qabs_triangle (q * 10 ^ k) (q' - q * 10 ^ k)) as Hr.
      assert (q * 10 ^ k + (q' - q * 10 ^ k) == q')%Q as E1 by ring.
      rewrite E1, Eqt in Hr.
      remember (Qabs q') as b eqn:Eb; clear Eb.
      remember (Qabs (q' - q * 10 ^ k)) as c eqn:Ec; clear Ec.
      remember (10 ^ k)%Q as t eqn:Et; clear Et. nra. }
  pose proof (digit_floor_pos d X ltac:(lia)) as Pf.
  assert (0 < a * 10 ^ k * (1 - eps))%Q as Pwlo.
  { remember (10 ^ k)%Q as t eqn:Et; clear Et.
    remember (digit_floor d X) as fl eqn:Ef; clear Ef.
    assert (0 < a * (1 - eps))%Q by lra. nra. }
  assert (_first_digit w = Ok (Some d)) as Hdw.
  { destruct w as [sw|sw| |sw mw ew]; try discriminate.
    { injection Hw as <-. change (Qabs 0) with 0%Q in Hwlo. lra. }
    pose proof (exact_finite_abs _ _ _ _ Hw) as Eb. rewrite Eb in Hwlo, Hwhi.
    apply (first_digit_of_region _ _ _ d (X + k)); [done | |].
    - rewrite digit_floor_scale. eapply Qle_trans; [| exact Hwlo].
      remember (10 ^ k)%Q as t eqn:Et; clear Et.
      remember (digit_floor d X) as fl eqn:Ef; clear Ef. nra.
    - rewrite digit_ceiling_scale. eapply Qle_lt_trans; [exact Hwhi |].
      remember (10 ^ k)%Q as t eqn:Et; clear Et.
      remember (digit_ceiling d X) as ce eqn:Ec; clear Ec. nra. }
  split; [by rewrite Hdw, Hdv' |]. split; [eauto |]. split; reflexivity.
Qed.

(** The float 0.1 and the float 1.0: ten times the first is not the
    second exactly, but lies within [2^-52] of it. *)
Lemma first_digit_scale_witness :
  _first_digit (S754_finite false 4503599627370496 (-52))
  = _first_digit (S754_finite false 7205759403792794 (-56)).
Proof.
  refine (proj1 (first_digit_scale (S754_finite false 7205759403792794 (-56))
                   (S754_finite false 4503599627370496 (-52))
                   _ _ (1 # 4503599627370496) 1 eq_refl eq_refl _ _ _ _)).
  - vm_compute. discriminate.
  - vm_compute. discriminate.
  - vm_compute. discriminate.
  - intros _. exists 1, (-1). split; [lia |]. split.
    + vm_compute. discriminate.
    + vm_compute. reflexivity.
Defined.

(** C2 (as stated) fails on floats: the float nearest to 999.9999999995
    formats as 1000 (leading digit 1), its product by 10 is rounded to a
    float that formats as 9999.99999999 (leading digit 9); and the
    product of the float 1e308 by 10 is infinite and has no leading
    digit. *)
Lemma first_digit_not_scale_invariant :
  PyFloat.of_string "999.9999999995" = Ok Sample.near_1000 /\
  _first_digit Sample.near_1000 = Ok (Some 1) /\
  _first_digit (PyFloat.mul Sample.near_1000 (PyFloat.of_Z 10)) = Ok (Some 9) /\
  PyFloat.of_string "1e308" = Ok Sample.f1e308 /\
  _first_digit Sample.f1e308 = Ok (Some 1) /\
  _first_digit (PyFloat.mul Sample.f1e308 (PyFloat.of_Z 10)) = Ok None.
Proof. repeat split; vm_compute; reflexivity. Qed.
